(** * A shallow embedding of [main.py]: the OAuth state token and the month calendar

    The page script [main.py] holds these pieces of logic worth verifying:

    - [generate_state] / [verify_state]: a self-certifying anti-forgery token,
      16 random bytes followed by their HMAC-SHA256 tag, carried as URL-safe
      base64 text;
    - the month calendar: previous/next navigation of the (year, month)
      cursor, [fetch_month_event_days], the grid of
      [calendar.Calendar(firstweekday=6).monthdayscalendar] and the label of a
      day button;
    - a run of the calendar part of the page: the header with its two
      buttons, the days with events, and the loop over the grid with its day
      buttons;
    - the OAuth callback at the top of the script, from the reading of the
      query parameters to the exchange of the code.

    Python values are modelled as follows.  A [bytes] object is a list of
    [byte]; a [str] is the list of its code points; an [int] is a [Z]; a [set]
    of ints is a [gset Z]; a call that may raise returns in the monad [py],
    and [try ... except Exception] is a match on its outcome.  The functions
    of the Python standard library that the script calls ([base64], [hmac],
    [hashlib], [calendar], [datetime], [int], [str]) are modelled after their
    CPython 3.11 implementations, each in a module of its own.  Of Streamlit,
    [st.session_state] is a record, [st.query_params] a finite map from a key
    to one string, [st.button] a predicate that tells which button is pressed
    in the run, and what a run shows is returned as a value; the calendar
    provider and the exchange of the authorization code are functions that
    return or raise. *)

From Stdlib Require Import ZArith NArith List Lia Bool.
From Stdlib Require Import Strings.Byte Strings.Ascii Strings.String DecimalPos.
From stdpp Require Import base numbers option list gmap.

#[local] Set Warnings "-clear-no-such-hyp".

(** ** Python values and exceptions *)

Abbreviation bytes := (list byte).

(** A [str]: the sequence of its code points. *)
Abbreviation pystr := (list N).

(** The value an [unsigned char] keeps of an integer. *)
Definition byte_of_N (n : N) : byte := default x00 (Byte.of_N (n mod 256)).

(** An ASCII literal as a [str] and as a [bytes] object. *)
Definition ascii_str (s : string) : pystr := map Byte.to_N (list_byte_of_string s).
Definition ascii_bytes (s : string) : bytes := list_byte_of_string s.

(** The exceptions the modelled calls raise; all derive from [Exception]. *)
Inductive exn : Type :=
| UnicodeEncodeError
| UnicodeDecodeError
| BinasciiError
| ValueError
| OverflowError
| IllegalMonthError
| HttpError.

Inductive py (A : Type) : Type :=
| Return (a : A)
| Raise (e : exn).
Arguments Return {A} a.
Arguments Raise {A} e.

#[global] Instance py_ret : MRet py := fun A a => Return a.
#[global] Instance py_bind : MBind py := fun A B f m =>
  match m with Return a => f a | Raise e => Raise e end.
#[global] Instance py_fmap : FMap py := fun A B f m =>
  match m with Return a => Return (f a) | Raise e => Raise e end.

(** [mapM]: the calls are made from left to right, the first exception ends
    the iteration. *)
Fixpoint py_map {A B} (f : A → py B) (l : list A) : py (list B) :=
  match l with
  | [] => Return []
  | x :: l' => y ← f x; ys ← py_map f l'; Return (y :: ys)
  end.

(** ** [str.encode("utf-8")] and [bytes.decode("utf-8")] *)

Module Utf8.
Local Open Scope N_scope.

(** A continuation byte carrying six bits of [c], taken [k] bits up. *)
Definition cont (c k : N) : byte := byte_of_N (N.lor 0x80 (N.land (N.shiftr c k) 0x3F)).

(** One code point; a surrogate has no encoding under the strict handler. *)
Definition encode_char (c : N) : py bytes :=
  if c <? 0x80 then Return [byte_of_N c]
  else if c <? 0x800 then Return [byte_of_N (N.lor 0xC0 (N.shiftr c 6)); cont c 0]
  else if (0xD800 <=? c) && (c <=? 0xDFFF) then Raise UnicodeEncodeError
  else if c <? 0x10000 then
    Return [byte_of_N (N.lor 0xE0 (N.shiftr c 12)); cont c 6; cont c 0]
  else if c <? 0x110000 then
    Return [byte_of_N (N.lor 0xF0 (N.shiftr c 18)); cont c 12; cont c 6; cont c 0]
  else Raise UnicodeEncodeError.

Fixpoint encode (s : pystr) : py bytes :=
  match s with
  | [] => Return []
  | c :: s' => b ← encode_char c; bs ← encode s'; Return (b ++ bs)
  end.

Definition is_cont (b : byte) : bool := N.land (Byte.to_N b) 0xC0 =? 0x80.
Definition low6 (b : byte) : N := N.land (Byte.to_N b) 0x3F.

(** The strict decoder: overlong forms, surrogates, code points above
    U+10FFFF and truncated sequences raise. *)
Fixpoint decode (bs : bytes) : py pystr :=
  match bs with
  | [] => Return []
  | b0 :: r0 =>
    let n0 := Byte.to_N b0 in
    if n0 <? 0x80 then s ← decode r0; Return (n0 :: s)
    else if n0 <? 0xC2 then Raise UnicodeDecodeError
    else if n0 <? 0xE0 then
      match r0 with
      | b1 :: r1 =>
        if is_cont b1
        then s ← decode r1; Return (N.lor (N.shiftl (N.land n0 0x1F) 6) (low6 b1) :: s)
        else Raise UnicodeDecodeError
      | _ => Raise UnicodeDecodeError
      end
    else if n0 <? 0xF0 then
      match r0 with
      | b1 :: b2 :: r2 =>
        let c := N.lor (N.shiftl (N.land n0 0x0F) 12)
                       (N.lor (N.shiftl (low6 b1) 6) (low6 b2)) in
        if is_cont b1 && is_cont b2 && (0x800 <=? c)
           && negb ((0xD800 <=? c) && (c <=? 0xDFFF))
        then s ← decode r2; Return (c :: s)
        else Raise UnicodeDecodeError
      | _ => Raise UnicodeDecodeError
      end
    else if n0 <? 0xF5 then
      match r0 with
      | b1 :: b2 :: b3 :: r3 =>
        let c := N.lor (N.shiftl (N.land n0 0x07) 18)
                       (N.lor (N.shiftl (low6 b1) 12)
                              (N.lor (N.shiftl (low6 b2) 6) (low6 b3))) in
        if is_cont b1 && is_cont b2 && is_cont b3 && (0x10000 <=? c) && (c <? 0x110000)
        then s ← decode r3; Return (c :: s)
        else Raise UnicodeDecodeError
      | _ => Raise UnicodeDecodeError
      end
    else Raise UnicodeDecodeError
  end.

End Utf8.

(** ** [base64.urlsafe_b64encode] and [base64.urlsafe_b64decode] *)

Module Base64.
Local Open Scope N_scope.

Definition BASE64_PAD : byte := "="%byte.

Definition alphabet : bytes :=
  ascii_bytes "ABCDEFGHIJKLMNOPQRSTUVWXYZabcdefghijklmnopqrstuvwxyz0123456789+/".

(** [table_b2a_base64]: the character of a six-bit value. *)
Definition table_b2a_base64 (v : N) : byte := nth (N.to_nat v) alphabet x00.

(** [table_a2b_base64]: the six-bit value of a character of the standard
    alphabet; [None] stands for the table's entries above 63. *)
Definition table_a2b_base64 (ch : byte) : option N :=
  let c := Byte.to_N ch in
  if (65 <=? c) && (c <=? 90) then Some (c - 65)
  else if (97 <=? c) && (c <=? 122) then Some (c - 97 + 26)
  else if (48 <=? c) && (c <=? 57) then Some (c - 48 + 52)
  else if c =? 43 then Some 62
  else if c =? 47 then Some 63
  else None.

(** [binascii.b2a_base64(data, newline=False)]: three bytes give four
    characters; one or two trailing bytes are completed with [=]. *)
Fixpoint b2a_base64 (data : bytes) : bytes :=
  match data with
  | [] => []
  | [a] =>
    let a := Byte.to_N a in
    [table_b2a_base64 (N.shiftr a 2);
     table_b2a_base64 (N.shiftl (N.land a 3) 4);
     BASE64_PAD; BASE64_PAD]
  | [a; b] =>
    let a := Byte.to_N a in
    let b := Byte.to_N b in
    [table_b2a_base64 (N.shiftr a 2);
     table_b2a_base64 (N.lor (N.shiftl (N.land a 3) 4) (N.shiftr b 4));
     table_b2a_base64 (N.shiftl (N.land b 0xf) 2);
     BASE64_PAD]
  | a :: b :: c :: rest =>
    let a := Byte.to_N a in
    let b := Byte.to_N b in
    let c := Byte.to_N c in
    table_b2a_base64 (N.shiftr a 2)
    :: table_b2a_base64 (N.lor (N.shiftl (N.land a 3) 4) (N.shiftr b 4))
    :: table_b2a_base64 (N.lor (N.shiftl (N.land b 0xf) 2) (N.shiftr c 6))
    :: table_b2a_base64 (N.land c 0x3f)
    :: b2a_base64 rest
  end.

(** [binascii.a2b_base64(data, strict_mode=False)], the loop over the input
    with its state [quad_pos], [leftchar], [pads].  A character outside the
    alphabet is skipped; a pad that completes a quad ends the decoding
    ([goto done]); input that ends inside a quad raises [binascii.Error]. *)
Fixpoint a2b_loop (ascii : bytes) (quad_pos : nat) (leftchar : N) (pads : nat)
  : py bytes :=
  match ascii with
  | [] =>
    match quad_pos with
    | O => Return []
    | _ => Raise BinasciiError
    end
  | this_ch :: rest =>
    if Byte.eqb this_ch BASE64_PAD then
      if (2 <=? quad_pos)%nat then
        (* quad_pos >= 2 && quad_pos + ++pads >= 4 *)
        if (4 <=? quad_pos + S pads)%nat then Return []
        else a2b_loop rest quad_pos leftchar (S pads)
      else a2b_loop rest quad_pos leftchar pads
    else
      match table_a2b_base64 this_ch with
      | None => a2b_loop rest quad_pos leftchar pads
      | Some v =>
        match quad_pos with
        | 0%nat => a2b_loop rest 1 v 0
        | 1%nat =>
          out ← a2b_loop rest 2 (N.land v 0x0f) 0;
          Return (byte_of_N (N.lor (N.shiftl leftchar 2) (N.shiftr v 4)) :: out)
        | 2%nat =>
          out ← a2b_loop rest 3 (N.land v 0x03) 0;
          Return (byte_of_N (N.lor (N.shiftl leftchar 4) (N.shiftr v 2)) :: out)
        | _ =>
          out ← a2b_loop rest 0 0 0;
          Return (byte_of_N (N.lor (N.shiftl leftchar 6) v) :: out)
        end
      end
  end.

Definition a2b_base64 (ascii : bytes) : py bytes := a2b_loop ascii 0 0 0.

(** [bytes.maketrans(b'+/', b'-_')] and its inverse. *)
Definition urlsafe_encode_translation (ch : byte) : byte :=
  if Byte.eqb ch "+"%byte then "-"%byte
  else if Byte.eqb ch "/"%byte then "_"%byte
  else ch.

Definition urlsafe_decode_translation (ch : byte) : byte :=
  if Byte.eqb ch "-"%byte then "+"%byte
  else if Byte.eqb ch "_"%byte then "/"%byte
  else ch.

Definition urlsafe_b64encode (s : bytes) : bytes :=
  map urlsafe_encode_translation (b2a_base64 s).

(** [b64decode] is called with [validate=False]. *)
Definition urlsafe_b64decode (s : bytes) : py bytes :=
  a2b_base64 (map urlsafe_decode_translation s).

End Base64.

(** ** [hashlib.sha256] (FIPS 180-4) *)

Module SHA256.
Local Open Scope N_scope.

Definition mask32 : N := 0xFFFFFFFF.
Definition add32 (x y : N) : N := N.land (x + y) mask32.
Definition rotr (n x : N) : N :=
  N.lor (N.shiftr x n) (N.land (N.shiftl x (32 - n)) mask32).
Definition not32 (x : N) : N := N.lxor x mask32.

Definition Ch (x y z : N) : N := N.lxor (N.land x y) (N.land (not32 x) z).
Definition Maj (x y z : N) : N :=
  N.lxor (N.lxor (N.land x y) (N.land x z)) (N.land y z).
Definition Sigma0 (x : N) : N := N.lxor (N.lxor (rotr 2 x) (rotr 13 x)) (rotr 22 x).
Definition Sigma1 (x : N) : N := N.lxor (N.lxor (rotr 6 x) (rotr 11 x)) (rotr 25 x).
Definition sigma0 (x : N) : N := N.lxor (N.lxor (rotr 7 x) (rotr 18 x)) (N.shiftr x 3).
Definition sigma1 (x : N) : N := N.lxor (N.lxor (rotr 17 x) (rotr 19 x)) (N.shiftr x 10).

(** The constants are fractional parts of roots of primes, on 32 bits:
    [root_floor k n bits 0] is the largest [r] below [2 ^ bits] with
    [r ^ k <= n], found bit by bit from the top. *)
Fixpoint root_floor (k n : N) (bits : nat) (r : N) : N :=
  match bits with
  | O => r
  | S b =>
    let r' := r + 2 ^ N.of_nat b in
    if r' ^ k <=? n then root_floor k n b r' else root_floor k n b r
  end.

Definition root_fraction (k p : N) : N :=
  N.land (root_floor k (p * 2 ^ (32 * k)) 36 0) mask32.

Definition is_prime (n : nat) : bool :=
  forallb (fun d => negb (n mod d =? 0)%nat) (seq 2 (n - 2)).

(** The first sixty-four primes, 2 to 311. *)
Definition primes : list N := map N.of_nat (filter is_prime (seq 2 310)).

(** The round constants: cube roots. *)
Definition K : list N := map (root_fraction 3) primes.

(** The eight working words. *)
Record regs : Type := Regs { ra : N; rb : N; rc : N; rd : N; re : N; rf : N; rg : N; rh : N }.

(** The initial hash value: square roots of the first eight primes. *)
Definition H0 : regs :=
  Regs (root_fraction 2 2) (root_fraction 2 3) (root_fraction 2 5) (root_fraction 2 7)
       (root_fraction 2 11) (root_fraction 2 13) (root_fraction 2 17) (root_fraction 2 19).

(** Big-endian words. *)
Definition word_of_bytes (bs : bytes) : N :=
  fold_left (fun acc b => N.lor (N.shiftl acc 8) (Byte.to_N b)) bs 0.
Definition bytes_of_word (x : N) : bytes :=
  [byte_of_N (N.shiftr x 24); byte_of_N (N.shiftr x 16); byte_of_N (N.shiftr x 8); byte_of_N x].

(** The pieces of [l] of [n] elements each, the last one the shorter. *)
Fixpoint pieces {A} (fuel n : nat) (l : list A) : list (list A) :=
  match fuel, l with
  | S fuel', _ :: _ => take n l :: pieces fuel' n (drop n l)
  | _, _ => []
  end.

(** Padding: the bit 1, zero bits up to 56 modulo 64 bytes, and the length
    of the message in bits on 64 bits. *)
Definition pad (msg : bytes) : bytes :=
  let len := length msg in
  let zeros := ((64 - (len + 9) mod 64) mod 64)%nat in
  let bits := N.of_nat len * 8 in
  msg ++ [x80] ++ repeat x00 zeros
      ++ bytes_of_word (N.shiftr bits 32) ++ bytes_of_word bits.

(** The message schedule, kept most recent word first while it grows. *)
Definition next_word (r : list N) : N :=
  add32 (add32 (add32 (sigma1 (nth 1 r 0)) (nth 6 r 0)) (sigma0 (nth 14 r 0))) (nth 15 r 0).

Fixpoint expand (n : nat) (r : list N) : list N :=
  match n with
  | O => r
  | S n' => expand n' (next_word r :: r)
  end.

Definition schedule (block : bytes) : list N :=
  rev (expand 48 (rev (map word_of_bytes (pieces 16 4 block)))).

Definition round (s : regs) (kw : N * N) : regs :=
  let t1 := add32 (add32 (add32 (add32 (rh s) (Sigma1 (re s))) (Ch (re s) (rf s) (rg s)))
                         (fst kw)) (snd kw) in
  let t2 := add32 (Sigma0 (ra s)) (Maj (ra s) (rb s) (rc s)) in
  Regs (add32 t1 t2) (ra s) (rb s) (rc s) (add32 (rd s) t1) (re s) (rf s) (rg s).

Definition compress (h : regs) (block : bytes) : regs :=
  let s := fold_left round (combine K (schedule block)) h in
  Regs (add32 (ra h) (ra s)) (add32 (rb h) (rb s)) (add32 (rc h) (rc s))
       (add32 (rd h) (rd s)) (add32 (re h) (re s)) (add32 (rf h) (rf s))
       (add32 (rg h) (rg s)) (add32 (rh h) (rh s)).

Definition digest_of (h : regs) : bytes :=
  bytes_of_word (ra h) ++ bytes_of_word (rb h) ++ bytes_of_word (rc h)
  ++ bytes_of_word (rd h) ++ bytes_of_word (re h) ++ bytes_of_word (rf h)
  ++ bytes_of_word (rg h) ++ bytes_of_word (rh h).

Definition sha256 (msg : bytes) : bytes :=
  let m := pad msg in
  digest_of (fold_left compress (pieces (length m) 64 m) H0).

End SHA256.

(** ** [hmac.new(key, msg, hashlib.sha256).digest()] and [hmac.compare_digest] *)

Module Hmac.

Definition block_size : nat := 64.

Definition xor_byte (x : N) (b : byte) : byte := byte_of_N (N.lxor (Byte.to_N b) x).

(** RFC 2104: a key longer than a block is hashed first; the key is then
    completed with zero bytes to a block. *)
Definition hmac_sha256 (key msg : bytes) : bytes :=
  let key := if (block_size <? length key)%nat then SHA256.sha256 key else key in
  let key := key ++ repeat x00 (block_size - length key) in
  SHA256.sha256 (map (xor_byte 0x5c) key ++ SHA256.sha256 (map (xor_byte 0x36) key ++ msg)).

(** The comparison loop of [compare_digest]: every byte of [b] is visited,
    the differences are accumulated with [|=], and no exit is taken early.
    Operands of different lengths compare [b] with itself from [result = 1]. *)
Definition compare_digest (a b : bytes) : bool :=
  let same_len := (length a =? length b)%nat in
  let left := if same_len then a else b in
  let result := if same_len then 0%N else 1%N in
  N.eqb
    (fold_left (fun r xy => N.lor r (N.lxor (Byte.to_N (fst xy)) (Byte.to_N (snd xy))))
               (combine left b) result)
    0%N.

End Hmac.

(** ** The state token: [generate_state] and [verify_state] *)

(** [os.urandom]: the bytes the operating system will hand out, in order.
    Every sequence of draws is a prefix of some such supply. *)
Definition entropy := nat → byte.

Definition urandom (n : nat) (rng : entropy) : bytes * entropy :=
  (map rng (seq 0 n), fun i => rng (n + i)%nat).

(** [secret_key] is [st.secrets["google_oauth"]["state_secret"].encode("utf-8")],
    the configured secret as bytes. *)
Definition generate_state (secret_key : bytes) (rng : entropy) : py pystr * entropy :=
  let '(nonce, rng) := urandom 16 rng in
  let sig := Hmac.hmac_sha256 secret_key nonce in
  let data := nonce ++ sig in
  (Utf8.decode (Base64.urlsafe_b64encode data), rng).

Definition verify_state (secret_key : bytes) (state_str : pystr) : py bool :=
  match b ← Utf8.encode state_str; Base64.urlsafe_b64decode b with
  | Raise _ => Return false
  | Return data =>
    if negb (length data =? 48)%nat then Return false
    else
      let nonce := take 16 data in
      let sig := drop 16 data in
      let expected_sig := Hmac.hmac_sha256 secret_key nonce in
      Return (Hmac.compare_digest sig expected_sig)
  end.

(** [n] successive calls of [generate_state], each drawing from what the
    previous ones left of the supply. *)
Fixpoint generate_states (n : nat) (secret_key : bytes) (rng : entropy) : list (py pystr) :=
  match n with
  | O => []
  | S n' =>
    let '(token, rng) := generate_state secret_key rng in
    token :: generate_states n' secret_key rng
  end.

(** ** [str(int)], [int(str)] and [str.split] *)

Module PyStr.
Local Open Scope N_scope.

Fixpoint digits_of_uint (u : Decimal.uint) : pystr :=
  match u with
  | Decimal.Nil => []
  | Decimal.D0 u => 48 :: digits_of_uint u
  | Decimal.D1 u => 49 :: digits_of_uint u
  | Decimal.D2 u => 50 :: digits_of_uint u
  | Decimal.D3 u => 51 :: digits_of_uint u
  | Decimal.D4 u => 52 :: digits_of_uint u
  | Decimal.D5 u => 53 :: digits_of_uint u
  | Decimal.D6 u => 54 :: digits_of_uint u
  | Decimal.D7 u => 55 :: digits_of_uint u
  | Decimal.D8 u => 56 :: digits_of_uint u
  | Decimal.D9 u => 57 :: digits_of_uint u
  end.

(** [str(n)] and [f"{n}"] of an [int]. *)
Definition of_int (n : Z) : pystr :=
  match n with
  | Z0 => [48]
  | Zpos p => digits_of_uint (Pos.to_uint p)
  | Zneg p => 45 :: digits_of_uint (Pos.to_uint p)
  end.

(** ["%0wd" % n] for [n >= 0]. *)
Definition zero_padded (w : nat) (n : Z) : pystr :=
  let s := of_int n in repeat 48 (w - length s) ++ s.

(** [s.split(sep)] for a separator of one character. *)
Fixpoint split (sep : N) (s : pystr) : list pystr :=
  match s with
  | [] => [[]]
  | c :: s' =>
    if c =? sep then [] :: split sep s'
    else
      match split sep s' with
      | p :: ps => (c :: p) :: ps
      | [] => [[c]]
      end
  end.

(** The two tables of the Unicode character database that [int] consults
    for characters from U+007F on: [Py_UNICODE_ISSPACE] and
    [Py_UNICODE_TODECIMAL].  They vary with the Unicode version and are
    taken as given. *)
Record unicode_db : Type :=
  { uc_isspace : N → bool;
    uc_todecimal : N → option N }.

Section Int.
Context (ucd : unicode_db).

(** [_PyUnicode_TransformDecimalAndSpaceToASCII]: an ASCII string is
    returned as it is; otherwise spaces become [' '], decimal digits their
    ASCII digit, and the string is cut after the first other character,
    replaced by ['?']. *)
Fixpoint transform (s : pystr) : pystr :=
  match s with
  | [] => []
  | ch :: s' =>
    if ch <? 127 then ch :: transform s'
    else if uc_isspace ucd ch then 32 :: transform s'
    else
      match uc_todecimal ucd ch with
      | Some d => (48 + d) :: transform s'
      | None => [63]
      end
  end.

Definition to_ascii (s : pystr) : pystr :=
  if forallb (fun ch => ch <? 128) s then s else transform s.

(** [Py_ISSPACE]: space, and the controls from tab to carriage return. *)
Definition Py_ISSPACE (ch : N) : bool := (ch =? 32) || ((9 <=? ch) && (ch <=? 13)).
Definition is_digit (ch : N) : bool := (48 <=? ch) && (ch <=? 57).

Fixpoint skip_spaces (s : pystr) : pystr :=
  match s with
  | ch :: s' => if Py_ISSPACE ch then skip_spaces s' else s
  | [] => []
  end.

(** The scan of [PyLong_FromString] over digits and single underscores:
    the last character read, the number of digits, the value, and what is
    left of the string; [None] on two underscores in a row. *)
Fixpoint scan (s : pystr) (prev : N) (digits : nat) (value : Z)
  : option (N * nat * Z * pystr) :=
  match s with
  | ch :: s' =>
    if is_digit ch then scan s' ch (S digits) (10 * value + Z.of_N (ch - 48))%Z
    else if ch =? 95 then
      if prev =? 95 then None else scan s' ch digits value
    else Some (prev, digits, value, s)
  | [] => Some (prev, digits, value, [])
  end.

Definition max_str_digits : nat := 4300.

(** [PyLong_FromString(s, &end, 10)] and the check that [end] is the end
    of the string. *)
Definition long_from_string (s : pystr) : py Z :=
  let s := skip_spaces s in
  let '(sign, s) :=
    match s with
    | 43 :: s' => (1%Z, s')
    | 45 :: s' => ((-1)%Z, s')
    | _ => (1%Z, s)
    end in
  match s with
  | 95 :: _ => Raise ValueError
  | _ =>
    match scan s 0 0 0%Z with
    | None => Raise ValueError
    | Some (prev, digits, value, rest) =>
      if prev =? 95 then Raise ValueError
      else if (digits =? 0)%nat then Raise ValueError
      else if (max_str_digits <? digits)%nat then Raise ValueError
      else
        match skip_spaces rest with
        | [] => Return (sign * value)%Z
        | _ => Raise ValueError
        end
    end
  end.

(** [int(s)] of a [str]. *)
Definition int (s : pystr) : py Z := long_from_string (to_ascii s).

End Int.

(** The number of decimal digits of an [int], without its sign. *)
Definition decimal_digits (n : Z) : nat :=
  match n with
  | Z0 => 1
  | Zpos p | Zneg p => length (digits_of_uint (Pos.to_uint p))
  end.

(** [f"{n}"] where it is formatted: an [int] of more than 4300 decimal
    digits is not converted, [ValueError] is raised. *)
Definition format_int (n : Z) : py pystr :=
  if (max_str_digits <? decimal_digits n)%nat then Raise ValueError
  else Return (of_int n).
End PyStr.

(** ** [datetime.date], [datetime.datetime] and [isoformat] *)

Module Datetime.
Local Open Scope Z_scope.

Definition MINYEAR : Z := 1.
Definition MAXYEAR : Z := 9999.

Definition is_leap (year : Z) : bool :=
  (year mod 4 =? 0) && (negb (year mod 100 =? 0) || (year mod 400 =? 0)).

Definition DAYS_IN_MONTH : list Z := [-1; 31; 28; 31; 30; 31; 30; 31; 31; 30; 31; 30; 31].
Definition DAYS_BEFORE_MONTH : list Z :=
  [-1; 0; 31; 59; 90; 120; 151; 181; 212; 243; 273; 304; 334].

Definition days_in_month (year month : Z) : Z :=
  if (month =? 2) && is_leap year then 29 else nth (Z.to_nat month) DAYS_IN_MONTH 0.

Definition days_before_year (year : Z) : Z :=
  let y := year - 1 in y * 365 + y / 4 - y / 100 + y / 400.

Definition days_before_month (year month : Z) : Z :=
  nth (Z.to_nat month) DAYS_BEFORE_MONTH 0
  + (if (2 <? month) && is_leap year then 1 else 0).

Definition ymd2ord (year month day : Z) : Z :=
  days_before_year year + days_before_month year month + day.

Record date : Type := Date { year : Z; month : Z; day : Z }.

#[global] Instance date_eq_dec : EqDecision date.
Proof. solve_decision. Defined.

(** An argument that the C implementation can take as an [int]. *)
Definition fits_c_int (n : Z) : bool := (-2147483648 <=? n) && (n <=? 2147483647).

(** [date(year, month, day)]: the three arguments are converted to C
    [int]s, which raises [OverflowError] for one that does not fit; then the
    fields are checked. *)
Definition date_new (y m d : Z) : py date :=
  if negb (fits_c_int y && fits_c_int m && fits_c_int d) then Raise OverflowError
  else if negb ((MINYEAR <=? y) && (y <=? MAXYEAR)) then Raise ValueError
  else if negb ((1 <=? m) && (m <=? 12)) then Raise ValueError
  else if negb ((1 <=? d) && (d <=? days_in_month y m)) then Raise ValueError
  else Return (Date y m d).

Definition toordinal (d : date) : Z := ymd2ord (year d) (month d) (day d).

(** Monday is 0, Sunday is 6. *)
Definition weekday (d : date) : Z := (toordinal d + 6) mod 7.

Record time : Type := Time { hour : Z; minute : Z; second : Z; microsecond : Z }.

(** [time(hour, minute)] for fields in range. *)
Definition time_new (h m : Z) : time := Time h m 0 0.

(** The only [tzinfo] of the script is [timezone.utc]. *)
Inductive tzinfo : Type := utc.

Record datetime : Type :=
  DateTime { dt_date : date; dt_time : time; dt_tzinfo : option tzinfo }.

(** [datetime.combine(date, time, tzinfo=tz)] *)
Definition combine (d : date) (t : time) (tz : tzinfo) : datetime :=
  DateTime d t (Some tz).

Definition isoformat (x : datetime) : pystr :=
  let d := dt_date x in
  let t := dt_time x in
  PyStr.zero_padded 4 (year d) ++ ascii_str "-" ++ PyStr.zero_padded 2 (month d)
  ++ ascii_str "-" ++ PyStr.zero_padded 2 (day d) ++ ascii_str "T"
  ++ PyStr.zero_padded 2 (hour t) ++ ascii_str ":" ++ PyStr.zero_padded 2 (minute t)
  ++ ascii_str ":" ++ PyStr.zero_padded 2 (second t)
  ++ (if microsecond t =? 0 then [] else ascii_str "." ++ PyStr.zero_padded 6 (microsecond t))
  ++ match dt_tzinfo x with
     | Some utc => ascii_str "+00:00"
     | None => []
     end.

End Datetime.

(** ** [calendar.Calendar.monthdayscalendar] *)

Module Calendar.
Local Open Scope Z_scope.

Definition isleap (year : Z) : bool :=
  (year mod 4 =? 0) && (negb (year mod 100 =? 0) || (year mod 400 =? 0)).

Definition mdays : list Z := [0; 31; 28; 31; 30; 31; 30; 31; 31; 30; 31; 30; 31].

(** A year outside of [MINYEAR..MAXYEAR] is replaced by one of the same
    place in the 400-year cycle. *)
Definition weekday (year month day : Z) : py Z :=
  let year :=
    if (Datetime.MINYEAR <=? year) && (year <=? Datetime.MAXYEAR) then year
    else 2000 + year mod 400 in
  d ← Datetime.date_new year month day;
  Return (Datetime.weekday d).

Definition monthrange (year month : Z) : py (Z * Z) :=
  if negb ((1 <=? month) && (month <=? 12)) then Raise IllegalMonthError
  else
    day1 ← weekday year month 1;
    let ndays :=
      nth (Z.to_nat month) mdays 0 + (if (month =? 2) && isleap year then 1 else 0) in
    Return (day1, ndays).

(** [range(1, n + 1)] *)
Definition days_upto (n : Z) : list Z := map (fun i => Z.of_nat i + 1) (seq 0 (Z.to_nat n)).

(** The day numbers of the month, with zeros for the days of the first and
    of the last week that fall outside of it. *)
Definition itermonthdays (firstweekday year month : Z) : py (list Z) :=
  r ← monthrange year month;
  let '(day1, ndays) := r in
  let days_before := (day1 - firstweekday) mod 7 in
  let days_after := (firstweekday - day1 - ndays) mod 7 in
  Return (repeat 0 (Z.to_nat days_before) ++ days_upto ndays
          ++ repeat 0 (Z.to_nat days_after)).

(** [[days[i:i+7] for i in range(0, len(days), 7)]] *)
Definition weeks_of (days : list Z) : list (list Z) :=
  map (fun k => take 7 (drop (7 * k) days)) (seq 0 ((length days + 6) / 7)%nat).

Definition monthdayscalendar (firstweekday year month : Z) : py (list (list Z)) :=
  days ← itermonthdays firstweekday year month;
  Return (weeks_of days).

End Calendar.

(** ** The calendar provider and [fetch_month_event_days] *)

(** The [start] object of an event: a date-only value, a date-time value,
    or neither ([dict.get] gives [None] for an absent key). *)
Record start_info : Type :=
  { si_date : option pystr;
    si_dateTime : option pystr }.

Record event : Type := { ev_start : option start_info }.

Record events_result : Type := { items : option (list event) }.

(** The arguments of [service.events().list(...)]. *)
Record list_request : Type :=
  { calendarId : pystr;
    timeMin : pystr;
    timeMax : pystr;
    singleEvents : bool;
    orderBy : pystr }.

(** The provider: [execute()] answers a request or raises. *)
Definition service := list_request → py events_result.

(** [a or b] on two optional strings: [None] and the empty string are false. *)
Definition str_or (a b : option pystr) : option pystr :=
  match a with
  | Some (_ :: _) => a
  | _ => b
  end.

Section Fetch.
Context (ucd : PyStr.unicode_db).

(** [y, m, d = map(int, date_only.split("-"))], then [d]. *)
Definition parse_day (date_only : pystr) : py Z :=
  parts ← py_map (PyStr.int ucd) (PyStr.split 45 date_only);
  match parts with
  | [y; m; d] => Return d
  | _ => Raise ValueError
  end.

(** The body of the loop over [items], on the set [days]. *)
Definition mark_event (days : gset Z) (ev : event) : gset Z :=
  let start_info :=
    match ev_start ev with
    | Some start_info => start_info
    | None => {| si_date := None; si_dateTime := None |}
    end in
  match str_or (si_date start_info) (si_dateTime start_info) with
  | None | Some [] => days
  | Some date_str =>
    let date_only := take 10 date_str in
    match parse_day date_only with
    | Return d => {[ d ]} ∪ days
    | Raise _ => days
    end
  end.

(** The request for the month: [time_min] and [time_max] are the first
    days of the month and of the next one, at 00:00 in UTC. *)
Definition month_request (year month : Z) : py list_request :=
  start ← Datetime.date_new year month 1;
  end_ ← (if (month =? 12)%Z then Datetime.date_new (year + 1) 1 1
          else Datetime.date_new year (month + 1) 1);
  let time_min :=
    Datetime.isoformat (Datetime.combine start (Datetime.time_new 0 0) Datetime.utc) in
  let time_max :=
    Datetime.isoformat (Datetime.combine end_ (Datetime.time_new 0 0) Datetime.utc) in
  Return {| calendarId := ascii_str "primary";
            timeMin := time_min;
            timeMax := time_max;
            singleEvents := true;
            orderBy := ascii_str "startTime" |}.

Definition fetch_month_event_days (svc : option service) (year month : Z)
  : py (gset Z) :=
  match svc with
  | None => Return ∅
  | Some svc =>
    request ← month_request year month;
    events_result ← svc request;
    let items := default [] (items events_result) in
    Return (fold_left mark_event items ∅)
  end.

End Fetch.

(** ** The calendar cursor, the grid and the day labels *)

(** The part of [st.session_state] the calendar reads and writes. *)
Record session_state : Type :=
  { logged_in : bool;
    cal_year : Z;
    cal_month : Z;
    selected_date : Datetime.date }.

(** The handler of the previous-month button; [month] was read from the
    session at the start of the run. *)
Definition click_prev (st : session_state) : session_state :=
  let month := cal_month st in
  if (month =? 1)%Z then
    {| logged_in := logged_in st; cal_year := cal_year st - 1; cal_month := 12;
       selected_date := selected_date st |}
  else
    {| logged_in := logged_in st; cal_year := cal_year st; cal_month := cal_month st - 1;
       selected_date := selected_date st |}.

(** The handler of the next-month button. *)
Definition click_next (st : session_state) : session_state :=
  let month := cal_month st in
  if (month =? 12)%Z then
    {| logged_in := logged_in st; cal_year := cal_year st + 1; cal_month := 1;
       selected_date := selected_date st |}
  else
    {| logged_in := logged_in st; cal_year := cal_year st; cal_month := cal_month st + 1;
       selected_date := selected_date st |}.

(** [calendar.Calendar(firstweekday=6).monthdayscalendar(year, month)] *)
Definition weeks (year month : Z) : py (list (list Z)) :=
  Calendar.monthdayscalendar 6 year month.

(** The marker of a day with events: a space and U+25CF. *)
Definition event_marker : pystr := [32; 0x25CF]%N.

(** The label of the button of [day]. *)
Definition day_label (day : Z) (date_obj selected_date : Datetime.date)
    (days_with_events : gset Z) : pystr :=
  let label := PyStr.of_int day in
  let label :=
    if decide (date_obj = selected_date) then ascii_str "[" ++ label ++ ascii_str "]"
    else label in
  let label :=
    if decide (day ∈ days_with_events) then label ++ event_marker else label in
  label.

(** Following the specification: [renderLabel(day, isSelected, hasEvents)]. *)
Definition renderLabel (day : Z) (isSelected hasEvents : bool) : pystr :=
  let base := PyStr.of_int day in
  let bracketed := if isSelected then ascii_str "[" ++ base ++ ascii_str "]" else base in
  if hasEvents then bracketed ++ event_marker else bracketed.

(** ** A run of the calendar part of the page *)

(** A loop over [l] whose body may raise and updates a variable of the
    session: the results of the body, and the variable after the loop. *)
Fixpoint py_loop {S A B} (body : S → A → py (B * S)) (s : S) (l : list A)
  : py (list B * S) :=
  match l with
  | [] => Return ([], s)
  | x :: l' =>
    r ← body s x;
    rs ← py_loop body (snd r) l';
    Return (fst r :: fst rs, snd rs)
  end.

(** The navigation button pressed in the run, if any: a run follows the
    press of at most one widget. *)
Inductive nav_click : Type := no_click | prev_click | next_click.

(** The text of [f"### {year}년 {month}월"]. *)
Definition month_heading (year month : Z) : pystr :=
  ascii_str "### " ++ PyStr.of_int year ++ [0xB144; 32]%N ++ PyStr.of_int month
  ++ [0xC6D4]%N.

(** [f"### {year}년 {month}월"] as it is evaluated: the two numbers are
    formatted, which raises for one of more than 4300 digits. *)
Definition format_heading (year month : Z) : py pystr :=
  y ← PyStr.format_int year;
  m ← PyStr.format_int month;
  Return (ascii_str "### " ++ y ++ [0xB144; 32]%N ++ m ++ [0xC6D4]%N).

(** The header of the calendar: [year] and [month] are read once, the
    handlers of the two buttons write to the session, and the heading
    between them shows what was read.  The result is the heading, which
    may raise, and the session after the handlers, which is reached when
    it does not. *)
Definition navigation (click : nav_click) (st : session_state)
  : py pystr * session_state :=
  let year := cal_year st in
  let month := cal_month st in
  let st := match click with prev_click => click_prev st | _ => st end in
  let heading := format_heading year month in
  let st := match click with next_click => click_next st | _ => st end in
  (heading, st).

(** A day button: its label and its key, [f"day-{year}-{month}-{day}"]. *)
Record day_button : Type := { button_label : pystr; button_key : pystr }.

Definition day_key (year month day : Z) : pystr :=
  ascii_str "day-" ++ PyStr.of_int year ++ ascii_str "-" ++ PyStr.of_int month
  ++ ascii_str "-" ++ PyStr.of_int day.

(** The body of the loop over the cells of a week: nothing for an empty
    cell; otherwise the date of the day is built, the button is shown, and
    a pressed button stores its date as the selected date.  [pressed] tells
    of a key whether [st.button] returns true for it in this run. *)
Definition render_day (pressed : pystr → bool) (year month : Z)
    (days_with_events : gset Z) (selected_date : Datetime.date) (day : Z)
  : py (option day_button * Datetime.date) :=
  if (day =? 0)%Z then Return (None, selected_date)
  else
    date_obj ← Datetime.date_new year month day;
    let label := day_label day date_obj selected_date days_with_events in
    let key := day_key year month day in
    Return (Some {| button_label := label; button_key := key |},
            if pressed key then date_obj else selected_date).

Definition render_weeks (pressed : pystr → bool) (year month : Z)
    (days_with_events : gset Z) (selected_date : Datetime.date) (grid : list (list Z))
  : py (list (list (option day_button)) * Datetime.date) :=
  py_loop (py_loop (render_day pressed year month days_with_events)) selected_date grid.

(** The calendar part of a run: the header, the days with events of the
    month the cursor is on after the header, and the grid of that month. *)
Definition calendar_section (ucd : PyStr.unicode_db) (svc : option service)
    (click : nav_click) (pressed : pystr → bool) (st : session_state)
  : py (pystr * list (list (option day_button)) * session_state) :=
  let (heading, st) := navigation click st in
  heading ← heading;
  let year := cal_year st in
  let month := cal_month st in
  days_with_events ←
    match svc with
    | Some _ => fetch_month_event_days ucd svc year month
    | None => Return ∅
    end;
  grid ← weeks year month;
  r ← render_weeks pressed year month days_with_events (selected_date st) grid;
  Return (heading, fst r,
          {| logged_in := logged_in st; cal_year := cal_year st;
             cal_month := cal_month st; selected_date := snd r |}).

(** ** The OAuth callback *)

(** What the run puts on the page: [st.error(text)] and [st.write(e)]. *)
Inductive element : Type :=
  | error_box (text : pystr)
  | written (e : exn).

(** "OAuth state 검증에 실패했습니다. 다시 로그인해 주세요." *)
Definition state_failed_text : pystr :=
  ascii_str "OAuth state "
  ++ [0xac80; 0xc99d; 0xc5d0; 32; 0xc2e4; 0xd328; 0xd588; 0xc2b5; 0xb2c8; 0xb2e4; 46; 32;
      0xb2e4; 0xc2dc; 32; 0xb85c; 0xadf8; 0xc778; 0xd574; 32; 0xc8fc; 0xc138; 0xc694; 46]%N.

(** "구글 로그인 중 오류가 발생했습니다. 다시 시도해 주세요." *)
Definition login_failed_text : pystr :=
  [0xad6c; 0xae00; 32; 0xb85c; 0xadf8; 0xc778; 32; 0xc911; 32; 0xc624; 0xb958; 0xac00; 32;
   0xbc1c; 0xc0dd; 0xd588; 0xc2b5; 0xb2c8; 0xb2e4; 46; 32; 0xb2e4; 0xc2dc; 32;
   0xc2dc; 0xb3c4; 0xd574; 32; 0xc8fc; 0xc138; 0xc694; 46]%N.

(** An exception that nothing catches ends the run: [IndexError] of an
    index into an empty string, or one of the exceptions of [exn]. *)
Inductive stop : Type :=
  | IndexError
  | Uncaught (e : exn).

Inductive script (A : Type) : Type :=
  | Done (a : A)
  | Stopped (s : stop).
Arguments Done {A} a.
Arguments Stopped {A} s.

(** [params.get(key, [None])[0]]: [st.query_params] maps a key to one
    string, so the index takes the first character of the value, and
    [None] out of the default [[None]] when the key is absent. *)
Definition first_of_param (params : gmap pystr pystr) (key : pystr)
  : script (option pystr) :=
  match params !! key with
  | None => Done None
  | Some [] => Stopped IndexError
  | Some (c :: _) => Done (Some [c])
  end.

Section Callback.
Context {credentials : Type}.
(** [flow = make_flow(); flow.fetch_token(code=code); flow.credentials]:
    the exchange of the code with the authentication provider. *)
Context (exchange : pystr → py credentials).
Context (secret_key : bytes).

(** [st.session_state] with its [creds], [st.query_params] and what has
    been put on the page. *)
Record page : Type :=
  { session : session_state;
    creds : option credentials;
    query_params : gmap pystr pystr;
    elements : list element }.

Definition show (el : element) (pg : page) : page :=
  {| session := session pg;
     creds := creds pg;
     query_params := query_params pg;
     elements := elements pg ++ [el] |}.

(** [st.query_params.clear()] *)
Definition clear_params (pg : page) : page :=
  {| session := session pg;
     creds := creds pg;
     query_params := ∅;
     elements := elements pg |}.

(** [st.session_state.creds = flow.credentials] and
    [st.session_state.logged_in = True] *)
Definition log_in (c : credentials) (pg : page) : page :=
  {| session := {| logged_in := true;
                   cal_year := cal_year (session pg);
                   cal_month := cal_month (session pg);
                   selected_date := selected_date (session pg) |};
     creds := Some c;
     query_params := query_params pg;
     elements := elements pg |}.

(** [if code and state_from_google and not st.session_state.logged_in:]
    with its two branches. *)
Definition callback (code state_from_google : option pystr) (pg : page) : py page :=
  match code, state_from_google with
  | Some (c :: code'), Some (s :: state') =>
    if negb (logged_in (session pg)) then
      ok ← verify_state secret_key (s :: state');
      if negb ok then
        Return (clear_params (show (error_box state_failed_text) pg))
      else
        match exchange (c :: code') with
        | Return cr => Return (clear_params (log_in cr pg))
        | Raise e =>
          Return (clear_params (show (written e) (show (error_box login_failed_text) pg)))
        end
    else Return pg
  | _, _ => Return pg
  end.

(** The callback from the reading of the two parameters on. *)
Definition oauth_callback (pg : page) : script page :=
  let params := query_params pg in
  match first_of_param params (ascii_str "code") with
  | Stopped s => Stopped s
  | Done code =>
    match first_of_param params (ascii_str "state") with
    | Stopped s => Stopped s
    | Done state_from_google =>
      match callback code state_from_google pg with
      | Return pg => Done pg
      | Raise e => Stopped (Uncaught e)
      end
    end
  end.

(** [get_calendar_service() if st.session_state.logged_in else None], with
    [build] for [build("calendar", "v3", credentials=...)]. *)
Definition page_service (build : credentials → service) (pg : page) : option service :=
  if logged_in (session pg) then
    match creds pg with
    | None => None
    | Some c => Some (build c)
    end
  else None.

End Callback.

(** * The vocabulary of the properties *)

(** ** Tokens *)

(** The bytes that [verify_state] gets from a text inside its [try]. *)
Definition decode_text (state_str : pystr) : py bytes :=
  b ← Utf8.encode state_str; Base64.urlsafe_b64decode b.

(** The text of a token over the bytes [data]. *)
Definition token_of (data : bytes) : pystr := map Byte.to_N (Base64.urlsafe_b64encode data).

(** Tampering: bit [bit] of a byte, and of the [k]-th byte of the tag in
    the 48 decoded bytes, is flipped. *)
Definition flip_bit (bit : N) (b : byte) : byte :=
  byte_of_N (N.lxor (Byte.to_N b) (N.shiftl 1 bit)).

Definition flip_tag_bit (k : nat) (bit : N) (data : bytes) : bytes :=
  alter (flip_bit bit) (16 + k)%nat data.

(** Following the specification: a valid URL-safe base64 text (RFC 4648,
    section 5) is made of letters, digits, [-] and [_], completed by at most
    two [=] to a multiple of four characters. *)
Definition is_urlsafe_char (c : N) : bool :=
  ((65 <=? c) && (c <=? 90) || (97 <=? c) && (c <=? 122) || (48 <=? c) && (c <=? 57)
   || (c =? 45) || (c =? 95))%N.

Fixpoint strip_pads (n : nat) (r : pystr) : pystr :=
  match n, r with
  | S n', 61%N :: r' => strip_pads n' r'
  | _, _ => r
  end.

Definition valid_urlsafe_b64 (s : pystr) : bool :=
  (length s mod 4 =? 0)%nat && forallb is_urlsafe_char (strip_pads 2 (rev s)).

(** The token of the nonce 00 01 ... 0f under the key [secret]. *)
Definition sample_key : bytes := ascii_bytes "secret".
Definition sample_nonce : bytes := map (fun i => byte_of_N (N.of_nat i)) (seq 0 16).
Definition sample_data : bytes := sample_nonce ++ Hmac.hmac_sha256 sample_key sample_nonce.
Definition sample_token : pystr :=
  ascii_str "AAECAwQFBgcICQoLDA0OD3XErV_F3jSo-1YPkHzaK36FrzIpw8lECEq4I2n3dkGm".

(** Digests in hexadecimal, as the standards print them. *)
Definition hex_digit (n : N) : ascii :=
  nth (N.to_nat n) (list_ascii_of_string "0123456789abcdef") "0"%char.

Definition hex (bs : bytes) : string :=
  string_of_list_ascii
    (flat_map (fun b => [hex_digit (Byte.to_N b / 16); hex_digit (Byte.to_N b mod 16)]) bs).

(** ** Bytes and six-bit values, for properties checked on all of them *)

Definition all_bytes : bytes := map (fun i => byte_of_N (N.of_nat i)) (seq 0 256).

Definition forall_bytes (P : byte → bool) : bool := forallb P all_bytes.
Definition forall_bytes2 (P : byte → byte → bool) : bool :=
  forall_bytes (fun a => forall_bytes (P a)).

Definition sextets : list N := map N.of_nat (seq 0 64).

(** What the decoder sees of the character written for a six-bit value. *)
Definition seen (v : N) : byte :=
  Base64.urlsafe_decode_translation
    (Base64.urlsafe_encode_translation (Base64.table_b2a_base64 v)).

(** ** Months and requests *)

(** Following the specification: the first instant of day 1 of a month, at
    00:00 in UTC, as ISO 8601 text; and the month after a month. *)
Definition first_instant_utc (y m : Z) : pystr :=
  PyStr.zero_padded 4 y ++ ascii_str "-" ++ PyStr.zero_padded 2 m
  ++ ascii_str "-01T00:00:00+00:00".

Definition next_month (y m : Z) : Z * Z :=
  if (m =? 12)%Z then ((y + 1)%Z, 1%Z) else (y, (m + 1)%Z).

(** The grid of February 2024, Sunday first. *)
Definition february_2024 : list (list Z) :=
  [[0; 0; 0; 0; 1; 2; 3];
   [4; 5; 6; 7; 8; 9; 10];
   [11; 12; 13; 14; 15; 16; 17];
   [18; 19; 20; 21; 22; 23; 24];
   [25; 26; 27; 28; 29; 0; 0]]%Z.

(** The characters of the text of an [int]. *)
Definition is_numeral_char (c : N) : bool := ((48 <=? c) && (c <=? 57) || (c =? 45))%N.

(** ** Events and their days *)

(** The value of a string of ASCII digits. *)
Definition decimal_value (s : pystr) : Z :=
  fold_left (fun v ch => (10 * v + Z.of_N (ch - 48))%Z) s 0%Z.

Definition all_digits (s : pystr) : Prop := Forall (fun ch => PyStr.is_digit ch = true) s.

(** The start timestamp of an event: its date-only value when it has one
    that is not empty, else its date-time value when it has one that is not
    empty, else none. *)
Definition start_timestamp (ev : event) : option pystr :=
  match ev_start ev with
  | None => None
  | Some si =>
    match si_date si, si_dateTime si with
    | Some (c :: s), _ => Some (c :: s)
    | _, Some (c :: s) => Some (c :: s)
    | _, _ => None
    end
  end.

(** The day an event contributes: the third number of the first ten
    characters of its start, when they read as three numbers. *)
Definition event_day (ucd : PyStr.unicode_db) (ev : event) : option Z :=
  match start_timestamp ev with
  | None => None
  | Some ts =>
    match parse_day ucd (take 10 ts) with
    | Return d => Some d
    | Raise _ => None
    end
  end.

(** Following the specification: the day of month of a timestamp whose
    first ten characters are a date in ISO form, [YYYY-MM-DD]. *)
Definition iso_date_day (ts : pystr) : option Z :=
  let p := take 10 ts in
  let y := take 4 p in
  let m := take 2 (drop 5 p) in
  let d := take 2 (drop 8 p) in
  if (length p =? 10)%nat && forallb PyStr.is_digit (y ++ m ++ d)
     && (nth 4 p 0 =? 45)%N && (nth 7 p 0 =? 45)%N
  then Some (decimal_value d)
  else None.

(** A date portion in ISO form: ten characters [YYYY-MM-DD] that name a
    day of the calendar. *)
Definition is_iso_date (p : pystr) : bool :=
  match iso_date_day p with
  | None => false
  | Some d =>
    (length p =? 10)%nat
    && match Datetime.date_new (decimal_value (take 4 p))
               (decimal_value (take 2 (drop 5 p))) d with
       | Return _ => true
       | Raise _ => false
       end
  end.

(** The number of [-] in a text. *)
Definition dashes (s : pystr) : nat := length (filter (fun ch => ch = 45%N) s).

(** A run of ASCII digits that is not empty. *)
Definition numeral (s : pystr) : Prop := s ≠ [] ∧ all_digits s.

(** An ASCII character that no number holds: neither a digit, an
    underscore, a sign, nor white space. *)
Definition foreign_char (ch : N) : bool :=
  ((ch <? 127) && negb (PyStr.is_digit ch) && negb (ch =? 95) && negb (ch =? 43)
   && negb (ch =? 45) && negb (PyStr.Py_ISSPACE ch))%N.

(** A text that is empty or holds such a character. *)
Definition unreadable (s : pystr) : Prop :=
  s = [] ∨ Exists (fun ch => foreign_char ch = true) s.

(** An all-day event and a timed event, by the text of their start. *)
Definition date_event (s : string) : event :=
  {| ev_start := Some {| si_date := Some (ascii_str s); si_dateTime := None |} |}.
Definition datetime_event (s : string) : event :=
  {| ev_start := Some {| si_date := None; si_dateTime := Some (ascii_str s) |} |}.

(** The events of the example: two on 5 March 2024, one of them with a
    time, and one on 31 March. *)
Definition march_2024_events : list event :=
  [date_event "2024-03-05"; datetime_event "2024-03-05T09:00:00Z"; date_event "2024-03-31"].

(** A provider that answers every request with the events [evs], and one
    with an empty calendar. *)
Definition provider_of (evs : list event) : service :=
  fun _ => Return {| items := Some evs |}.

Definition empty_calendar : service := provider_of [].

(** The tables of a system that knows no space and no digit beyond ASCII. *)
Definition ascii_ucd : PyStr.unicode_db :=
  {| PyStr.uc_isspace := fun _ => false; PyStr.uc_todecimal := fun _ => None |}.

(** ** More on tokens *)

(** The characters that carry six bits for the decoder: letters, digits,
    and both pairs of the standard and of the URL-safe alphabet. *)
Definition is_base64_char (c : N) : bool :=
  is_urlsafe_char c || (c =? 43)%N || (c =? 47)%N.

Definition base64_chars (s : pystr) : nat := length (List.filter is_base64_char s).

(** The characters the decoder passes over: those that have a UTF-8
    encoding and are neither of an alphabet nor the pad. *)
Definition is_skipped_char (c : N) : bool :=
  ((c <? 0x110000) && negb ((0xD800 <=? c) && (c <=? 0xDFFF))
   && negb (is_base64_char c) && negb (c =? 61))%N.

(** A text with [-] and [_] written as [+] and [/]. *)
Definition standard_char (c : N) : N :=
  if (c =? 45)%N then 43%N else if (c =? 95)%N then 47%N else c.

(** The bytes the decoder takes for a six-bit value, and their number. *)
Definition is_sextet_byte (b : byte) : bool :=
  match Base64.table_a2b_base64 b with
  | Some _ => true
  | None => false
  end.

Definition sextet_bytes (bs : bytes) : nat := length (List.filter is_sextet_byte bs).

(** What a quad that is open at [quad_pos] can still give beyond three
    bytes for four characters. *)
Definition quad_credit (quad_pos : nat) : nat :=
  match quad_pos with
  | 0 => 0
  | 1 => 3
  | 2 => 2
  | _ => 1
  end%nat.

(** What the decoder sees of a byte is passed over. *)
Definition passed_over (b : byte) : Prop :=
  Byte.eqb (Base64.urlsafe_decode_translation b) Base64.BASE64_PAD = false
  ∧ Base64.table_a2b_base64 (Base64.urlsafe_decode_translation b) = None.

(** ** The cursor as a number of months *)

(** The months from January of year 0 to the cursor. *)
Definition month_index (st : session_state) : Z := 12 * cal_year st + (cal_month st - 1).

(** ** The grid and its buttons *)

(** The cell of row [w] and column [i] of a grid. *)
Definition grid_cell (grid : list (list Z)) (w i : nat) : option Z :=
  week ← grid !! w; week !! i.

(** The day numbers of a grid, in order. *)
Definition grid_days (grid : list (list Z)) : list Z :=
  List.filter (fun d => negb (d =? 0)%Z) (concat grid).

(** The button of a day when no button is pressed in the run. *)
Definition still_button (year month : Z) (days_with_events : gset Z)
    (selected_date : Datetime.date) (day : Z) : option day_button :=
  if (day =? 0)%Z then None
  else Some {| button_label :=
                 day_label day (Datetime.Date year month day) selected_date
                           days_with_events;
               button_key := day_key year month day |}.

(** The run in which exactly the button of [day] is pressed. *)
Definition press_day (year month day : Z) (key : pystr) : bool :=
  bool_decide (key = day_key year month day).

(** ** The months a request can be made for *)

Definition requestable (y m : Z) : Prop :=
  (1 <= y <= 9999 ∧ 1 <= m <= 12 ∧ ¬ (y = 9999 ∧ m = 12))%Z.

(** ** Reading a number: the first character of a text *)

Definition starts_with (c : N) (s : pystr) : bool :=
  match s with
  | c' :: _ => (c' =? c)%N
  | [] => false
  end.

(** ** Pages and callbacks *)

(** A page before the callback has run: nothing shown yet. *)
Definition fresh_page {credentials : Type} (st : session_state)
    (params : gmap pystr pystr) : page (credentials := credentials) :=
  {| session := st; creds := None; query_params := params; elements := [] |}.

Definition march_session : session_state :=
  {| logged_in := false; cal_year := 2024; cal_month := 3;
     selected_date := Datetime.Date 2024 3 1 |}.

(** The query parameters of a redirect back from the provider. *)
Definition redirect_params (code state : string) : gmap pystr pystr :=
  {[ ascii_str "code" := ascii_str code; ascii_str "state" := ascii_str state ]}.

(** A parameter that is there and not empty. *)
Definition param_given (params : gmap pystr pystr) (key : string) : bool :=
  match params !! ascii_str key with
  | Some (_ :: _) => true
  | _ => false
  end.

(** * Properties *)

(** ** The library models on known values *)

Section KnownValues.

(** FIPS 180-4: the sixty-four round constants, from the first to the
    last, and the initial hash value. *)
Example sha256_constants :
  length SHA256.K = 64%nat
  ∧ head SHA256.K = Some 0x428a2f98%N
  ∧ last SHA256.K = Some 0xc67178f2%N
  ∧ SHA256.ra SHA256.H0 = 0x6a09e667%N
  ∧ SHA256.rh SHA256.H0 = 0x5be0cd19%N.
Proof. vm_compute. repeat split. Qed.

(** FIPS 180-4, the digests of the empty message and of [abc]. *)
Example sha256_empty :
  hex (SHA256.sha256 [])
  = "e3b0c44298fc1c149afbf4c8996fb92427ae41e4649b934ca495991b7852b855"%string.
Proof. vm_compute. reflexivity. Qed.

Example sha256_abc :
  hex (SHA256.sha256 (ascii_bytes "abc"))
  = "ba7816bf8f01cfea414140de5dae2223b00361a396177a9cb410ff61f20015ad"%string.
Proof. vm_compute. reflexivity. Qed.

(** RFC 4231, test case 2. *)
Example hmac_sha256_rfc4231 :
  hex (Hmac.hmac_sha256 (ascii_bytes "Jefe") (ascii_bytes "what do ya want for nothing?"))
  = "5bdcc146bf60754e6a042426089575c75a003f089d2739839dec58b964ec3843"%string.
Proof. vm_compute. reflexivity. Qed.

Example urlsafe_b64encode_fbff :
  Base64.urlsafe_b64encode [xfb; xff] = ascii_bytes "-_8=".
Proof. reflexivity. Qed.

(** A character outside of the alphabet is skipped; a quad left open raises. *)
Example urlsafe_b64decode_skips :
  Base64.urlsafe_b64decode (ascii_bytes "-_8!=") = Return [xfb; xff].
Proof. reflexivity. Qed.

Example urlsafe_b64decode_open_quad :
  Base64.urlsafe_b64decode (ascii_bytes "-_8") = Raise BinasciiError.
Proof. reflexivity. Qed.

Example utf8_encode_sample :
  Utf8.encode [0xE9; 0x20AC; 0x1F600]%N
  = Return [xc3; xa9; xe2; x82; xac; xf0; x9f; x98; x80].
Proof. reflexivity. Qed.

Example utf8_encode_surrogate : Utf8.encode [97; 0xD800]%N = Raise UnicodeEncodeError.
Proof. reflexivity. Qed.

Example utf8_decode_sample :
  Utf8.decode [xc3; xa9; xe2; x82; xac; xf0; x9f; x98; x80]
  = Return [0xE9; 0x20AC; 0x1F600]%N.
Proof. reflexivity. Qed.

Example isoformat_sample :
  Datetime.isoformat
    (Datetime.combine (Datetime.Date 2024 12 1) (Datetime.time_new 0 0) Datetime.utc)
  = ascii_str "2024-12-01T00:00:00+00:00".
Proof. reflexivity. Qed.

(** 1 February 2024 is a Thursday, and January 10000 starts like January 2000. *)
Example weekday_february_2024 : Calendar.weekday 2024 2 1 = Return 3%Z.
Proof. reflexivity. Qed.

Example weekday_january_10000 : Calendar.weekday 10000 1 1 = Calendar.weekday 2000 1 1.
Proof. reflexivity. Qed.

End KnownValues.

(** ** Bytes: checking a property on all of them *)

Lemma byte_of_to_N (b : byte) : byte_of_N (Byte.to_N b) = b.
Proof.
  unfold byte_of_N. pose proof (Byte.to_N_bounded b) as Hb.
  rewrite N.mod_small by lia. by rewrite Byte.of_to_N.
Qed.

Lemma in_all_bytes (b : byte) : In b all_bytes.
Proof.
  unfold all_bytes. apply in_map_iff. exists (N.to_nat (Byte.to_N b)). split.
  - rewrite N2Nat.id. apply byte_of_to_N.
  - apply in_seq. pose proof (Byte.to_N_bounded b). lia.
Qed.

Lemma forall_bytes_spec (P : byte → bool) :
  forall_bytes P = true → ∀ b, P b = true.
Proof.
  unfold forall_bytes. rewrite forallb_forall. intros H b. apply H, in_all_bytes.
Qed.

Lemma forall_bytes2_spec (P : byte → byte → bool) :
  forall_bytes2 P = true → ∀ a b, P a b = true.
Proof.
  intros H a b. unfold forall_bytes2 in H.
  exact (forall_bytes_spec _ (forall_bytes_spec _ H a) b).
Qed.

Lemma byte_eqb_eq (a b : byte) : Byte.eqb a b = true ↔ a = b.
Proof. split; [apply Byte.byte_dec_bl | apply Byte.byte_dec_lb]. Qed.

(** ** Base64: decoding what was encoded *)

Section Base64Facts.
Import Base64.
Local Open Scope N_scope.

Lemma in_sextets (v : N) : v < 64 → In v sextets.
Proof.
  intros Hv. apply in_map_iff. exists (N.to_nat v). split; [apply N2Nat.id |].
  apply in_seq. lia.
Qed.

Lemma seen_spec (v : N) :
  v < 64 → Byte.eqb (seen v) BASE64_PAD = false ∧ table_a2b_base64 (seen v) = Some v.
Proof.
  intros Hv.
  assert (Hall : forallb (fun v =>
            negb (Byte.eqb (seen v) BASE64_PAD)
            && bool_decide (table_a2b_base64 (seen v) = Some v)) sextets = true)
    by (vm_compute; reflexivity).
  rewrite forallb_forall in Hall. specialize (Hall v (in_sextets v Hv)).
  apply andb_prop in Hall as [H1 H2].
  apply negb_true_iff in H1. apply bool_decide_eq_true in H2. done.
Qed.

Lemma seen_pad :
  urlsafe_decode_translation (urlsafe_encode_translation BASE64_PAD) = BASE64_PAD.
Proof. reflexivity. Qed.

(** The four six-bit values of three bytes, and how the decoder puts the
    bytes together again. *)
Lemma sextet_bounds (a b : byte) :
  let x := Byte.to_N a in
  let y := Byte.to_N b in
  N.shiftr x 2 < 64
  ∧ N.lor (N.shiftl (N.land x 3) 4) (N.shiftr y 4) < 64
  ∧ N.lor (N.shiftl (N.land x 0xf) 2) (N.shiftr y 6) < 64
  ∧ N.land x 0x3f < 64
  ∧ N.shiftl (N.land x 3) 4 < 64
  ∧ N.shiftl (N.land x 0xf) 2 < 64.
Proof.
  revert a b.
  assert (H : forall_bytes2 (fun a b =>
            let x := Byte.to_N a in
            let y := Byte.to_N b in
            (N.shiftr x 2 <? 64)
            && (N.lor (N.shiftl (N.land x 3) 4) (N.shiftr y 4) <? 64)
            && (N.lor (N.shiftl (N.land x 0xf) 2) (N.shiftr y 6) <? 64)
            && (N.land x 0x3f <? 64)
            && (N.shiftl (N.land x 3) 4 <? 64)
            && (N.shiftl (N.land x 0xf) 2 <? 64)) = true)
    by (vm_compute; reflexivity).
  intros a b. specialize (forall_bytes2_spec _ H a b). cbn zeta.
  rewrite !andb_true_iff, !N.ltb_lt. tauto.
Qed.

Lemma rebuild_first (a b : byte) :
  let x := Byte.to_N a in
  let y := Byte.to_N b in
  byte_of_N (N.lor (N.shiftl (N.shiftr x 2) 2)
                   (N.shiftr (N.lor (N.shiftl (N.land x 3) 4) (N.shiftr y 4)) 4)) = a.
Proof.
  revert a b.
  assert (H : forall_bytes2 (fun a b =>
            let x := Byte.to_N a in
            let y := Byte.to_N b in
            Byte.eqb
              (byte_of_N (N.lor (N.shiftl (N.shiftr x 2) 2)
                 (N.shiftr (N.lor (N.shiftl (N.land x 3) 4) (N.shiftr y 4)) 4))) a) = true)
    by (vm_compute; reflexivity).
  intros a b. apply byte_eqb_eq, (forall_bytes2_spec _ H a b).
Qed.

Lemma rebuild_second (a b c : byte) :
  let x := Byte.to_N a in
  let y := Byte.to_N b in
  let z := Byte.to_N c in
  byte_of_N
    (N.lor (N.shiftl (N.land (N.lor (N.shiftl (N.land x 3) 4) (N.shiftr y 4)) 0x0f) 4)
           (N.shiftr (N.lor (N.shiftl (N.land y 0xf) 2) (N.shiftr z 6)) 2)) = b.
Proof.
  (* the low four bits of the second value are the high four of [b], whatever [a] *)
  assert (H1 : forall_bytes2 (fun a b =>
            N.land (N.lor (N.shiftl (N.land (Byte.to_N a) 3) 4) (N.shiftr (Byte.to_N b) 4)) 0x0f
            =? N.shiftr (Byte.to_N b) 4) = true) by (vm_compute; reflexivity).
  assert (H2 : forall_bytes2 (fun b c =>
            Byte.eqb
              (byte_of_N (N.lor (N.shiftl (N.shiftr (Byte.to_N b) 4) 4)
                 (N.shiftr (N.lor (N.shiftl (N.land (Byte.to_N b) 0xf) 2)
                                  (N.shiftr (Byte.to_N c) 6)) 2))) b) = true)
    by (vm_compute; reflexivity).
  cbn zeta.
  rewrite (proj1 (N.eqb_eq _ _) (forall_bytes2_spec _ H1 a b)).
  apply byte_eqb_eq, (forall_bytes2_spec _ H2 b c).
Qed.

Lemma rebuild_third (b c : byte) :
  let y := Byte.to_N b in
  let z := Byte.to_N c in
  byte_of_N
    (N.lor (N.shiftl (N.land (N.lor (N.shiftl (N.land y 0xf) 2) (N.shiftr z 6)) 0x03) 6)
           (N.land z 0x3f)) = c.
Proof.
  revert b c.
  assert (H : forall_bytes2 (fun b c =>
            let y := Byte.to_N b in
            let z := Byte.to_N c in
            Byte.eqb
              (byte_of_N
                 (N.lor (N.shiftl (N.land (N.lor (N.shiftl (N.land y 0xf) 2) (N.shiftr z 6)) 0x03) 6)
                        (N.land z 0x3f))) c) = true)
    by (vm_compute; reflexivity).
  intros b c. apply byte_eqb_eq, (forall_bytes2_spec _ H b c).
Qed.

Lemma a2b_loop_seen (v : N) (rest : bytes) (quad_pos : nat) (leftchar : N) (pads : nat) :
  v < 64 →
  a2b_loop (seen v :: rest) quad_pos leftchar pads =
  match quad_pos with
  | 0%nat => a2b_loop rest 1 v 0
  | 1%nat =>
    out ← a2b_loop rest 2 (N.land v 0x0f) 0;
    Return (byte_of_N (N.lor (N.shiftl leftchar 2) (N.shiftr v 4)) :: out)
  | 2%nat =>
    out ← a2b_loop rest 3 (N.land v 0x03) 0;
    Return (byte_of_N (N.lor (N.shiftl leftchar 4) (N.shiftr v 2)) :: out)
  | _ =>
    out ← a2b_loop rest 0 0 0;
    Return (byte_of_N (N.lor (N.shiftl leftchar 6) v) :: out)
  end.
Proof.
  intros Hv. destruct (seen_spec v Hv) as [Hpad Htab].
  cbn [a2b_loop]. rewrite Hpad, Htab. reflexivity.
Qed.

(** Induction on a list, three elements at a time. *)
Lemma list_ind3 {A} (P : list A → Prop) :
  P [] → (∀ a, P [a]) → (∀ a b, P [a; b]) →
  (∀ a b c l, P l → P (a :: b :: c :: l)) →
  ∀ l, P l.
Proof.
  intros H0 H1 H2 H3 l.
  assert (Hn : ∀ n l, (length l ≤ n)%nat → P l).
  { clear l. induction n as [|n IH]; intros [|a [|b [|c l]]] Hl; cbn in Hl; auto; try lia.
    apply H3, IH. lia. }
  exact (Hn (length l) l (le_n _)).
Qed.

Lemma a2b_b2a_translated (data : bytes) :
  a2b_loop (map urlsafe_decode_translation
              (map urlsafe_encode_translation (b2a_base64 data))) 0 0 0
  = Return data.
Proof.
  induction data as [|a|a b|a b c rest IH] using list_ind3.
  - reflexivity.
  - destruct (sextet_bounds a x00) as (B1 & B2 & _).
    pose proof (rebuild_first a x00) as R1. cbn zeta in B1, B2, R1.
    change (Byte.to_N x00) with 0 in B2, R1. change (N.shiftr 0 4) with 0 in B2, R1.
    rewrite N.lor_0_r in B2, R1.
    cbn [b2a_base64 map].
    change (urlsafe_decode_translation (urlsafe_encode_translation (table_b2a_base64 ?v)))
      with (seen v).
    rewrite seen_pad.
    rewrite (a2b_loop_seen _ _ 0) by done. rewrite (a2b_loop_seen _ _ 1) by done.
    cbn. by rewrite R1.
  - destruct (sextet_bounds a b) as (B1 & B2 & _).
    destruct (sextet_bounds b x00) as (_ & _ & B3 & _).
    pose proof (rebuild_first a b) as R1. pose proof (rebuild_second a b x00) as R2.
    cbn zeta in B1, B2, B3, R1, R2.
    change (Byte.to_N x00) with 0 in B3, R2. change (N.shiftr 0 6) with 0 in B3, R2.
    rewrite N.lor_0_r in B3, R2.
    cbn [b2a_base64 map].
    change (urlsafe_decode_translation (urlsafe_encode_translation (table_b2a_base64 ?v)))
      with (seen v).
    rewrite seen_pad.
    rewrite (a2b_loop_seen _ _ 0) by done. rewrite (a2b_loop_seen _ _ 1) by done.
    rewrite (a2b_loop_seen _ _ 2) by done.
    cbn. by rewrite R1, R2.
  - destruct (sextet_bounds a b) as (B1 & B2 & _).
    destruct (sextet_bounds b c) as (_ & _ & B3 & _).
    destruct (sextet_bounds c x00) as (_ & _ & _ & B4 & _).
    pose proof (rebuild_first a b) as R1. pose proof (rebuild_second a b c) as R2.
    pose proof (rebuild_third b c) as R3.
    cbn zeta in B1, B2, B3, B4, R1, R2, R3.
    cbn [b2a_base64 map].
    change (urlsafe_decode_translation (urlsafe_encode_translation (table_b2a_base64 ?v)))
      with (seen v).
    rewrite (a2b_loop_seen _ _ 0) by done. rewrite (a2b_loop_seen _ _ 1) by done.
    rewrite (a2b_loop_seen _ _ 2) by done. rewrite (a2b_loop_seen _ _ 3) by done.
    rewrite IH. cbn [mbind py_bind]. by rewrite R1, R2, R3.
Qed.

(** What [urlsafe_b64encode] writes, [urlsafe_b64decode] reads back. *)
Lemma urlsafe_b64decode_encode (data : bytes) :
  urlsafe_b64decode (urlsafe_b64encode data) = Return data.
Proof. apply a2b_b2a_translated. Qed.

(** The encoding is made of ASCII characters, four for three bytes. *)
Lemma table_b2a_ascii (v : N) :
  Byte.to_N (urlsafe_encode_translation (table_b2a_base64 v)) < 128.
Proof.
  unfold table_b2a_base64.
  assert (H : Forall (fun ch => Byte.to_N (urlsafe_encode_translation ch) < 128)
                (x00 :: alphabet)).
  { apply Forall_forall. intros ch Hin.
    assert (Hc : forallb (fun ch => Byte.to_N (urlsafe_encode_translation ch) <? 128)
                   (x00 :: alphabet) = true) by (vm_compute; reflexivity).
    rewrite forallb_forall in Hc. apply N.ltb_lt, Hc. by apply list_elem_of_In. }
  rewrite Forall_forall in H. apply H.
  destruct (nth_in_or_default (N.to_nat v) alphabet x00) as [Hin | ->].
  - right. by apply list_elem_of_In.
  - left.
Qed.

Lemma urlsafe_b64encode_ascii (data : bytes) :
  Forall (fun ch => Byte.to_N ch < 128) (urlsafe_b64encode data).
Proof.
  unfold urlsafe_b64encode.
  induction data as [|a|a b|a b c rest IH] using list_ind3; cbn [b2a_base64 map].
  - constructor.
  - repeat constructor; try apply table_b2a_ascii; by vm_compute.
  - repeat constructor; try apply table_b2a_ascii; by vm_compute.
  - repeat (constructor; [apply table_b2a_ascii |]). exact IH.
Qed.

Lemma urlsafe_b64encode_length (data : bytes) :
  length (urlsafe_b64encode data) = (4 * ((length data + 2) / 3))%nat.
Proof.
  unfold urlsafe_b64encode. rewrite length_map.
  induction data as [|a|a b|a b c rest IH] using list_ind3; try reflexivity.
  cbn [b2a_base64 length]. rewrite IH.
  replace (S (S (S (length rest))) + 2)%nat with (1 * 3 + (length rest + 2))%nat by lia.
  rewrite Nat.div_add_l by lia. lia.
Qed.

End Base64Facts.

(** ** UTF-8 on ASCII text *)

Section Utf8Facts.
Local Open Scope N_scope.

Lemma utf8_decode_ascii (bs : bytes) :
  Forall (fun ch => Byte.to_N ch < 128) bs →
  Utf8.decode bs = Return (map Byte.to_N bs).
Proof.
  induction 1 as [|ch bs Hch _ IH]; [reflexivity |].
  cbn [Utf8.decode map]. apply N.ltb_lt in Hch. rewrite Hch, IH. reflexivity.
Qed.

Lemma utf8_encode_ascii (bs : bytes) :
  Forall (fun ch => Byte.to_N ch < 128) bs →
  Utf8.encode (map Byte.to_N bs) = Return bs.
Proof.
  induction 1 as [|ch bs Hch _ IH]; [reflexivity |].
  cbn [Utf8.encode map]. unfold Utf8.encode_char.
  apply N.ltb_lt in Hch. rewrite Hch, IH. cbn. by rewrite byte_of_to_N.
Qed.

End Utf8Facts.

(** ** The tag and its comparison *)

Section HmacFacts.

Lemma sha256_length (msg : bytes) : length (SHA256.sha256 msg) = 32%nat.
Proof. reflexivity. Qed.

Lemma hmac_sha256_length (key msg : bytes) : length (Hmac.hmac_sha256 key msg) = 32%nat.
Proof. apply sha256_length. Qed.

Lemma xor_bytes_zero (x y : byte) :
  N.lxor (Byte.to_N x) (Byte.to_N y) = 0%N ↔ x = y.
Proof.
  rewrite N.lxor_eq_0_iff. split; [| by intros ->].
  intros H. rewrite <- (byte_of_to_N x), <- (byte_of_to_N y). by rewrite H.
Qed.

(** The accumulator of the comparison loop is zero at the end exactly when
    it was zero at the start and no pair of bytes differed. *)
Lemma compare_loop_zero (l : list (byte * byte)) (r : N) :
  fold_left (fun r xy => N.lor r (N.lxor (Byte.to_N (fst xy)) (Byte.to_N (snd xy)))) l r = 0%N
  ↔ r = 0%N ∧ Forall (fun xy => fst xy = snd xy) l.
Proof.
  revert r. induction l as [|[x y] l IH]; intros r; cbn [fold_left fst snd].
  - split; [intros ->; split; [done | constructor] | by intros [-> _]].
  - rewrite IH, N.lor_eq_0_iff, xor_bytes_zero, Forall_cons. cbn [fst snd]. tauto.
Qed.

Lemma combine_same {A} (a b : list A) :
  length a = length b → Forall (fun xy => fst xy = snd xy) (combine a b) → a = b.
Proof.
  revert b. induction a as [|x a IH]; intros [|y b] Hlen H; try discriminate; [done |].
  cbn in Hlen, H. apply Forall_cons in H as [Hxy H]. cbn in Hxy. subst y.
  f_equal. apply IH; [lia | done].
Qed.

Lemma combine_diag {A} (a : list A) : Forall (fun xy => fst xy = snd xy) (combine a a).
Proof. induction a; cbn; constructor; auto. Qed.

(** [compare_digest] decides equality of its operands. *)
Lemma compare_digest_spec (a b : bytes) : Hmac.compare_digest a b = true ↔ a = b.
Proof.
  unfold Hmac.compare_digest. rewrite N.eqb_eq, compare_loop_zero.
  destruct (Nat.eqb_spec (length a) (length b)) as [Hlen | Hlen].
  - split; [intros [_ H]; by apply combine_same | intros ->; split; [done | apply combine_diag]].
  - split; [intros [? _]; discriminate | intros ->; by destruct Hlen].
Qed.

End HmacFacts.

(** ** The state token *)

Section StateToken.

Lemma verify_state_unfold (secret_key : bytes) (state_str : pystr) :
  verify_state secret_key state_str =
  match decode_text state_str with
  | Raise _ => Return false
  | Return data =>
    if negb (length data =? 48)%nat then Return false
    else Return (Hmac.compare_digest (drop 16 data)
                   (Hmac.hmac_sha256 secret_key (take 16 data)))
  end.
Proof. reflexivity. Qed.

Lemma urandom_length (n : nat) (rng : entropy) : length (fst (urandom n rng)) = n.
Proof. unfold urandom. cbn. by rewrite length_map, length_seq. Qed.

Lemma generate_state_token (secret_key : bytes) (rng : entropy) :
  let nonce := fst (urandom 16 rng) in
  generate_state secret_key rng
  = (Return (token_of (nonce ++ Hmac.hmac_sha256 secret_key nonce)), snd (urandom 16 rng)).
Proof.
  cbn zeta. unfold generate_state.
  destruct (urandom 16 rng) as [nonce rng'] eqn:E. cbn [fst snd].
  by rewrite utf8_decode_ascii by apply urlsafe_b64encode_ascii.
Qed.

(** What [verify_state] decodes from the text of a token. *)
Lemma decode_token_of (data : bytes) :
  decode_text (token_of data) = Return data.
Proof.
  unfold decode_text, token_of. rewrite utf8_encode_ascii by apply urlsafe_b64encode_ascii.
  apply urlsafe_b64decode_encode.
Qed.

Lemma verify_state_token_of (secret_key data : bytes) :
  length data = 48%nat →
  verify_state secret_key (token_of data)
  = Return (Hmac.compare_digest (drop 16 data)
              (Hmac.hmac_sha256 secret_key (take 16 data))).
Proof.
  intros Hlen. rewrite verify_state_unfold, decode_token_of, Hlen. reflexivity.
Qed.

Lemma verify_signed_nonce (secret_key nonce : bytes) :
  length nonce = 16%nat →
  verify_state secret_key (token_of (nonce ++ Hmac.hmac_sha256 secret_key nonce))
  = Return true.
Proof.
  intros Hn. rewrite verify_state_token_of
    by (rewrite length_app, hmac_sha256_length; lia).
  rewrite take_app_length' by done. rewrite drop_app_length' by done.
  f_equal. by apply compare_digest_spec.
Qed.

(** C1. Round trip: whatever the secret key and whatever the operating
    system hands out as random bytes, every token made by any number of
    successive calls of [generate_state] is a text of 64 characters that
    [verify_state] accepts under the same key. *)
Theorem generate_then_verify (n : nat) (secret_key : bytes) (rng : entropy) :
  Forall (fun outcome =>
            ∃ token, outcome = Return token
                     ∧ length token = 64%nat
                     ∧ verify_state secret_key token = Return true)
         (generate_states n secret_key rng).
Proof.
  revert rng. induction n as [|n IH]; intros rng; cbn [generate_states]; [constructor |].
  rewrite generate_state_token. constructor; [| apply IH].
  pose proof (urandom_length 16 rng) as Hn.
  eexists. split; [reflexivity |]. split.
  - unfold token_of. rewrite length_map, urlsafe_b64encode_length, length_app,
      hmac_sha256_length, Hn. reflexivity.
  - by apply verify_signed_nonce.
Qed.

Lemma flip_bit_changes (bit : N) (b : byte) : (bit < 8)%N → flip_bit bit b ≠ b.
Proof.
  intros Hbit.
  assert (H : forallb (fun bit => forall_bytes (fun b => negb (Byte.eqb (flip_bit bit b) b)))
                (map N.of_nat (seq 0 8)) = true) by (vm_compute; reflexivity).
  rewrite forallb_forall in H.
  assert (Hin : In bit (map N.of_nat (seq 0 8))).
  { apply in_map_iff. exists (N.to_nat bit). split; [apply N2Nat.id | apply in_seq; lia]. }
  pose proof (forall_bytes_spec _ (H bit Hin) b) as Hb.
  apply negb_true_iff in Hb. intros Heq. apply byte_eqb_eq in Heq. congruence.
Qed.

Lemma alter_changes {A} (f : A → A) (l : list A) (k : nat) :
  (k < length l)%nat → (∀ x, f x ≠ x) → alter f k l ≠ l.
Proof.
  intros Hk Hf Heq. destruct (lookup_lt_is_Some_2 l k Hk) as [x Hx].
  pose proof (list_lookup_alter_eq f l k) as H. rewrite Heq, Hx in H.
  cbn in H. injection H as H. by apply (Hf x).
Qed.

(** What an accepted token decodes to. *)
Lemma verify_state_accepts (secret_key : bytes) (token : pystr) (data : bytes) :
  decode_text token = Return data →
  verify_state secret_key token = Return true →
  length data = 48%nat ∧ drop 16 data = Hmac.hmac_sha256 secret_key (take 16 data).
Proof.
  intros Hdec Hok. rewrite verify_state_unfold, Hdec in Hok.
  destruct (Nat.eqb_spec (length data) 48) as [Hlen | Hlen]; cbn [negb] in Hok;
    [| discriminate].
  split; [exact Hlen |]. apply compare_digest_spec. by injection Hok.
Qed.

(** C2. Tamper detection: if [verify_state] accepts a token, then no text
    that decodes to the same 48 bytes with one bit of the 32-byte tag
    flipped is accepted; in particular the 64-character text that
    [urlsafe_b64encode] writes for the tampered bytes is rejected. *)
Theorem tampered_tag_rejected (secret_key : bytes) (token token' : pystr)
    (data : bytes) (k : nat) (bit : N) :
  decode_text token = Return data →
  verify_state secret_key token = Return true →
  (k < 32)%nat → (bit < 8)%N →
  decode_text token' = Return (flip_tag_bit k bit data) →
  verify_state secret_key token' = Return false
  ∧ verify_state secret_key (token_of (flip_tag_bit k bit data)) = Return false.
Proof.
  intros Hdec Hok Hk Hbit Hdec'.
  destruct (verify_state_accepts _ _ _ Hdec Hok) as [Hlen Hsig].
  assert (Hbad : ∀ t, decode_text t = Return (flip_tag_bit k bit data) →
                      verify_state secret_key t = Return false).
  { intros t Ht. rewrite verify_state_unfold, Ht. cbv beta iota. unfold flip_tag_bit.
    rewrite length_alter, Hlen. cbn [Nat.eqb negb].
    rewrite take_alter_ge by lia. rewrite drop_alter_ge by lia.
    replace (16 + k - 16)%nat with k by lia. rewrite <- Hsig. f_equal.
    apply not_true_is_false. rewrite compare_digest_spec.
    apply alter_changes; [rewrite length_drop; lia |].
    intros x. by apply flip_bit_changes. }
  split; [by apply Hbad | apply Hbad, decode_token_of].
Qed.

(** The sample token with the lowest bit of the first tag byte flipped. *)
Lemma tampered_tag_rejected_sample :
  verify_state sample_key (token_of (flip_tag_bit 0 0 sample_data)) = Return false.
Proof.
  refine (proj2 (tampered_tag_rejected sample_key sample_token
                   (token_of (flip_tag_bit 0 0 sample_data)) sample_data 0 0 _ _ _ _ _)).
  - vm_compute; reflexivity.
  - vm_compute; reflexivity.
  - lia.
  - lia.
  - vm_compute; reflexivity.
Defined.

(** C3, as amended. [verify_state] never raises: it returns a boolean for
    every input string.  It returns false whenever the decoding of the
    input raises (the string has no UTF-8 encoding, or its base64
    characters end inside a group of four) and whenever the decoded bytes
    are not exactly 48. *)
Theorem verify_state_rejects_undecodable (secret_key : bytes) (state_str : pystr) :
  (∃ b, verify_state secret_key state_str = Return b)
  ∧ (∀ e, decode_text state_str = Raise e →
          verify_state secret_key state_str = Return false)
  ∧ (∀ data, decode_text state_str = Return data →
             length data ≠ 48%nat →
             verify_state secret_key state_str = Return false).
Proof.
  rewrite verify_state_unfold.
  destruct (decode_text state_str) as [data | e].
  - destruct (Nat.eqb_spec (length data) 48) as [Hlen | Hlen]; cbn [negb].
    + split; [eauto |]. split; [discriminate |]. intros ? [= <-] ?. done.
    + split; [eauto |]. split; [discriminate | done].
  - split; [eauto |]. split; [done | discriminate].
Qed.

(** C3, as stated, fails: a text that is not valid URL-safe base64 (an
    exclamation mark before a token, 65 characters) is accepted, because the
    decoder skips the characters outside of the alphabet. *)
Lemma invalid_base64_accepted :
  valid_urlsafe_b64 (33%N :: sample_token) = false
  ∧ verify_state sample_key (33%N :: sample_token) = Return true.
Proof. split; vm_compute; reflexivity. Qed.

End StateToken.

(** ** The calendar cursor *)

Section Cursor.
Local Open Scope Z_scope.

(** The cursor month stays a month. *)
Lemma click_prev_month (st : session_state) :
  1 <= cal_month st <= 12 → 1 <= cal_month (click_prev st) <= 12.
Proof. intros H. unfold click_prev. destruct (Z.eqb_spec (cal_month st) 1); cbn; lia. Qed.

Lemma click_next_month (st : session_state) :
  1 <= cal_month st <= 12 → 1 <= cal_month (click_next st) <= 12.
Proof. intros H. unfold click_next. destruct (Z.eqb_spec (cal_month st) 12); cbn; lia. Qed.

(** C5. For a cursor on a month from 1 to 12 and any year, the
    previous-month step followed by the next-month step gives the session
    back, and so does the next-month step followed by the previous-month
    step; the previous month of January is December of the year before,
    the next month of December is January of the year after, and the other
    steps change the month alone. *)
Theorem prev_next_inverse (st : session_state) :
  1 <= cal_month st <= 12 →
  click_next (click_prev st) = st
  ∧ click_prev (click_next st) = st
  ∧ (cal_month st = 1 →
     cal_year (click_prev st) = cal_year st - 1 ∧ cal_month (click_prev st) = 12)
  ∧ (cal_month st = 12 →
     cal_year (click_next st) = cal_year st + 1 ∧ cal_month (click_next st) = 1)
  ∧ (cal_month st ≠ 1 →
     cal_year (click_prev st) = cal_year st ∧ cal_month (click_prev st) = cal_month st - 1)
  ∧ (cal_month st ≠ 12 →
     cal_year (click_next st) = cal_year st ∧ cal_month (click_next st) = cal_month st + 1).
Proof.
  destruct st as [li y m sel]. cbn [cal_month cal_year]. intros Hm.
  unfold click_prev, click_next. cbn [cal_month cal_year logged_in selected_date].
  destruct (Z.eqb_spec m 1) as [H1 | H1]; destruct (Z.eqb_spec m 12) as [H12 | H12];
    cbn [cal_month cal_year logged_in selected_date]; try lia.
  - change (12 =? 12) with true. cbv iota.
    destruct (Z.eqb_spec (m + 1) 1); [lia |].
    repeat split; try lia; f_equal; lia.
  - change (1 =? 1) with true. cbv iota.
    destruct (Z.eqb_spec (m - 1) 12); [lia |].
    repeat split; try lia; f_equal; lia.
  - destruct (Z.eqb_spec (m - 1) 12); destruct (Z.eqb_spec (m + 1) 1); try lia.
    repeat split; try lia; f_equal; lia.
Qed.

(** January 2025: back to December 2024, and forth again. *)
Lemma prev_next_inverse_january :
  let st := {| logged_in := false; cal_year := 2025; cal_month := 1;
               selected_date := Datetime.Date 2025 1 15 |} in
  click_next (click_prev st) = st ∧ cal_year (click_prev st) = 2024.
Proof.
  cbn zeta.
  pose proof (prev_next_inverse
                {| logged_in := false; cal_year := 2025; cal_month := 1;
                   selected_date := Datetime.Date 2025 1 15 |}
                (conj (Z.le_refl 1) (Zle_bool_imp_le 1 12 eq_refl))) as H.
  exact (conj (proj1 H) (proj1 (proj1 (proj2 (proj2 H)) eq_refl))).
Defined.

End Cursor.

(** ** The day labels *)

Section Labels.

Lemma day_label_renderLabel (day : Z) (date_obj selected_date : Datetime.date)
    (days_with_events : gset Z) :
  day_label day date_obj selected_date days_with_events
  = renderLabel day (bool_decide (date_obj = selected_date))
                (bool_decide (day ∈ days_with_events)).
Proof.
  unfold day_label, renderLabel.
  repeat case_decide; repeat case_bool_decide; done.
Qed.

Lemma digits_of_uint_numeral (u : Decimal.uint) :
  Forall (fun c => is_numeral_char c = true) (PyStr.digits_of_uint u).
Proof. induction u; cbn; constructor; auto. Qed.

Lemma digits_of_uint_nonempty (u : Decimal.uint) :
  u ≠ Decimal.Nil → PyStr.digits_of_uint u ≠ [].
Proof. destruct u; cbn; congruence. Qed.

(** The text of an [int]: not empty, made of digits and a sign. *)
Lemma of_int_numeral (n : Z) :
  PyStr.of_int n ≠ [] ∧ Forall (fun c => is_numeral_char c = true) (PyStr.of_int n).
Proof.
  destruct n as [|p|p]; cbn.
  - split; [done | by repeat constructor].
  - split; [apply digits_of_uint_nonempty, DecimalPos.Unsigned.to_uint_nonnil
           | apply digits_of_uint_numeral].
  - split; [done | constructor; [done | apply digits_of_uint_numeral]].
Qed.

(** C9. The label of a day is the text of its number, between brackets
    exactly when the day is the selected date, followed by the event marker
    exactly when the day has events: the brackets are put first and the
    marker after them.  The label starts with a bracket only when the day
    is selected and ends with the marker glyph only when it has events; the
    label of day 15, selected and with events, is [[15] ●]. *)
Theorem day_label_shape (day : Z) (date_obj selected_date : Datetime.date)
    (days_with_events : gset Z) :
  let label := day_label day date_obj selected_date days_with_events in
  let text := PyStr.of_int day in
  label = renderLabel day (bool_decide (date_obj = selected_date))
                      (bool_decide (day ∈ days_with_events))
  ∧ label = (if decide (date_obj = selected_date)
             then [91%N] ++ text ++ [93%N] else text)
            ++ (if decide (day ∈ days_with_events) then [32%N; 0x25CF%N] else [])
  ∧ (head label = Some 91%N ↔ date_obj = selected_date)
  ∧ (last label = Some 0x25CF%N ↔ day ∈ days_with_events)
  ∧ renderLabel 15 true true = [91; 49; 53; 93; 32; 0x25CF]%N.
Proof.
  cbn zeta. split; [apply day_label_renderLabel |].
  destruct (of_int_numeral day) as [Hne Hnum].
  unfold day_label. change (ascii_str "[") with [91%N]. change (ascii_str "]") with [93%N].
  unfold event_marker.
  destruct (PyStr.of_int day) as [|c text] eqn:E; [done |].
  apply Forall_cons in Hnum as [Hc Hnum].
  assert (Hlast : last (c :: text) ≠ Some 0x25CF%N).
  { intros Hl. apply last_Some in Hl as [l' Hl].
    assert (Hin : Forall (fun c => is_numeral_char c = true) (c :: text)) by by constructor.
    rewrite Hl in Hin. apply Forall_app in Hin as [_ Hin].
    apply Forall_cons in Hin as [Hin _]. by vm_compute in Hin. }
  destruct (decide (date_obj = selected_date)) as [Hs | Hs];
    destruct (decide (day ∈ days_with_events)) as [He | He].
  - split; [by rewrite <- !app_assoc |]. split; [done |]. split; [| reflexivity].
    rewrite last_app. cbn. done.
  - split; [by rewrite app_nil_r |]. split; [done |]. split; [| reflexivity].
    rewrite app_assoc, last_app. cbn. split; [discriminate | done].
  - split; [done |]. split; [| split; [| reflexivity]].
    + cbn. split; [| done]. intros [= ->]. by vm_compute in Hc.
    + rewrite last_app. cbn. done.
  - split; [by rewrite app_nil_r |]. split; [| split; [| reflexivity]].
    + cbn. split; [| done]. intros [= ->]. by vm_compute in Hc.
    + split; [done | done].
Qed.

End Labels.

(** ** The month grid *)

Section Grid.
Local Open Scope Z_scope.

Lemma month_cases (m : Z) :
  1 <= m <= 12 →
  m = 1 ∨ m = 2 ∨ m = 3 ∨ m = 4 ∨ m = 5 ∨ m = 6 ∨ m = 7 ∨ m = 8 ∨ m = 9 ∨ m = 10
  ∨ m = 11 ∨ m = 12.
Proof. lia. Qed.

Lemma days_in_month_bounds (y m : Z) :
  1 <= m <= 12 → 28 <= Datetime.days_in_month y m <= 31.
Proof.
  intros Hm. unfold Datetime.days_in_month.
  destruct (month_cases m Hm) as [-> | [-> | [-> | [-> | [-> | [-> | [-> | [-> | [-> |
    [-> | [-> | ->]]]]]]]]]]];
    destruct (Datetime.is_leap y); vm_compute; split; discriminate.
Qed.

(** The days the calendar module counts in a month are those of [datetime]. *)
Lemma calendar_ndays (y m : Z) :
  1 <= m <= 12 →
  nth (Z.to_nat m) Calendar.mdays 0 + (if (m =? 2) && Calendar.isleap y then 1 else 0)
  = Datetime.days_in_month y m.
Proof.
  intros Hm. unfold Datetime.days_in_month.
  change (Calendar.isleap y) with (Datetime.is_leap y).
  destruct (month_cases m Hm) as [-> | [-> | [-> | [-> | [-> | [-> | [-> | [-> | [-> |
    [-> | [-> | ->]]]]]]]]]]];
    destruct (Datetime.is_leap y); vm_compute; reflexivity.
Qed.

Lemma fits_c_int_spec (n : Z) :
  Datetime.fits_c_int n = true ↔ -2147483648 <= n <= 2147483647.
Proof. unfold Datetime.fits_c_int. rewrite andb_true_iff, !Z.leb_le. done. Qed.

Lemma date_new_ok (y m d : Z) :
  Datetime.MINYEAR <= y <= Datetime.MAXYEAR → 1 <= m <= 12 →
  1 <= d <= Datetime.days_in_month y m →
  Datetime.date_new y m d = Return (Datetime.Date y m d).
Proof.
  intros Hy Hm Hd. unfold Datetime.date_new.
  pose proof (days_in_month_bounds y m Hm) as Hn.
  rewrite (proj2 (fits_c_int_spec y)), (proj2 (fits_c_int_spec m)),
    (proj2 (fits_c_int_spec d))
    by (unfold Datetime.MINYEAR, Datetime.MAXYEAR in Hy; lia).
  cbn [andb negb].
  rewrite (proj2 (Z.leb_le _ _) (proj1 Hy)), (proj2 (Z.leb_le _ _) (proj2 Hy)).
  rewrite (proj2 (Z.leb_le _ _) (proj1 Hm)), (proj2 (Z.leb_le _ _) (proj2 Hm)).
  rewrite (proj2 (Z.leb_le _ _) (proj1 Hd)), (proj2 (Z.leb_le _ _) (proj2 Hd)).
  reflexivity.
Qed.

(** [calendar.weekday] answers for every year. *)
Lemma calendar_weekday_total (y m : Z) :
  1 <= m <= 12 → ∃ day1, Calendar.weekday y m 1 = Return day1 ∧ 0 <= day1 < 7.
Proof.
  intros Hm. unfold Calendar.weekday.
  set (y' := if (Datetime.MINYEAR <=? y) && (y <=? Datetime.MAXYEAR) then y
             else 2000 + y mod 400).
  assert (Hy' : Datetime.MINYEAR <= y' <= Datetime.MAXYEAR).
  { subst y'. unfold Datetime.MINYEAR, Datetime.MAXYEAR.
    destruct (Z.leb_spec 1 y); destruct (Z.leb_spec y 9999); cbn [andb];
      pose proof (Z.mod_pos_bound y 400); lia. }
  pose proof (days_in_month_bounds y' m Hm) as Hd.
  rewrite date_new_ok by (try done; lia). cbn [mbind py_bind].
  eexists. split; [reflexivity |]. unfold Datetime.weekday. apply Z.mod_pos_bound. lia.
Qed.

Lemma monthrange_total (y m : Z) :
  1 <= m <= 12 →
  ∃ day1, Calendar.monthrange y m = Return (day1, Datetime.days_in_month y m)
          ∧ 0 <= day1 < 7.
Proof.
  intros Hm. unfold Calendar.monthrange.
  rewrite (proj2 (Z.leb_le _ _) (proj1 Hm)), (proj2 (Z.leb_le _ _) (proj2 Hm)).
  cbn [andb negb].
  destruct (calendar_weekday_total y m Hm) as (day1 & -> & Hday1).
  cbn [mbind py_bind]. rewrite calendar_ndays by done. eauto.
Qed.

Lemma days_upto_length (n : Z) : length (Calendar.days_upto n) = Z.to_nat n.
Proof. unfold Calendar.days_upto. by rewrite length_map, length_seq. Qed.

(** Cutting a list into weeks loses nothing, and the weeks are whole when
    the length is a multiple of seven. *)
Lemma weeks_from (days : list Z) (a n : nat) :
  concat (map (fun k => take 7 (drop (7 * k) days)) (seq a n))
  = take (7 * n) (drop (7 * a) days).
Proof.
  revert a. induction n as [|n IH]; intros a; [reflexivity |].
  cbn [seq map concat]. rewrite IH.
  replace (7 * S n)%nat with (7 + 7 * n)%nat by lia.
  rewrite <- take_take_drop, drop_drop. do 3 f_equal. lia.
Qed.

Lemma concat_weeks_of (days : list Z) : concat (Calendar.weeks_of days) = days.
Proof.
  unfold Calendar.weeks_of. rewrite weeks_from. cbn [Nat.mul drop].
  apply take_ge.
  pose proof (Nat.div_mod_eq (length days + 6) 7) as H.
  pose proof (Nat.mod_upper_bound (length days + 6) 7). lia.
Qed.

Lemma weeks_of_whole (days : list Z) :
  (length days mod 7 = 0)%nat →
  Forall (fun week => length week = 7%nat) (Calendar.weeks_of days).
Proof.
  intros Hmod. unfold Calendar.weeks_of. apply Forall_forall. intros week Hin.
  apply list_elem_of_fmap in Hin as (k & -> & Hk). apply elem_of_seq in Hk.
  pose proof (Nat.div_mod_eq (length days) 7) as H1.
  pose proof (Nat.div_mod_eq (length days + 6) 7) as H2.
  pose proof (Nat.mod_upper_bound (length days + 6) 7) as H3.
  rewrite length_take, length_drop. lia.
Qed.

(** C6. For every year and every month from 1 to 12 the grid is computed
    and is made of whole weeks of exactly seven cells: read in order, its
    cells are fewer than seven empty cells (zeros), the days 1 to the number
    of days of the month, and fewer than seven empty cells.  For February
    2024, with Sunday first, the grid has four empty cells, the days 1 to
    29, and two empty cells. *)
Theorem month_grid_whole_weeks (y m : Z) :
  1 <= m <= 12 →
  (∃ grid (before after : nat),
      weeks y m = Return grid
      ∧ Forall (fun week => length week = 7%nat) grid
      ∧ concat grid
        = repeat 0 before ++ Calendar.days_upto (Datetime.days_in_month y m)
          ++ repeat 0 after
      ∧ (before < 7)%nat ∧ (after < 7)%nat)
  ∧ weeks 2024 2 = Return february_2024
  ∧ concat february_2024 = repeat 0 4 ++ Calendar.days_upto 29 ++ repeat 0 2.
Proof.
  intros Hm. split; [| split; vm_compute; reflexivity].
  unfold weeks, Calendar.monthdayscalendar, Calendar.itermonthdays.
  destruct (monthrange_total y m Hm) as (day1 & -> & Hday1).
  cbn [mbind py_bind].
  pose proof (days_in_month_bounds y m Hm) as Hn.
  set (ndays := Datetime.days_in_month y m) in *.
  pose proof (Z.mod_pos_bound (day1 - 6) 7 ltac:(lia)) as Hb.
  pose proof (Z.mod_pos_bound (6 - day1 - ndays) 7 ltac:(lia)) as Ha.
  eexists _, (Z.to_nat ((day1 - 6) mod 7)), (Z.to_nat ((6 - day1 - ndays) mod 7)).
  split; [reflexivity |]. split; [| split; [apply concat_weeks_of | lia]].
  apply weeks_of_whole.
  rewrite !length_app, !repeat_length, days_upto_length.
  apply Nat2Z.inj. rewrite Nat2Z.inj_mod. rewrite !Nat2Z.inj_add, !Z2Nat.id by lia.
  change (Z.of_nat 7) with 7. change (Z.of_nat 0) with 0.
  pose proof (Z.div_mod (day1 - 6) 7 ltac:(lia)) as E1.
  pose proof (Z.div_mod (6 - day1 - ndays) 7 ltac:(lia)) as E2.
  apply Z.mod_divide; [lia |].
  exists (- ((day1 - 6) / 7) - ((6 - day1 - ndays) / 7)). lia.
Qed.

(** The grid of February 2024 is made of whole weeks. *)
Lemma month_grid_february_2024 :
  ∃ grid (before after : nat),
    weeks 2024 2 = Return grid
    ∧ Forall (fun week => length week = 7%nat) grid
    ∧ concat grid
      = repeat 0 before ++ Calendar.days_upto (Datetime.days_in_month 2024 2)
        ++ repeat 0 after
    ∧ (before < 7)%nat ∧ (after < 7)%nat.
Proof.
  exact (proj1 (month_grid_whole_weeks 2024 2
                  (conj (Zle_bool_imp_le 1 2 eq_refl) (Zle_bool_imp_le 2 12 eq_refl)))).
Defined.

End Grid.

(** ** The request for a month *)

Section Request.
Context (ucd : PyStr.unicode_db).
Local Open Scope Z_scope.

Lemma isoformat_first_instant (y m : Z) :
  Datetime.isoformat
    (Datetime.combine (Datetime.Date y m 1) (Datetime.time_new 0 0) Datetime.utc)
  = first_instant_utc y m.
Proof. reflexivity. Qed.

Lemma first_day_ok (y m : Z) :
  1 <= y <= 9999 → 1 <= m <= 12 →
  Datetime.date_new y m 1 = Return (Datetime.Date y m 1).
Proof.
  intros Hy Hm. pose proof (days_in_month_bounds y m Hm).
  apply date_new_ok; [done | done | lia].
Qed.

(** C8, as amended. For every year from 1 to 9999 and month from 1 to 12
    other than December 9999, the request sent to the provider asks for
    the primary calendar from the first instant of day 1 of the month at
    00:00 UTC to the first instant of day 1 of the next month at 00:00 UTC,
    the month after December being January of the next year; the provider
    is called once with this request and its events are then marked. *)
Theorem month_request_bounds (svc : service) (y m : Z) :
  1 <= y <= 9999 → 1 <= m <= 12 → ¬ (y = 9999 ∧ m = 12) →
  ∃ request,
    month_request y m = Return request
    ∧ timeMin request = first_instant_utc y m
    ∧ timeMax request = first_instant_utc (fst (next_month y m)) (snd (next_month y m))
    ∧ (m = 12 → timeMax request = first_instant_utc (y + 1) 1)
    ∧ (m ≠ 12 → timeMax request = first_instant_utc y (m + 1))
    ∧ calendarId request = ascii_str "primary"
    ∧ fetch_month_event_days ucd (Some svc) y m
      = (events_result ← svc request;
         Return (fold_left (mark_event ucd) (default [] (items events_result)) ∅)).
Proof.
  intros Hy Hm Hmax.
  assert (Hreq : month_request y m
                 = Return {| calendarId := ascii_str "primary";
                             timeMin := first_instant_utc y m;
                             timeMax := first_instant_utc (fst (next_month y m))
                                                          (snd (next_month y m));
                             singleEvents := true;
                             orderBy := ascii_str "startTime" |}).
  { unfold month_request, next_month.
    rewrite (first_day_ok y m) by done. cbn [mbind py_bind].
    destruct (Z.eqb_spec m 12) as [-> | H12]; cbn [fst snd].
    - rewrite (first_day_ok (y + 1) 1) by lia. reflexivity.
    - rewrite (first_day_ok y (m + 1)) by lia. reflexivity. }
  eexists. split; [exact Hreq |]. cbn [timeMin timeMax calendarId].
  split; [done |]. split; [done |].
  split; [intros ->; reflexivity |].
  split; [intros H12; unfold next_month; by destruct (Z.eqb_spec m 12) |].
  split; [done |].
  unfold fetch_month_event_days. rewrite Hreq. reflexivity.
Qed.

End Request.

(** The request for March 2024 runs from 1 March to 1 April, 00:00 UTC. *)
Lemma month_request_march_2024 :
  ∃ request,
    month_request 2024 3 = Return request
    ∧ timeMin request = ascii_str "2024-03-01T00:00:00+00:00"
    ∧ timeMax request = ascii_str "2024-04-01T00:00:00+00:00".
Proof.
  destruct (month_request_bounds ascii_ucd empty_calendar 2024 3) as (request & H1 & H2 & H3 & _).
  - lia.
  - lia.
  - lia.
  - exists request. repeat split; assumption.
Defined.

(** C8, as stated, fails for December 9999: the first day of the next month
    is no [date], the constructor raises [ValueError] and no request is
    made. *)
Lemma december_9999_raises :
  month_request 9999 12 = Raise ValueError
  ∧ fetch_month_event_days ascii_ucd (Some empty_calendar) 9999 12 = Raise ValueError.
Proof. split; vm_compute; reflexivity. Qed.

(** ** [int] and [split] on the text of a date *)

Section IntFacts.
Context (ucd : PyStr.unicode_db).
Local Open Scope N_scope.

Lemma is_digit_cases (ch : N) :
  PyStr.is_digit ch = true →
  ch = 48 ∨ ch = 49 ∨ ch = 50 ∨ ch = 51 ∨ ch = 52 ∨ ch = 53 ∨ ch = 54 ∨ ch = 55
  ∨ ch = 56 ∨ ch = 57.
Proof. unfold PyStr.is_digit. rewrite andb_true_iff, !N.leb_le. lia. Qed.

Lemma to_ascii_digits (s : pystr) : all_digits s → PyStr.to_ascii ucd s = s.
Proof.
  intros Hs. unfold PyStr.to_ascii.
  replace (forallb (fun ch => ch <? 128) s) with true; [done |].
  symmetry. apply forallb_forall. intros ch Hin.
  unfold all_digits in Hs. rewrite Forall_forall in Hs.
  specialize (Hs ch (proj2 (list_elem_of_In _ _) Hin)).
  apply N.ltb_lt. destruct (is_digit_cases ch Hs) as [-> | [-> | [-> | [-> | [-> |
    [-> | [-> | [-> | [-> | ->]]]]]]]]]; lia.
Qed.

Lemma last_cons_default {A} (s : list A) (x d : A) :
  List.last (x :: s) d = List.last s x.
Proof.
  revert x d. induction s as [|c s IH]; intros x d; [reflexivity |].
  change (List.last (x :: c :: s) d) with (List.last (c :: s) d).
  by rewrite !IH.
Qed.

Lemma scan_digits (s : pystr) (prev : N) (digits : nat) (value : Z) :
  all_digits s →
  PyStr.scan s prev digits value
  = Some (List.last s prev, (digits + length s)%nat,
          fold_left (fun v ch => (10 * v + Z.of_N (ch - 48))%Z) s value, []).
Proof.
  intros Hs. revert prev digits value.
  induction Hs as [|ch s Hch Hs IH]; intros prev digits value.
  - cbn. by rewrite Nat.add_0_r.
  - cbn [PyStr.scan]. rewrite Hch, IH. cbn [fold_left length].
    replace (S digits + length s)%nat with (digits + S (length s))%nat by lia.
    by rewrite last_cons_default.
Qed.

Lemma last_digit (s : pystr) (ch : N) :
  all_digits (ch :: s) → PyStr.is_digit (List.last (ch :: s) 0) = true.
Proof.
  intros Hs. unfold all_digits in Hs. rewrite Forall_forall in Hs. apply Hs.
  apply list_elem_of_In. destruct (exists_last (l := ch :: s)) as (l' & a & E); [done |].
  rewrite E, List.last_last. apply in_app_iff. right. by left.
Qed.

(** [int] reads a string of one to 4300 ASCII digits as its decimal value. *)
Lemma int_digits (s : pystr) :
  s ≠ [] → all_digits s → (length s ≤ 4300)%nat →
  PyStr.int ucd s = Return (decimal_value s).
Proof.
  intros Hne Hs Hlen. unfold PyStr.int. rewrite to_ascii_digits by done.
  destruct s as [|ch s]; [done |].
  pose proof (last_digit s ch Hs) as Hlast.
  pose proof (scan_digits (ch :: s) 0 0 0%Z Hs) as Hscan.
  assert (Hch : PyStr.is_digit ch = true) by (by apply Forall_cons in Hs as [? _]).
  assert (H95 : (List.last (ch :: s) 0 =? 95) = false).
  { apply N.eqb_neq. intros E. rewrite E in Hlast. discriminate. }
  assert (Hmax : (PyStr.max_str_digits <? 0 + length (ch :: s))%nat = false).
  { apply Nat.ltb_ge. unfold PyStr.max_str_digits. lia. }
  assert (Hend : PyStr.long_from_string (ch :: s)
                 = match PyStr.scan (ch :: s) 0 0 0%Z with
                   | None => Raise ValueError
                   | Some (prev, digits, value, rest) =>
                     if prev =? 95 then Raise ValueError
                     else if (digits =? 0)%nat then Raise ValueError
                     else if (PyStr.max_str_digits <? digits)%nat then Raise ValueError
                     else
                       match PyStr.skip_spaces rest with
                       | [] => Return (1 * value)%Z
                       | _ => Raise ValueError
                       end
                   end).
  { destruct (is_digit_cases ch Hch) as [-> | [-> | [-> | [-> | [-> |
      [-> | [-> | [-> | [-> | ->]]]]]]]]]; reflexivity. }
  rewrite Hend, Hscan, H95, Hmax. cbn [length Nat.add Nat.eqb PyStr.skip_spaces].
  unfold decimal_value. f_equal. lia.
Qed.

(** [split] at a separator that the pieces do not contain. *)
Lemma split_no_sep (sep : N) (s : pystr) :
  Forall (fun ch => ch ≠ sep) s → PyStr.split sep s = [s].
Proof.
  induction 1 as [|ch s Hch _ IH]; [reflexivity |].
  cbn [PyStr.split]. rewrite (proj2 (N.eqb_neq _ _) Hch), IH. reflexivity.
Qed.

Lemma split_app_sep (sep : N) (a rest : pystr) :
  Forall (fun ch => ch ≠ sep) a →
  PyStr.split sep (a ++ sep :: rest) = a :: PyStr.split sep rest.
Proof.
  induction 1 as [|ch s Hch _ IH]; cbn [app PyStr.split].
  - by rewrite N.eqb_refl.
  - rewrite (proj2 (N.eqb_neq _ _) Hch), IH. reflexivity.
Qed.

Lemma digits_no_dash (s : pystr) : all_digits s → Forall (fun ch => ch ≠ 45) s.
Proof.
  intros Hs. eapply Forall_impl; [exact Hs |]. intros ch Hch ->. discriminate.
Qed.

(** The three fields of a date in ISO form are read as numbers, and the
    day is the third. *)
Lemma parse_day_iso (y m d : pystr) :
  all_digits y → all_digits m → all_digits d →
  length y = 4%nat → length m = 2%nat → length d = 2%nat →
  parse_day ucd (y ++ 45 :: m ++ 45 :: d) = Return (decimal_value d).
Proof.
  intros Hy Hm Hd Ly Lm Ld. unfold parse_day.
  rewrite split_app_sep, split_app_sep, split_no_sep by by apply digits_no_dash.
  cbn [py_map].
  rewrite !int_digits; try done; try lia; by intros ->.
Qed.

(** [split] gives one piece more than there are separators, and [parse_day]
    wants three pieces. *)
Lemma split_length (s : pystr) : length (PyStr.split 45 s) = S (dashes s).
Proof.
  unfold dashes. induction s as [|ch s IH]; [reflexivity |].
  cbn [PyStr.split]. rewrite filter_cons.
  destruct (N.eqb_spec ch 45) as [-> | Hch].
  - rewrite decide_True by done. cbn [length]. by rewrite IH.
  - rewrite decide_False by done.
    destruct (PyStr.split 45 s) as [|p ps]; [discriminate |]. exact IH.
Qed.

Lemma py_map_length {A B} (f : A → py B) (l : list A) (r : list B) :
  py_map f l = Return r → length r = length l.
Proof.
  revert r. induction l as [|x l IH]; intros r; cbn [py_map].
  - by intros [= <-].
  - destruct (f x) as [y |]; [| discriminate]. cbn [mbind py_bind].
    destruct (py_map f l) as [ys |]; [| discriminate]. cbn [mbind py_bind].
    intros [= <-]. cbn [length]. by rewrite (IH ys).
Qed.

Lemma parse_day_dashes (p : pystr) :
  dashes p ≠ 2%nat → ∃ e, parse_day ucd p = Raise e.
Proof.
  intros Hd. unfold parse_day.
  destruct (py_map (PyStr.int ucd) (PyStr.split 45 p)) as [parts | e] eqn:E;
    [| by eexists].
  apply py_map_length in E. rewrite split_length in E. cbn [mbind py_bind].
  destruct parts as [|y [|m [|d [|x parts]]]]; cbn [length] in E; try by eexists.
  lia.
Qed.

End IntFacts.

(** ** The day markers *)

Section Markers.
Context (ucd : PyStr.unicode_db).

Lemma mark_event_spec (days : gset Z) (ev : event) :
  mark_event ucd days ev
  = match event_day ucd ev with
    | Some d => {[ d ]} ∪ days
    | None => days
    end.
Proof.
  unfold mark_event, event_day, start_timestamp, str_or.
  destruct (ev_start ev) as [[date dateTime] |]; [| reflexivity].
  cbn [si_date si_dateTime].
  destruct date as [[|c s] |]; destruct dateTime as [[|c' s'] |]; try reflexivity;
    match goal with |- context [parse_day ucd ?p] => by destruct (parse_day ucd p) end.
Qed.

Lemma omap_cons {A B} (f : A → option B) (x : A) (l : list A) :
  omap f (x :: l) = match f x with Some y => y :: omap f l | None => omap f l end.
Proof. reflexivity. Qed.

Lemma fold_mark_event (evs : list event) (days : gset Z) :
  fold_left (mark_event ucd) evs days = list_to_set (omap (event_day ucd) evs) ∪ days.
Proof.
  revert days. induction evs as [|ev evs IH]; intros days; cbn [fold_left].
  - set_solver.
  - rewrite IH, mark_event_spec, omap_cons.
    destruct (event_day ucd ev) as [d |]; set_solver.
Qed.

Lemma elem_of_marked (evs : list event) (d : Z) :
  d ∈ fold_left (mark_event ucd) evs ∅ ↔ ∃ ev, ev ∈ evs ∧ event_day ucd ev = Some d.
Proof.
  rewrite fold_mark_event, elem_of_union, elem_of_list_to_set, list_elem_of_omap.
  set_solver.
Qed.

Lemma iso_date_day_parse (ts : pystr) (d : Z) :
  iso_date_day ts = Some d → parse_day ucd (take 10 ts) = Return d.
Proof.
  unfold iso_date_day.
  destruct (take 10 ts) as [|c0 [|c1 [|c2 [|c3 [|c4 [|c5 [|c6 [|c7 [|c8 [|c9 [|c10 p]]]]]]]]]]];
    try discriminate.
  cbn [length Nat.eqb andb take drop nth app].
  destruct (forallb PyStr.is_digit [c0; c1; c2; c3; c5; c6; c8; c9]) eqn:Hdig;
    cbn [andb]; [| discriminate].
  destruct (N.eqb_spec c4 45) as [-> |]; cbn [andb]; [| discriminate].
  destruct (N.eqb_spec c7 45) as [-> |]; [| discriminate].
  intros [= <-]. rewrite forallb_forall in Hdig.
  assert (Hin : ∀ ch, In ch [c0; c1; c2; c3; c5; c6; c8; c9] → PyStr.is_digit ch = true)
    by exact Hdig.
  apply (parse_day_iso ucd [c0; c1; c2; c3] [c5; c6] [c8; c9]);
    try reflexivity; repeat constructor; apply Hin; cbn; tauto.
Qed.

(** C4 (the code departs from it). The provider answers the request for
    March 2024 with an all-day event that starts on 27 February 2024 and
    runs into March: its first ten characters name a day of another month,
    yet 27 is marked, although no event starts on 27 March. *)
Theorem fetch_marks_day_of_other_month :
  start_timestamp (date_event "2024-02-27") = Some (ascii_str "2024-02-27")
  ∧ fetch_month_event_days ucd (Some (provider_of [date_event "2024-02-27"])) 2024 3
    = Return {[ 27%Z ]}.
Proof. split; vm_compute; reflexivity. Qed.

End Markers.

(** ** More on the state token *)

Section TokenTexts.
Local Open Scope N_scope.

Lemma to_N_byte_of_N (n : N) : Byte.to_N (byte_of_N n) = n mod 256.
Proof.
  unfold byte_of_N. pose proof (N.mod_upper_bound n 256 ltac:(lia)) as Hn.
  destruct (Byte.of_N (n mod 256)) as [b |] eqn:E.
  - cbn. by apply Byte.to_of_N.
  - apply Byte.of_N_None_iff in E. lia.
Qed.

Lemma high_bit_byte (k x : N) :
  N.testbit k 7 = true → N.testbit (Byte.to_N (byte_of_N (N.lor k x))) 7 = true.
Proof.
  intros Hk. rewrite to_N_byte_of_N. change 256 with (2 ^ 8).
  rewrite N.mod_pow2_bits_low by lia. rewrite N.lor_spec, Hk. reflexivity.
Qed.

(** A byte with its high bit set is passed over by the decoder. *)
Lemma high_bit_skipped (b : byte) :
  N.testbit (Byte.to_N b) 7 = true →
  Byte.eqb (Base64.urlsafe_decode_translation b) Base64.BASE64_PAD = false
  ∧ Base64.table_a2b_base64 (Base64.urlsafe_decode_translation b) = None.
Proof.
  assert (H : forall_bytes (fun b =>
            implb (N.testbit (Byte.to_N b) 7)
              (negb (Byte.eqb (Base64.urlsafe_decode_translation b) Base64.BASE64_PAD)
               && bool_decide (Base64.table_a2b_base64 (Base64.urlsafe_decode_translation b)
                               = None))) = true) by (vm_compute; reflexivity).
  intros Hb. pose proof (forall_bytes_spec _ H b) as Hb'. cbv beta in Hb'.
  rewrite Hb in Hb'. cbn [implb] in Hb'.
  apply andb_prop in Hb' as [H1 H2]. apply negb_true_iff in H1.
  apply bool_decide_eq_true in H2. done.
Qed.

(** An ASCII character is one byte; the decoder reads it by its kind. *)
Lemma ascii_byte_kind (b : byte) :
  Byte.to_N b < 128 →
  let c := Byte.to_N b in
  let t := Base64.urlsafe_decode_translation b in
  (is_base64_char c = true →
   Byte.eqb t Base64.BASE64_PAD = false ∧ ∃ v, Base64.table_a2b_base64 t = Some v)
  ∧ (is_base64_char c = false → Base64.table_a2b_base64 t = None)
  ∧ (Byte.eqb t Base64.BASE64_PAD = true ↔ c = 61).
Proof.
  assert (H : forall_bytes (fun b =>
            let c := Byte.to_N b in
            let t := Base64.urlsafe_decode_translation b in
            implb (c <? 128)
              ((if is_base64_char c
                then negb (Byte.eqb t Base64.BASE64_PAD)
                     && bool_decide (is_Some (Base64.table_a2b_base64 t))
                else bool_decide (Base64.table_a2b_base64 t = None))
               && Bool.eqb (Byte.eqb t Base64.BASE64_PAD) (c =? 61))) = true)
    by (vm_compute; reflexivity).
  intros Hb. pose proof (forall_bytes_spec _ H b) as Hb'. cbv beta zeta in Hb'.
  rewrite (proj2 (N.ltb_lt _ _) Hb) in Hb'. cbn [implb] in Hb'.
  apply andb_prop in Hb' as [H1 H2]. apply Bool.eqb_prop in H2.
  cbn zeta. split; [| split].
  - intros Hc. rewrite Hc in H1. apply andb_prop in H1 as [H1 H3].
    apply negb_true_iff in H1. apply bool_decide_eq_true in H3 as [v Hv]. eauto.
  - intros Hc. rewrite Hc in H1. by apply bool_decide_eq_true in H1.
  - rewrite H2. apply N.eqb_eq.
Qed.

(** The pad is no six-bit value. *)
Lemma pad_no_sextet (b : byte) :
  Byte.eqb b Base64.BASE64_PAD = true → is_sextet_byte b = false.
Proof. intros Hb. apply byte_eqb_eq in Hb. by subst b. Qed.

Lemma sextet_bytes_cons (ch : byte) (rest : bytes) :
  sextet_bytes (ch :: rest)
  = ((if is_sextet_byte ch then 1 else 0) + sextet_bytes rest)%nat.
Proof. unfold sextet_bytes. cbn [List.filter]. by destruct (is_sextet_byte ch). Qed.

(** Four characters give at most three bytes. *)
Lemma a2b_loop_length (ascii : bytes) (quad_pos : nat) (leftchar : N) (pads : nat)
    (out : bytes) :
  Base64.a2b_loop ascii quad_pos leftchar pads = Return out →
  (4 * length out ≤ 3 * sextet_bytes ascii + quad_credit quad_pos)%nat.
Proof.
  revert quad_pos leftchar pads out.
  induction ascii as [|ch rest IH]; intros q l p out; cbn [Base64.a2b_loop].
  - destruct q; [| discriminate]. intros [= <-]. cbn. lia.
  - rewrite sextet_bytes_cons.
    destruct (Byte.eqb ch Base64.BASE64_PAD) eqn:Hpad.
    + rewrite (pad_no_sextet ch Hpad).
      destruct (2 <=? q)%nat.
      * destruct (4 <=? q + S p)%nat; [intros [= <-]; cbn; lia | apply IH].
      * apply IH.
    + unfold is_sextet_byte at 1.
      destruct (Base64.table_a2b_base64 ch) as [v |]; [| apply IH].
      destruct q as [|[|[|q]]].
      * intros H. apply IH in H. cbn [quad_credit] in *. lia.
      * destruct (Base64.a2b_loop rest 2 _ 0) as [out' |] eqn:E; [| discriminate].
        cbn [mbind py_bind]. intros [= <-]. apply IH in E. cbn [quad_credit length] in *. lia.
      * destruct (Base64.a2b_loop rest 3 _ 0) as [out' |] eqn:E; [| discriminate].
        cbn [mbind py_bind]. intros [= <-]. apply IH in E. cbn [quad_credit length] in *. lia.
      * destruct (Base64.a2b_loop rest 0 0 0) as [out' |] eqn:E; [| discriminate].
        cbn [mbind py_bind]. intros [= <-]. apply IH in E. cbn [quad_credit length] in *. lia.
Qed.

(** The bytes of one character: itself when it is ASCII, bytes with the
    high bit set otherwise. *)
Lemma encode_char_bytes (c : N) (bs : bytes) :
  Utf8.encode_char c = Return bs →
  (c < 128 ∧ bs = [byte_of_N c] ∧ Byte.to_N (byte_of_N c) = c)
  ∨ (128 <= c ∧ Forall (fun b => N.testbit (Byte.to_N b) 7 = true) bs).
Proof.
  unfold Utf8.encode_char, Utf8.cont.
  destruct (N.ltb_spec c 0x80) as [H1 | H1].
  { intros [= <-]. left. split; [done |]. split; [done |].
    rewrite to_N_byte_of_N. apply N.mod_small. lia. }
  intros Hbs. right. split; [lia |].
  destruct (c <? 0x800);
    [injection Hbs as <-; repeat constructor; by apply high_bit_byte |].
  destruct ((0xD800 <=? c) && (c <=? 0xDFFF)); [discriminate |].
  destruct (c <? 0x10000);
    [injection Hbs as <-; repeat constructor; by apply high_bit_byte |].
  destruct (c <? 0x110000); [| discriminate].
  injection Hbs as <-; repeat constructor; by apply high_bit_byte.
Qed.

Lemma is_skipped_char_encodes (c : N) :
  is_skipped_char c = true → ∃ bs, Utf8.encode_char c = Return bs.
Proof.
  unfold is_skipped_char, Utf8.encode_char. rewrite !andb_true_iff, negb_true_iff.
  intros [[[H1 H2] _] _]. rewrite H2.
  destruct (c <? 0x80); [eauto |]. destruct (c <? 0x800); [eauto |].
  destruct (c <? 0x10000); [eauto |]. rewrite H1. eauto.
Qed.


Lemma is_skipped_char_bytes (c : N) (bs : bytes) :
  is_skipped_char c = true → Utf8.encode_char c = Return bs → Forall passed_over bs.
Proof.
  intros Hc Hbs. destruct (encode_char_bytes c bs Hbs) as [(Hlt & -> & Hto) | [_ Hhigh]].
  - apply Forall_cons. split; [| constructor]. unfold is_skipped_char in Hc.
    rewrite !andb_true_iff, !negb_true_iff in Hc. destruct Hc as [[_ Hb64] H61].
    destruct (ascii_byte_kind (byte_of_N c)) as (_ & Hnone & Hpad); [by rewrite Hto |].
    cbn zeta in Hnone, Hpad. rewrite Hto in Hnone, Hpad. split; [| by apply Hnone].
    apply not_true_is_false. rewrite Hpad. by apply N.eqb_neq.
  - eapply Forall_impl; [exact Hhigh |]. intros b Hb. by apply high_bit_skipped.
Qed.

(** Bytes that are passed over change nothing, wherever they stand. *)
Lemma a2b_loop_passed_over (pre junk rest : bytes) (quad_pos : nat) (leftchar : N)
    (pads : nat) :
  Forall passed_over junk →
  Base64.a2b_loop (map Base64.urlsafe_decode_translation (pre ++ junk ++ rest))
                  quad_pos leftchar pads
  = Base64.a2b_loop (map Base64.urlsafe_decode_translation (pre ++ rest))
                    quad_pos leftchar pads.
Proof.
  intros Hjunk. revert quad_pos leftchar pads.
  induction pre as [|ch pre IH]; intros q l p.
  - cbn [app]. induction Hjunk as [|b junk [Hpad Htab] _ IHj]; [done |].
    cbn [app map Base64.a2b_loop]. rewrite Hpad, Htab. exact IHj.
  - cbn [app map Base64.a2b_loop].
    destruct (Byte.eqb _ Base64.BASE64_PAD).
    + destruct (2 <=? q)%nat; [| apply IH]. destruct (4 <=? q + S p)%nat; [done | apply IH].
    + destruct (Base64.table_a2b_base64 _) as [v |]; [| apply IH].
      destruct q as [|[|[|q]]]; by rewrite IH.
Qed.

Lemma utf8_encode_app (s1 s2 : pystr) :
  Utf8.encode (s1 ++ s2)
  = (b1 ← Utf8.encode s1; b2 ← Utf8.encode s2; Return (b1 ++ b2)).
Proof.
  induction s1 as [|c s1 IH]; cbn [app Utf8.encode].
  - cbn [mbind py_bind]. by destruct (Utf8.encode s2).
  - destruct (Utf8.encode_char c) as [bc |]; [| done]. cbn [mbind py_bind].
    rewrite IH. destruct (Utf8.encode s1) as [b1 |]; [| done]. cbn [mbind py_bind].
    destruct (Utf8.encode s2) as [b2 |]; [| done]. cbn [mbind py_bind].
    by rewrite app_assoc.
Qed.

Lemma decode_text_skipped (s1 s2 : pystr) (c : N) :
  is_skipped_char c = true → decode_text (s1 ++ c :: s2) = decode_text (s1 ++ s2).
Proof.
  intros Hc. unfold decode_text. rewrite !utf8_encode_app. cbn [Utf8.encode].
  destruct (is_skipped_char_encodes c Hc) as [bc Hbc]. rewrite Hbc.
  pose proof (is_skipped_char_bytes c bc Hc Hbc) as Hjunk.
  destruct (Utf8.encode s1) as [b1 |]; [| done]. cbn [mbind py_bind].
  destruct (Utf8.encode s2) as [b2 |]; [| done]. cbn [mbind py_bind].
  unfold Base64.urlsafe_b64decode, Base64.a2b_base64.
  by apply a2b_loop_passed_over.
Qed.

(** The six-bit values of a text are its characters of the alphabets. *)
Lemma sextet_bytes_app (a b : bytes) : sextet_bytes (a ++ b) = (sextet_bytes a + sextet_bytes b)%nat.
Proof. unfold sextet_bytes. by rewrite List.filter_app, length_app. Qed.

Lemma encode_char_sextets (c : N) (bs : bytes) :
  Utf8.encode_char c = Return bs →
  sextet_bytes (map Base64.urlsafe_decode_translation bs)
  = if is_base64_char c then 1%nat else 0%nat.
Proof.
  intros Hbs. destruct (encode_char_bytes c bs Hbs) as [(Hlt & -> & Hto) | [Hge Hhigh]].
  - destruct (ascii_byte_kind (byte_of_N c)) as (Hsome & Hnone & _); [by rewrite Hto |].
    cbn zeta in Hsome, Hnone. rewrite Hto in Hsome, Hnone.
    cbn [map]. rewrite sextet_bytes_cons. unfold is_sextet_byte at 1.
    destruct (is_base64_char c).
    + destruct Hsome as [_ [v ->]]; done.
    + by rewrite Hnone.
  - assert (Hc : is_base64_char c = false).
    { unfold is_base64_char, is_urlsafe_char.
      repeat match goal with
             | |- context [(?a <=? ?b)] => destruct (N.leb_spec a b)
             | |- context [(?a =? ?b)] => destruct (N.eqb_spec a b)
             end; cbn; try done; lia. }
    rewrite Hc. clear Hbs. induction Hhigh as [|b bs Hb _ IH]; [done |].
    cbn [map]. rewrite sextet_bytes_cons. unfold is_sextet_byte at 1.
    destruct (high_bit_skipped b Hb) as [_ ->]. exact IH.
Qed.

Lemma encode_sextets (s : pystr) (bs : bytes) :
  Utf8.encode s = Return bs →
  sextet_bytes (map Base64.urlsafe_decode_translation bs) = base64_chars s.
Proof.
  revert bs. induction s as [|c s IH]; intros bs; cbn [Utf8.encode].
  - by intros [= <-].
  - destruct (Utf8.encode_char c) as [bc |] eqn:Ec; [| discriminate]. cbn [mbind py_bind].
    destruct (Utf8.encode s) as [bs' |]; [| discriminate]. cbn [mbind py_bind].
    intros [= <-]. rewrite map_app, sextet_bytes_app, (IH bs' eq_refl).
    rewrite (encode_char_sextets c bc Ec). unfold base64_chars. cbn [List.filter].
    by destruct (is_base64_char c).
Qed.

Lemma decode_text_length (s : pystr) (data : bytes) :
  decode_text s = Return data → (4 * length data ≤ 3 * base64_chars s)%nat.
Proof.
  unfold decode_text. destruct (Utf8.encode s) as [bs |] eqn:E; [| discriminate].
  cbn [mbind py_bind]. unfold Base64.urlsafe_b64decode, Base64.a2b_base64.
  intros H. apply a2b_loop_length in H. rewrite (encode_sextets s bs E) in H.
  cbn [quad_credit] in H. lia.
Qed.

Lemma base64_chars_le (s : pystr) : (base64_chars s ≤ length s)%nat.
Proof. unfold base64_chars. apply List.filter_length_le. Qed.

End TokenTexts.

Section TokenExtras.

Lemma few_chars_rejected (secret_key : bytes) (s : pystr) :
  (base64_chars s < 64)%nat → verify_state secret_key s = Return false.
Proof.
  intros Hs. rewrite verify_state_unfold.
  destruct (decode_text s) as [data |] eqn:E; [| done].
  apply decode_text_length in E.
  destruct (Nat.eqb_spec (length data) 48) as [Hlen | Hlen]; [lia | done].
Qed.

Lemma short_state_rejected (secret_key : bytes) (s : pystr) :
  (length s < 64)%nat → verify_state secret_key s = Return false.
Proof.
  intros Hs. apply few_chars_rejected. pose proof (base64_chars_le s). lia.
Qed.

(** X1. [verify_state] accepts a string exactly when the string decodes to
    a 16-byte nonce followed by the HMAC-SHA256 tag of that nonce under the
    secret key. *)
Theorem verify_state_accepts_exactly (secret_key : bytes) (state_str : pystr) :
  verify_state secret_key state_str = Return true
  ↔ ∃ nonce, length nonce = 16%nat
             ∧ decode_text state_str
               = Return (nonce ++ Hmac.hmac_sha256 secret_key nonce).
Proof.
  split.
  - intros Hok. destruct (decode_text state_str) as [data |] eqn:E.
    + destruct (verify_state_accepts _ _ _ E Hok) as [Hlen Hsig].
      exists (take 16 data). split; [rewrite length_take; lia |].
      by rewrite <- Hsig, take_drop.
    + by rewrite verify_state_unfold, E in Hok.
  - intros (nonce & Hn & Hdec). rewrite verify_state_unfold, Hdec.
    rewrite length_app, hmac_sha256_length, Hn. cbn [Nat.add Nat.eqb negb].
    rewrite take_app_length', drop_app_length' by done.
    f_equal. by apply compare_digest_spec.
Qed.

(** X2. A string that [verify_state] accepts holds at least 64 characters
    of the base64 alphabets: shorter strings are always rejected. *)
Theorem accepted_state_has_64_chars (secret_key : bytes) (state_str : pystr) :
  verify_state secret_key state_str = Return true →
  (64 ≤ base64_chars state_str)%nat ∧ (64 ≤ length state_str)%nat.
Proof.
  intros Hok. pose proof (base64_chars_le state_str) as Hle.
  destruct (Nat.lt_ge_cases (base64_chars state_str) 64) as [Hlt | Hge]; [| lia].
  rewrite (few_chars_rejected secret_key state_str Hlt) in Hok. discriminate.
Qed.

(** The sample token has its 64 characters. *)
Lemma accepted_state_has_64_chars_sample :
  (64 ≤ base64_chars sample_token)%nat ∧ (64 ≤ length sample_token)%nat.
Proof.
  apply (accepted_state_has_64_chars sample_key sample_token).
  vm_compute. reflexivity.
Defined.

(** X3. A character that is neither of the base64 alphabets nor the pad
    (a space, a line end, an accented letter, ...) changes nothing wherever
    it is put in the string: [verify_state] answers as without it. *)
Theorem skipped_characters_ignored (secret_key : bytes) (s1 s2 : pystr) (c : N) :
  is_skipped_char c = true →
  verify_state secret_key (s1 ++ c :: s2) = verify_state secret_key (s1 ++ s2).
Proof.
  intros Hc. by rewrite !verify_state_unfold, decode_text_skipped.
Qed.

(** A line end after the sample token. *)
Lemma skipped_characters_ignored_sample :
  verify_state sample_key (sample_token ++ [10%N]) = verify_state sample_key sample_token.
Proof.
  pose proof (skipped_characters_ignored sample_key sample_token [] 10%N eq_refl) as H.
  by rewrite app_nil_r in H.
Defined.

Lemma encode_standard (s : pystr) :
  match Utf8.encode s with
  | Return bs =>
    ∃ bs', Utf8.encode (map standard_char s) = Return bs'
           ∧ map Base64.urlsafe_decode_translation bs'
             = map Base64.urlsafe_decode_translation bs
  | Raise e => Utf8.encode (map standard_char s) = Raise e
  end.
Proof.
  induction s as [|c s IH]; cbn [map Utf8.encode]; [by exists [] |].
  assert (Hc : match Utf8.encode_char c with
               | Return bc =>
                 ∃ bc', Utf8.encode_char (standard_char c) = Return bc'
                        ∧ map Base64.urlsafe_decode_translation bc'
                          = map Base64.urlsafe_decode_translation bc
               | Raise e => Utf8.encode_char (standard_char c) = Raise e
               end).
  { unfold standard_char. destruct (N.eqb_spec c 45) as [-> |]; [by eexists |].
    destruct (N.eqb_spec c 95) as [-> |]; [by eexists |].
    destruct (Utf8.encode_char c); eauto. }
  destruct (Utf8.encode_char c) as [bc |].
  - destruct Hc as (bc' & -> & Hbc). cbn [mbind py_bind].
    destruct (Utf8.encode s) as [bs |].
    + destruct IH as (bs' & -> & Hbs). cbn [mbind py_bind].
      eexists. split; [reflexivity |]. by rewrite !map_app, Hbc, Hbs.
    + rewrite IH. reflexivity.
  - by rewrite Hc.
Qed.

Lemma decode_text_standard (s : pystr) :
  decode_text (map standard_char s) = decode_text s.
Proof.
  unfold decode_text. pose proof (encode_standard s) as H.
  destruct (Utf8.encode s) as [bs |].
  - destruct H as (bs' & -> & Hbs). cbn [mbind py_bind].
    unfold Base64.urlsafe_b64decode. by rewrite Hbs.
  - by rewrite H.
Qed.

(** X4. [verify_state] reads [+] and [/] as it reads [-] and [_]: a string
    written in the standard base64 alphabet gets the answer of its
    URL-safe spelling. *)
Theorem standard_alphabet_read_alike (secret_key : bytes) (state_str : pystr) :
  verify_state secret_key (map standard_char state_str)
  = verify_state secret_key state_str.
Proof. by rewrite !verify_state_unfold, decode_text_standard. Qed.

(** X5. The text that [generate_state] makes of 48 bytes, or of any bytes,
    is read back by the decoding of [verify_state] as the same bytes. *)
Theorem token_text_round_trip (data : bytes) :
  Utf8.decode (Base64.urlsafe_b64encode data) = Return (token_of data)
  ∧ decode_text (token_of data) = Return data.
Proof.
  split; [| apply decode_token_of].
  unfold token_of. apply utf8_decode_ascii, urlsafe_b64encode_ascii.
Qed.

Lemma Return_inj {A} (a b : A) : Return a = Return b → a = b.
Proof. by intros [= ->]. Qed.

Lemma token_of_inj (d1 d2 : bytes) : token_of d1 = token_of d2 → d1 = d2.
Proof.
  intros H. pose proof (decode_token_of d1) as H1. rewrite H, decode_token_of in H1.
  by injection H1.
Qed.

(** X6. Two calls of [generate_state] under the same key return the same
    token exactly when they drew the same 16 random bytes. *)
Theorem same_token_same_nonce (secret_key : bytes) (rng1 rng2 : entropy) :
  fst (generate_state secret_key rng1) = fst (generate_state secret_key rng2)
  ↔ fst (urandom 16 rng1) = fst (urandom 16 rng2).
Proof.
  rewrite !generate_state_token. cbn [fst].
  pose proof (urandom_length 16 rng1) as L1. pose proof (urandom_length 16 rng2) as L2.
  split.
  - intros H. apply Return_inj, token_of_inj in H.
    apply app_inj_1 in H as [H _]; [exact H | lia].
  - intros H. by rewrite H.
Qed.

Lemma sextet_char_urlsafe (v : N) :
  (v < 64)%N →
  is_urlsafe_char
    (Byte.to_N (Base64.urlsafe_encode_translation (Base64.table_b2a_base64 v))) = true.
Proof.
  intros Hv.
  assert (H : forallb (fun v => is_urlsafe_char
              (Byte.to_N (Base64.urlsafe_encode_translation (Base64.table_b2a_base64 v))))
              sextets = true) by (vm_compute; reflexivity).
  rewrite forallb_forall in H. apply H, in_sextets, Hv.
Qed.

(** Bytes in threes are written without pad, in letters, digits, [-], [_]. *)
Lemma urlsafe_b64encode_urlsafe (data : bytes) :
  (length data mod 3 = 0)%nat →
  Forall (fun b => is_urlsafe_char (Byte.to_N b) = true) (Base64.urlsafe_b64encode data).
Proof.
  unfold Base64.urlsafe_b64encode.
  induction data as [|a|a b|a b c rest IH] using list_ind3; intros Hlen.
  - constructor.
  - discriminate.
  - discriminate.
  - destruct (sextet_bounds a b) as (B1 & B2 & _).
    destruct (sextet_bounds b c) as (_ & _ & B3 & _).
    destruct (sextet_bounds c x00) as (_ & _ & _ & B4 & _).
    cbn zeta in B1, B2, B3, B4. cbn [Base64.b2a_base64 map].
    repeat (constructor; [by apply sextet_char_urlsafe |]).
    apply IH. cbn [length] in Hlen.
    replace (S (S (S (length rest)))) with (length rest + 1 * 3)%nat in Hlen by lia.
    by rewrite Nat.Div0.mod_add in Hlen.
Qed.

Lemma strip_pads_urlsafe (n : nat) (r : pystr) :
  Forall (fun c => is_urlsafe_char c = true) r → strip_pads n r = r.
Proof.
  intros Hr. destruct n as [|n]; [by destruct r |].
  destruct Hr as [|c r Hc _]; [reflexivity |].
  assert (Hne : c ≠ 61%N) by (intros ->; discriminate).
  destruct c as [|p]; [reflexivity |].
  do 6 (try (destruct p as [p | p |]; try reflexivity)).
  by destruct Hne.
Qed.

(** X7. The token of [generate_state] is valid URL-safe base64 and needs no
    escaping in a URL: 64 characters, each a letter, a digit, [-] or [_],
    with no pad. *)
Theorem generated_token_is_urlsafe (secret_key : bytes) (rng : entropy) :
  ∃ token,
    fst (generate_state secret_key rng) = Return token
    ∧ length token = 64%nat
    ∧ Forall (fun c => is_urlsafe_char c = true) token
    ∧ valid_urlsafe_b64 token = true.
Proof.
  rewrite generate_state_token. cbn [fst]. eexists. split; [reflexivity |].
  pose proof (urandom_length 16 rng) as Hn.
  set (data := fst (urandom 16 rng) ++ Hmac.hmac_sha256 secret_key (fst (urandom 16 rng))).
  assert (Hdata : length data = 48%nat)
    by (subst data; rewrite length_app, hmac_sha256_length; lia).
  assert (Hlen : length (token_of data) = 64%nat)
    by (unfold token_of; by rewrite length_map, urlsafe_b64encode_length, Hdata).
  assert (Hsafe : Forall (fun c => is_urlsafe_char c = true) (token_of data)).
  { unfold token_of. apply Forall_fmap.
    apply urlsafe_b64encode_urlsafe. by rewrite Hdata. }
  split; [exact Hlen |]. split; [exact Hsafe |].
  unfold valid_urlsafe_b64. rewrite Hlen. cbn [Nat.modulo Nat.eqb andb].
  change (64 mod 4 =? 0)%nat with true. cbn [andb].
  rewrite strip_pads_urlsafe by by apply Forall_rev.
  apply forallb_forall. intros c Hc. rewrite Forall_forall in Hsafe.
  apply Hsafe, list_elem_of_In. by apply in_rev.
Qed.

End TokenExtras.

(** ** The cursor over many steps *)

Section CursorSteps.
Local Open Scope Z_scope.

Lemma month_index_eq (st : session_state) :
  month_index st = 12 * cal_year st + (cal_month st - 1).
Proof. reflexivity. Qed.

Lemma click_next_spec (st : session_state) :
  1 <= cal_month st <= 12 →
  month_index (click_next st) = month_index st + 1
  ∧ 1 <= cal_month (click_next st) <= 12
  ∧ logged_in (click_next st) = logged_in st
  ∧ selected_date (click_next st) = selected_date st.
Proof.
  intros Hm. unfold month_index, click_next.
  destruct (Z.eqb_spec (cal_month st) 12) as [H12 | H12]; cbn; repeat split; lia.
Qed.

Lemma click_prev_spec (st : session_state) :
  1 <= cal_month st <= 12 →
  month_index (click_prev st) = month_index st - 1
  ∧ 1 <= cal_month (click_prev st) <= 12
  ∧ logged_in (click_prev st) = logged_in st
  ∧ selected_date (click_prev st) = selected_date st.
Proof.
  intros Hm. unfold month_index, click_prev.
  destruct (Z.eqb_spec (cal_month st) 1) as [H1 | H1]; cbn; repeat split; lia.
Qed.

(** A session with a month from 1 to 12 is known by its month index and
    what the steps leave alone. *)
Lemma session_by_index (st st' : session_state) :
  1 <= cal_month st <= 12 → 1 <= cal_month st' <= 12 →
  month_index st' = month_index st →
  logged_in st' = logged_in st → selected_date st' = selected_date st →
  st' = st.
Proof.
  destruct st as [l y m s], st' as [l' y' m' s']. unfold month_index. cbn.
  intros Hm Hm' Hi -> ->. assert (y' = y) by lia. assert (m' = m) by lia. by subst.
Qed.

Lemma iter_next_spec (n : nat) (st : session_state) :
  1 <= cal_month st <= 12 →
  month_index (Nat.iter n click_next st) = month_index st + Z.of_nat n
  ∧ 1 <= cal_month (Nat.iter n click_next st) <= 12
  ∧ logged_in (Nat.iter n click_next st) = logged_in st
  ∧ selected_date (Nat.iter n click_next st) = selected_date st.
Proof.
  intros Hm. induction n as [|n (I1 & I2 & I3 & I4)]; [cbn; repeat split; lia |].
  rewrite Nat.iter_succ. destruct (click_next_spec _ I2) as (S1 & S2 & S3 & S4).
  repeat split; try lia; congruence.
Qed.

Lemma iter_prev_spec (n : nat) (st : session_state) :
  1 <= cal_month st <= 12 →
  month_index (Nat.iter n click_prev st) = month_index st - Z.of_nat n
  ∧ 1 <= cal_month (Nat.iter n click_prev st) <= 12
  ∧ logged_in (Nat.iter n click_prev st) = logged_in st
  ∧ selected_date (Nat.iter n click_prev st) = selected_date st.
Proof.
  intros Hm. induction n as [|n (I1 & I2 & I3 & I4)]; [cbn; repeat split; lia |].
  rewrite Nat.iter_succ. destruct (click_prev_spec _ I2) as (S1 & S2 & S3 & S4).
  repeat split; try lia; congruence.
Qed.

(** X8. On a cursor with a month from 1 to 12, the next-month step adds one
    to the number of months since year 0 and the previous-month step takes
    one away; both leave a month from 1 to 12, and neither touches the
    selected date or the login. *)
Theorem navigation_steps_one_month (st : session_state) :
  1 <= cal_month st <= 12 →
  (month_index (click_next st) = month_index st + 1
   ∧ 1 <= cal_month (click_next st) <= 12
   ∧ logged_in (click_next st) = logged_in st
   ∧ selected_date (click_next st) = selected_date st)
  ∧ (month_index (click_prev st) = month_index st - 1
     ∧ 1 <= cal_month (click_prev st) <= 12
     ∧ logged_in (click_prev st) = logged_in st
     ∧ selected_date (click_prev st) = selected_date st).
Proof. intros Hm. split; [by apply click_next_spec | by apply click_prev_spec]. Qed.

(** December 2024: the index of the next month is one more. *)
Lemma navigation_steps_one_month_december :
  let st := {| logged_in := true; cal_year := 2024; cal_month := 12;
               selected_date := Datetime.Date 2024 12 24 |} in
  month_index (click_next st) = month_index st + 1.
Proof.
  cbn zeta.
  exact (proj1 (proj1 (navigation_steps_one_month
            {| logged_in := true; cal_year := 2024; cal_month := 12;
               selected_date := Datetime.Date 2024 12 24 |}
            (conj (Zle_bool_imp_le 1 12 eq_refl) (Z.le_refl 12))))).
Defined.

(** X9. [n] presses of the next-month button lead to the month [n] months
    later, whatever [n]: the year and the month are the quotient and the
    remainder of the month count by twelve; twelve presses give the same
    month of the next year; and [n] presses of the previous-month button
    then lead back to the session they started from. *)
Theorem navigation_n_steps (n : nat) (st : session_state) :
  1 <= cal_month st <= 12 →
  cal_year (Nat.iter n click_next st) = (month_index st + Z.of_nat n) / 12
  ∧ cal_month (Nat.iter n click_next st) = (month_index st + Z.of_nat n) mod 12 + 1
  ∧ cal_year (Nat.iter n click_prev st) = (month_index st - Z.of_nat n) / 12
  ∧ cal_month (Nat.iter n click_prev st) = (month_index st - Z.of_nat n) mod 12 + 1
  ∧ Nat.iter n click_prev (Nat.iter n click_next st) = st
  ∧ Nat.iter n click_next (Nat.iter n click_prev st) = st
  ∧ cal_year (Nat.iter 12 click_next st) = cal_year st + 1
  ∧ cal_month (Nat.iter 12 click_next st) = cal_month st.
Proof.
  intros Hm.
  destruct (iter_next_spec n st Hm) as (N1 & N2 & N3 & N4).
  destruct (iter_prev_spec n st Hm) as (P1 & P2 & P3 & P4).
  destruct (iter_prev_spec n _ N2) as (Q1 & Q2 & Q3 & Q4).
  destruct (iter_next_spec n _ P2) as (R1 & R2 & R3 & R4).
  destruct (iter_next_spec 12 st Hm) as (T1 & T2 & _).
  revert T1 T2. generalize (Nat.iter 12 click_next st). intros st12 T1 T2.
  rewrite !month_index_eq in *.
  split; [| split; [| split; [| split; [| split; [| split; [| split]]]]]].
  - apply (Z.div_unique _ 12 _ (cal_month (Nat.iter n click_next st) - 1)); lia.
  - assert (E : cal_month (Nat.iter n click_next st) - 1
                 = (12 * cal_year st + (cal_month st - 1) + Z.of_nat n) mod 12)
      by (apply (Z.mod_unique _ 12 (cal_year (Nat.iter n click_next st))); lia).
    lia.
  - apply (Z.div_unique _ 12 _ (cal_month (Nat.iter n click_prev st) - 1)); lia.
  - assert (E : cal_month (Nat.iter n click_prev st) - 1
                 = (12 * cal_year st + (cal_month st - 1) - Z.of_nat n) mod 12)
      by (apply (Z.mod_unique _ 12 (cal_year (Nat.iter n click_prev st))); lia).
    lia.
  - apply session_by_index; rewrite ?month_index_eq; try done; try lia; congruence.
  - apply session_by_index; rewrite ?month_index_eq; try done; try lia; congruence.
  - lia.
  - lia.
Qed.

(** From November 2024, three presses lead to February 2025. *)
Lemma navigation_n_steps_november :
  let st := {| logged_in := false; cal_year := 2024; cal_month := 11;
               selected_date := Datetime.Date 2024 11 5 |} in
  cal_year (Nat.iter 3 click_next st) = 2025 ∧ cal_month (Nat.iter 3 click_next st) = 2.
Proof.
  cbn zeta.
  pose proof (navigation_n_steps 3
                {| logged_in := false; cal_year := 2024; cal_month := 11;
                   selected_date := Datetime.Date 2024 11 5 |}
                (conj (Zle_bool_imp_le 1 11 eq_refl) (Zle_bool_imp_le 11 12 eq_refl)))
    as (H1 & H2 & _).
  split; [exact H1 | exact H2].
Defined.

End CursorSteps.

(** ** The grid, the day buttons and a run of the calendar *)

Section GridCells.
Local Open Scope Z_scope.

(** The days of a month as [itermonthdays] lists them. *)
Lemma weeks_content (y m : Z) :
  1 <= m <= 12 →
  ∃ day1, 0 <= day1 < 7
    ∧ Calendar.weekday y m 1 = Return day1
    ∧ weeks y m
      = Return (Calendar.weeks_of
                  (repeat 0 (Z.to_nat ((day1 - 6) mod 7))
                   ++ Calendar.days_upto (Datetime.days_in_month y m)
                   ++ repeat 0 (Z.to_nat ((6 - day1 - Datetime.days_in_month y m) mod 7)))).
Proof.
  intros Hm. unfold weeks, Calendar.monthdayscalendar, Calendar.itermonthdays,
    Calendar.monthrange.
  rewrite (proj2 (Z.leb_le _ _) (proj1 Hm)), (proj2 (Z.leb_le _ _) (proj2 Hm)).
  cbn [andb negb].
  destruct (calendar_weekday_total y m Hm) as (day1 & Hw & Hday1).
  exists day1. split; [done |]. split; [done |]. rewrite Hw.
  cbn [mbind py_bind]. by rewrite calendar_ndays.
Qed.

Lemma calendar_weekday_in_range (y m : Z) :
  1 <= y <= 9999 → 1 <= m <= 12 →
  Calendar.weekday y m 1 = Return (Datetime.weekday (Datetime.Date y m 1)).
Proof.
  intros Hy Hm. unfold Calendar.weekday, Datetime.MINYEAR, Datetime.MAXYEAR.
  rewrite (proj2 (Z.leb_le _ _) (proj1 Hy)), (proj2 (Z.leb_le _ _) (proj2 Hy)).
  cbn [andb]. pose proof (days_in_month_bounds y m Hm).
  by rewrite date_new_ok by (unfold Datetime.MINYEAR, Datetime.MAXYEAR; lia).
Qed.

Lemma lookup_repeat {A} (x y : A) (n i : nat) :
  repeat x n !! i = Some y → y = x ∧ (i < n)%nat.
Proof.
  revert i. induction n as [|n IH]; intros [|i]; cbn; try done.
  - intros [= <-]. split; [done | lia].
  - intros H. destruct (IH i H). split; [done | lia].
Qed.

Lemma lookup_days_upto (n : Z) (j : nat) (d : Z) :
  Calendar.days_upto n !! j = Some d ↔ d = Z.of_nat j + 1 ∧ (j < Z.to_nat n)%nat.
Proof.
  unfold Calendar.days_upto. rewrite list_lookup_fmap_Some. split.
  - intros (i & -> & Hi). apply lookup_seq in Hi as [-> Hi]. done.
  - intros [-> Hj]. exists j. split; [done |]. exact (lookup_seq_lt 0 _ j Hj).
Qed.

(** A day of the list stands after the leading zeros, at its rank. *)
Lemma lookup_padded_days (before after : nat) (n : Z) (k : nat) (d : Z) :
  (repeat 0 before ++ Calendar.days_upto n ++ repeat 0 after) !! k = Some d →
  d ≠ 0 →
  1 <= d <= n ∧ Z.of_nat k = Z.of_nat before + d - 1.
Proof.
  intros Hk Hd. apply lookup_app_Some in Hk as [Hk | [Hlen Hk]].
  { apply lookup_repeat in Hk as [-> _]. done. }
  rewrite repeat_length in Hlen, Hk.
  apply lookup_app_Some in Hk as [Hk | [_ Hk]].
  - apply lookup_days_upto in Hk as [-> Hj]. lia.
  - apply lookup_repeat in Hk as [-> _]. done.
Qed.

Lemma lookup_day_of_padded (before after : nat) (n d : Z) :
  1 <= d <= n →
  (repeat 0 before ++ Calendar.days_upto n ++ repeat 0 after)
    !! (before + Z.to_nat (d - 1))%nat = Some d.
Proof.
  intros Hd. rewrite lookup_app_r by (rewrite repeat_length; lia).
  rewrite repeat_length. replace (before + Z.to_nat (d - 1) - before)%nat
    with (Z.to_nat (d - 1)) by lia.
  rewrite lookup_app_l by (rewrite days_upto_length; lia).
  apply lookup_days_upto. lia.
Qed.

(** A cell of the weeks is an element of the list they were cut from. *)
Lemma weeks_of_cell (days : list Z) (w i : nat) (d : Z) :
  grid_cell (Calendar.weeks_of days) w i = Some d ↔
  (i < 7)%nat ∧ days !! (7 * w + i)%nat = Some d.
Proof.
  unfold grid_cell, Calendar.weeks_of. rewrite list_lookup_fmap.
  destruct (seq 0 ((length days + 6) / 7) !! w) as [k |] eqn:Ek; cbn.
  - apply lookup_seq in Ek as [-> Hw]. cbn [Nat.add].
    destruct (Nat.lt_ge_cases i 7) as [Hi | Hi].
    + rewrite lookup_take_lt, lookup_drop by done. tauto.
    + rewrite lookup_take_ge by done. split; [done | lia].
  - split; [done |]. intros [Hi Hd]. apply lookup_lt_Some in Hd.
    assert (Hn : seq 0 ((length days + 6) / 7) !! w = Some (0 + w)%nat).
    { apply lookup_seq_lt.
      pose proof (Nat.div_mod_eq (length days + 6) 7).
      pose proof (Nat.mod_upper_bound (length days + 6) 7). lia. }
    congruence.
Qed.

End GridCells.

Section GridTheorems.
Local Open Scope Z_scope.

Lemma ymd2ord_day (y m d : Z) :
  Datetime.ymd2ord y m d = Datetime.ymd2ord y m 1 + (d - 1).
Proof. unfold Datetime.ymd2ord. lia. Qed.

(** X10. In the grid of a month of the years 1 to 9999, every cell that
    holds a day holds a day of that month, for which [date] can be built,
    and stands in the column of its day of the week, Sunday being the
    first column. *)
Theorem days_under_their_weekday (y m : Z) (grid : list (list Z)) (w i : nat) (d : Z) :
  1 <= y <= 9999 → 1 <= m <= 12 →
  weeks y m = Return grid → grid_cell grid w i = Some d → d ≠ 0 →
  1 <= d <= Datetime.days_in_month y m
  ∧ Datetime.date_new y m d = Return (Datetime.Date y m d)
  ∧ Z.of_nat i = (Datetime.weekday (Datetime.Date y m d) + 1) mod 7.
Proof.
  intros Hy Hm Hgrid Hcell Hd.
  destruct (weeks_content y m Hm) as (day1 & Hday1 & Hw & Hweeks).
  rewrite Hweeks in Hgrid. injection Hgrid as <-.
  rewrite (calendar_weekday_in_range y m Hy Hm) in Hw. injection Hw as <-.
  apply weeks_of_cell in Hcell as [Hi Hk].
  apply lookup_padded_days in Hk as [Hrange Hk]; [| done].
  split; [done |]. split; [by apply date_new_ok |].
  unfold Datetime.weekday, Datetime.toordinal in *. cbn [Datetime.year Datetime.month Datetime.day] in *.
  rewrite (ymd2ord_day y m d).
  set (o := Datetime.ymd2ord y m 1) in *.
  rewrite Z2Nat.id in Hk by (apply Z.mod_pos_bound; lia).
  rewrite Nat2Z.inj_add, Nat2Z.inj_mul in Hk. change (Z.of_nat 7) with 7 in Hk.
  assert (Hi' : 0 <= Z.of_nat i < 7) by lia.
  revert Hk Hi'. generalize (Z.of_nat i) (Z.of_nat w). intros i' w' Hk Hi'.
  Z.div_mod_to_equations. lia.
Qed.

(** 29 February 2024 was a Thursday: fifth row, fifth column. *)
Lemma days_under_their_weekday_leap_day :
  Z.of_nat 4 = (Datetime.weekday (Datetime.Date 2024 2 29) + 1) mod 7.
Proof.
  refine (proj2 (proj2 (days_under_their_weekday 2024 2 february_2024 4 4 29 _ _ _ _ _))).
  - lia.
  - lia.
  - vm_compute. reflexivity.
  - reflexivity.
  - discriminate.
Defined.

Lemma filter_zeros (n : nat) : List.filter (fun d => negb (d =? 0)) (repeat 0 n) = [].
Proof. induction n; [done | exact IHn]. Qed.

Lemma filter_days_upto (n : Z) :
  List.filter (fun d => negb (d =? 0)) (Calendar.days_upto n) = Calendar.days_upto n.
Proof.
  apply forallb_filter_id. apply forallb_forall. intros d Hd.
  apply list_elem_of_In, list_elem_of_lookup in Hd as [j Hj].
  apply lookup_days_upto in Hj as [-> _]. apply negb_true_iff, Z.eqb_neq. lia.
Qed.

(** X11. The grid of a month has four to six weeks, and its day cells, read
    in order, are the days 1 to the last day of the month, each once. *)
Theorem month_grid_shape (y m : Z) (grid : list (list Z)) :
  1 <= m <= 12 → weeks y m = Return grid →
  (4 ≤ length grid ≤ 6)%nat
  ∧ grid_days grid = Calendar.days_upto (Datetime.days_in_month y m).
Proof.
  intros Hm Hgrid.
  destruct (weeks_content y m Hm) as (day1 & Hday1 & _ & Hweeks).
  rewrite Hweeks in Hgrid. injection Hgrid as <-.
  pose proof (days_in_month_bounds y m Hm) as Hn.
  set (n := Datetime.days_in_month y m) in *.
  pose proof (Z.mod_pos_bound (day1 - 6) 7 ltac:(lia)) as Hb.
  pose proof (Z.mod_pos_bound (6 - day1 - n) 7 ltac:(lia)) as Ha.
  split.
  - unfold Calendar.weeks_of. rewrite length_map, length_seq.
    rewrite !length_app, !repeat_length, days_upto_length.
    assert (Hsum : ∃ k : nat,
               (Z.to_nat ((day1 - 6) mod 7)
                + (Z.to_nat n + Z.to_nat ((6 - day1 - n) mod 7)))%nat = (7 * k)%nat).
    { exists (Z.to_nat (((day1 - 6) mod 7 + n + (6 - day1 - n) mod 7) / 7)).
      apply Nat2Z.inj. rewrite Nat2Z.inj_mul, !Nat2Z.inj_add, !Z2Nat.id; try lia.
      - change (Z.of_nat 7) with 7. Z.div_mod_to_equations. lia.
      - apply Z.div_pos; lia. }
    destruct Hsum as [k Hk]. rewrite Hk.
    replace (7 * k + 6)%nat with (6 + k * 7)%nat by lia.
    rewrite Nat.div_add by lia. change (6 / 7)%nat with 0%nat. lia.
  - unfold grid_days. rewrite concat_weeks_of, !List.filter_app, !filter_zeros,
      filter_days_upto. by rewrite app_nil_r.
Qed.

(** February 2024 has five weeks. *)
Lemma month_grid_shape_february_2024 :
  (4 ≤ length february_2024 ≤ 6)%nat
  ∧ grid_days february_2024 = Calendar.days_upto (Datetime.days_in_month 2024 2).
Proof.
  apply (month_grid_shape 2024 2 february_2024).
  - lia.
  - vm_compute. reflexivity.
Defined.

End GridTheorems.

Section RenderLoop.
Local Open Scope Z_scope.

(** A body that keeps the variable gives the map of its results. *)
Lemma py_loop_still {S A B} (body : S → A → py (B * S)) (g : A → B) (s : S) (l : list A) :
  Forall (fun x => body s x = Return (g x, s)) l →
  py_loop body s l = Return (map g l, s).
Proof.
  induction 1 as [|x l Hx _ IH]; [reflexivity |].
  cbn [py_loop map]. rewrite Hx. cbn [mbind py_bind snd fst]. rewrite IH. reflexivity.
Qed.

(** A loop over two lists in a row. *)
Lemma py_loop_app {S A B} (body : S → A → py (B * S)) (s : S) (l1 l2 : list A) :
  py_loop body s (l1 ++ l2)
  = (r1 ← py_loop body s l1;
     r2 ← py_loop body (snd r1) l2;
     Return (fst r1 ++ fst r2, snd r2)).
Proof.
  revert s. induction l1 as [|x l1 IH]; intros s; cbn [py_loop app].
  - cbn [mbind py_bind fst snd app]. by destruct (py_loop body s l2) as [[? ?] |].
  - destruct (body s x) as [[b sx] |]; [| done]. cbn [mbind py_bind fst snd].
    rewrite IH. destruct (py_loop body sx l1) as [[row s1] |]; [| done].
    cbn [mbind py_bind fst snd].
    by destruct (py_loop body s1 l2) as [[? ?] |].
Qed.

(** The variable after a loop over the lists of a list is the variable
    after the loop over all their elements in a row. *)
Lemma py_loop_concat {S A B} (body : S → A → py (B * S)) (s : S) (ll : list (list A))
    (rows : list (list B)) (s' : S) :
  py_loop (py_loop body) s ll = Return (rows, s') →
  py_loop body s (concat ll) = Return (concat rows, s').
Proof.
  revert s rows s'. induction ll as [|l ll IH]; intros s rows s'; cbn [py_loop concat].
  - by intros [= <- <-].
  - rewrite py_loop_app.
    destruct (py_loop body s l) as [[row s1] |] eqn:E1; [| discriminate].
    cbn [mbind py_bind fst snd].
    destruct (py_loop (py_loop body) s1 ll) as [[rows' s2] |] eqn:E2; [| discriminate].
    cbn [mbind py_bind fst snd]. intros [= <- <-].
    by rewrite (IH s1 rows' s2 E2).
Qed.

(** The cells of a grid are zeros and days of the month. *)
Lemma grid_cells_range (y m : Z) (grid : list (list Z)) :
  1 <= m <= 12 → weeks y m = Return grid →
  Forall (Forall (fun d => d = 0 ∨ 1 <= d <= Datetime.days_in_month y m)) grid.
Proof.
  intros Hm Hgrid.
  destruct (weeks_content y m Hm) as (day1 & _ & _ & Hweeks).
  rewrite Hweeks in Hgrid. injection Hgrid as <-.
  unfold Calendar.weeks_of. apply Forall_fmap, Forall_forall. intros k _. cbn.
  apply Forall_take, Forall_drop.
  apply Forall_app. split; [| apply Forall_app; split].
  - apply Forall_forall. intros d Hd. left. apply list_elem_of_In in Hd.
    by apply repeat_spec in Hd.
  - apply Forall_forall. intros d Hd. right.
    apply list_elem_of_lookup in Hd as [j Hj]. apply lookup_days_upto in Hj as [-> Hj]. lia.
  - apply Forall_forall. intros d Hd. left. apply list_elem_of_In in Hd.
    by apply repeat_spec in Hd.
Qed.

Lemma render_day_cell (pressed : pystr → bool) (y m : Z) (dwe : gset Z)
    (sel : Datetime.date) (d : Z) :
  1 <= y <= 9999 → 1 <= m <= 12 → d = 0 ∨ 1 <= d <= Datetime.days_in_month y m →
  render_day pressed y m dwe sel d
  = Return (still_button y m dwe sel d,
            if negb (d =? 0) && pressed (day_key y m d) then Datetime.Date y m d else sel).
Proof.
  intros Hy Hm Hd. unfold render_day, still_button.
  destruct (Z.eqb_spec d 0) as [-> | Hd0]; [reflexivity |].
  rewrite date_new_ok by (try done; lia). reflexivity.
Qed.

(** X12. For a cursor in the years 1 to 9999, the loop over the grid never
    raises; when no day button is pressed in the run it shows, cell by
    cell, nothing for an empty cell and for a day the button with its label
    and its key, and it leaves the selected date as it was. *)
Theorem render_without_press (pressed : pystr → bool) (y m : Z) (dwe : gset Z)
    (sel : Datetime.date) (grid : list (list Z)) :
  1 <= y <= 9999 → 1 <= m <= 12 → weeks y m = Return grid →
  (∀ key, pressed key = false) →
  render_weeks pressed y m dwe sel grid
  = Return (map (map (still_button y m dwe sel)) grid, sel).
Proof.
  intros Hy Hm Hgrid Hno. unfold render_weeks.
  apply py_loop_still. eapply Forall_impl; [exact (grid_cells_range y m grid Hm Hgrid) |].
  intros week Hweek. cbn beta. apply py_loop_still.
  eapply Forall_impl; [exact Hweek |]. intros d Hd. cbn beta.
  rewrite render_day_cell by done. by rewrite Hno, andb_false_r.
Qed.

(** February 2024 without a press. *)
Lemma render_without_press_february_2024 :
  render_weeks (fun _ => false) 2024 2 ∅ (Datetime.Date 2024 2 14) february_2024
  = Return (map (map (still_button 2024 2 ∅ (Datetime.Date 2024 2 14))) february_2024,
            Datetime.Date 2024 2 14).
Proof.
  apply (render_without_press (fun _ => false) 2024 2 ∅ (Datetime.Date 2024 2 14)
           february_2024).
  - lia.
  - lia.
  - vm_compute. reflexivity.
  - reflexivity.
Defined.

Lemma digits_of_uint_inj (u v : Decimal.uint) :
  PyStr.digits_of_uint u = PyStr.digits_of_uint v → u = v.
Proof.
  revert v. induction u as [|u IH|u IH|u IH|u IH|u IH|u IH|u IH|u IH|u IH|u IH];
    intros [|v|v|v|v|v|v|v|v|v|v]; cbn [PyStr.digits_of_uint]; try discriminate;
    try done; intros [= H]; f_equal; by apply IH.
Qed.

Lemma digits_no_sign (u : Decimal.uint) (s : pystr) :
  PyStr.digits_of_uint u ≠ 45%N :: s.
Proof. destruct u; cbn; discriminate. Qed.

(** Different numbers have different texts. *)
Lemma of_int_inj (a b : Z) : PyStr.of_int a = PyStr.of_int b → a = b.
Proof.
  destruct a as [|p|p], b as [|q|q]; cbn [PyStr.of_int]; try done.
  - intros H. symmetry in H. apply (digits_of_uint_inj _ (Decimal.D0 Decimal.Nil)) in H.
    by destruct (Unsigned.to_uint_nonzero q).
  - intros H. apply (digits_of_uint_inj _ (Decimal.D0 Decimal.Nil)) in H.
    by destruct (Unsigned.to_uint_nonzero p).
  - intros H. apply digits_of_uint_inj, Unsigned.to_uint_inj in H. by subst.
  - intros H. by destruct (digits_no_sign _ _ H).
  - intros H. symmetry in H. by destruct (digits_no_sign _ _ H).
  - intros [= H]. apply digits_of_uint_inj, Unsigned.to_uint_inj in H. by subst.
Qed.

(** The keys of the buttons of a run tell the days apart. *)
Lemma day_key_inj (y m d d' : Z) : day_key y m d = day_key y m d' → d = d'.
Proof.
  unfold day_key. intros H. do 5 apply app_inv_head in H. by apply of_int_inj.
Qed.

(** What a loop over cells of the month leaves as the selected date. *)
Lemma render_cells_selected (pressed : pystr → bool) (y m : Z) (dwe : gset Z)
    (sel : Datetime.date) (cells : list Z) :
  1 <= y <= 9999 → 1 <= m <= 12 →
  Forall (fun d => d = 0 ∨ 1 <= d <= Datetime.days_in_month y m) cells →
  ∃ row, py_loop (render_day pressed y m dwe) sel cells
         = Return (row,
                   fold_left (fun s d => if negb (d =? 0) && pressed (day_key y m d)
                                         then Datetime.Date y m d else s) cells sel).
Proof.
  intros Hy Hm Hcells. revert sel.
  induction Hcells as [|d cells Hd _ IH]; intros sel; [by eexists |].
  cbn [py_loop fold_left]. rewrite render_day_cell by done. cbn [mbind py_bind fst snd].
  destruct (IH (if negb (d =? 0) && pressed (day_key y m d)
                then Datetime.Date y m d else sel)) as [row ->].
  by eexists.
Qed.

Lemma render_grid_selected (pressed : pystr → bool) (y m : Z) (dwe : gset Z)
    (sel : Datetime.date) (grid : list (list Z)) :
  1 <= y <= 9999 → 1 <= m <= 12 →
  Forall (Forall (fun d => d = 0 ∨ 1 <= d <= Datetime.days_in_month y m)) grid →
  ∃ rows, render_weeks pressed y m dwe sel grid
          = Return (rows,
                    fold_left (fun s d => if negb (d =? 0) && pressed (day_key y m d)
                                          then Datetime.Date y m d else s)
                              (concat grid) sel).
Proof.
  intros Hy Hm Hgrid. unfold render_weeks. revert sel.
  induction Hgrid as [|week grid Hweek _ IH]; intros sel; [by eexists |].
  cbn [py_loop concat]. rewrite fold_left_app.
  destruct (render_cells_selected pressed y m dwe sel week Hy Hm Hweek) as [row ->].
  cbn [mbind py_bind fst snd].
  match goal with |- context [py_loop _ ?s grid] => destruct (IH s) as [rows ->] end.
  by eexists.
Qed.

(** The last pressed cell wins; with one key pressed, its day. *)
Lemma fold_one_press {S} (f : Z → S) (trigger : Z → bool) (d0 : Z) (l : list Z) (s : S) :
  (∀ d, trigger d = true ↔ d = d0) → d0 ∈ l →
  fold_left (fun s d => if trigger d then f d else s) l s = f d0.
Proof.
  intros Ht. revert s.
  assert (Hin_or : ∀ s, fold_left (fun s d => if trigger d then f d else s) l s
                        = if decide (d0 ∈ l) then f d0 else s).
  { induction l as [|x l IH]; intros s; cbn [fold_left].
    - by rewrite decide_False by set_solver.
    - rewrite IH. destruct (trigger x) eqn:Ex.
      + apply Ht in Ex as ->. rewrite (decide_True (P := d0 ∈ d0 :: l)) by set_solver.
        by destruct (decide (d0 ∈ l)).
      + assert (x ≠ d0) by (intros ->; by rewrite (proj2 (Ht d0) eq_refl) in Ex).
        destruct (decide (d0 ∈ l)).
        * by rewrite decide_True by set_solver.
        * by rewrite decide_False by set_solver. }
  intros s Hin. by rewrite Hin_or, decide_True.
Qed.

(** X13. For a cursor in the years 1 to 9999, in the run in which the
    button of a day of the displayed month is pressed the loop does not
    raise and leaves the date of that day as the selected date: the
    selection always is a date of the month on display when it is made. *)
Theorem press_selects_day (y m d0 : Z) (dwe : gset Z) (sel : Datetime.date)
    (grid : list (list Z)) :
  1 <= y <= 9999 → 1 <= m <= 12 → weeks y m = Return grid →
  1 <= d0 <= Datetime.days_in_month y m →
  ∃ rows, render_weeks (press_day y m d0) y m dwe sel grid
          = Return (rows, Datetime.Date y m d0).
Proof.
  intros Hy Hm Hgrid Hd0.
  destruct (render_grid_selected (press_day y m d0) y m dwe sel grid Hy Hm
              (grid_cells_range y m grid Hm Hgrid)) as [rows Hrows].
  exists rows. rewrite Hrows. f_equal. f_equal.
  apply (fold_one_press (Datetime.Date y m)
           (fun d => negb (d =? 0) && press_day y m d0 (day_key y m d))).
  - intros d. unfold press_day. rewrite andb_true_iff, negb_true_iff, Z.eqb_neq,
      bool_decide_eq_true. split.
    + intros [_ Hk]. by apply day_key_inj in Hk.
    + intros ->. split; [lia | done].
  - destruct (weeks_content y m Hm) as (day1 & _ & _ & Hweeks).
    rewrite Hweeks in Hgrid. injection Hgrid as <-. rewrite concat_weeks_of.
    apply elem_of_app. right. apply elem_of_app. left.
    apply list_elem_of_lookup. exists (Z.to_nat (d0 - 1)). apply lookup_days_upto. lia.
Qed.

(** The button of 29 February 2024. *)
Lemma press_selects_day_leap_day :
  ∃ rows, render_weeks (press_day 2024 2 29) 2024 2 ∅ (Datetime.Date 2024 1 1)
                       february_2024
          = Return (rows, Datetime.Date 2024 2 29).
Proof.
  apply (press_selects_day 2024 2 29 ∅ (Datetime.Date 2024 1 1) february_2024).
  - lia.
  - lia.
  - vm_compute. reflexivity.
  - vm_compute. split; discriminate.
Defined.

End RenderLoop.

Section FormatInt.
Local Open Scope Z_scope.

Lemma digits_revapp (d d' : Decimal.uint) :
  length (PyStr.digits_of_uint (Decimal.revapp d d'))
  = (Decimal.nb_digits d + length (PyStr.digits_of_uint d'))%nat.
Proof.
  revert d'. induction d as [|d IH|d IH|d IH|d IH|d IH|d IH|d IH|d IH|d IH|d IH];
    intros d'; cbn [Decimal.revapp Decimal.nb_digits]; [reflexivity | ..];
    rewrite IH; cbn [PyStr.digits_of_uint length]; lia.
Qed.

(** Doubling adds at most one decimal digit. *)
Lemma double_digits (d : Decimal.uint) :
  (Decimal.nb_digits (Decimal.Little.double d) ≤ S (Decimal.nb_digits d))%nat
  ∧ (Decimal.nb_digits (Decimal.Little.succ_double d) ≤ S (Decimal.nb_digits d))%nat.
Proof.
  induction d as [|d [IH1 IH2]|d [IH1 IH2]|d [IH1 IH2]|d [IH1 IH2]|d [IH1 IH2]
                  |d [IH1 IH2]|d [IH1 IH2]|d [IH1 IH2]|d [IH1 IH2]|d [IH1 IH2]];
    cbn [Decimal.Little.double Decimal.Little.succ_double Decimal.nb_digits]; lia.
Qed.

(** A number has no more decimal digits than binary ones. *)
Lemma decimal_digits_size (p : positive) :
  (length (PyStr.digits_of_uint (Pos.to_uint p)) ≤ Pos.size_nat p)%nat.
Proof.
  unfold Pos.to_uint, Decimal.rev. rewrite digits_revapp.
  cbn [PyStr.digits_of_uint length]. rewrite Nat.add_0_r.
  induction p as [p IH | p IH |]; cbn [Pos.to_little_uint Pos.size_nat].
  - pose proof (proj2 (double_digits (Pos.to_little_uint p))). lia.
  - pose proof (proj1 (double_digits (Pos.to_little_uint p))). lia.
  - cbn. lia.
Qed.

Lemma size_nat_bound (p : positive) (k : nat) :
  Z.pos p < 2 ^ Z.of_nat k → (Pos.size_nat p ≤ k)%nat.
Proof.
  revert k. induction p as [p IH | p IH |]; intros [|k]; cbn [Pos.size_nat];
    rewrite ?Nat2Z.inj_succ, ?Z.pow_succ_r, ?Z.pow_0_r by lia; intros H; try lia.
  - apply le_n_S, IH. lia.
  - apply le_n_S, IH. lia.
Qed.

(** A number below a power of two of at most 4300 bits is formatted. *)
Lemma format_int_ok (k : nat) (n : Z) :
  (k ≤ 4300)%nat → - 2 ^ Z.of_nat k < n < 2 ^ Z.of_nat k →
  PyStr.format_int n = Return (PyStr.of_int n).
Proof.
  intros Hk Hn. unfold PyStr.format_int.
  replace (PyStr.max_str_digits <? PyStr.decimal_digits n)%nat with false; [done |].
  symmetry. apply Nat.ltb_ge. unfold PyStr.max_str_digits.
  destruct n as [|p|p]; cbn [PyStr.decimal_digits].
  - lia.
  - pose proof (decimal_digits_size p). pose proof (size_nat_bound p k). lia.
  - pose proof (decimal_digits_size p). pose proof (size_nat_bound p k). lia.
Qed.

Lemma format_heading_ok (y m : Z) :
  - 2 ^ 32 < y < 2 ^ 32 → - 2 ^ 32 < m < 2 ^ 32 →
  format_heading y m = Return (month_heading y m).
Proof.
  intros Hy Hm. unfold format_heading.
  rewrite (format_int_ok 32 y), (format_int_ok 32 m) by (done || lia). reflexivity.
Qed.


Lemma navigation_unfold (click : nav_click) (st : session_state) :
  navigation click st
  = (format_heading (cal_year st) (cal_month st),
     match click with
     | no_click => st
     | prev_click => click_prev st
     | next_click => click_next st
     end).
Proof. by destruct click. Qed.

(** The cursor before a step that leads to a month from 1 to 12. *)
Lemma cursor_before_step (click : nav_click) (st : session_state) :
  1 <= cal_month (snd (navigation click st)) <= 12 →
  0 <= cal_month st <= 13
  ∧ cal_year (snd (navigation click st)) - 1 <= cal_year st
    <= cal_year (snd (navigation click st)) + 1.
Proof.
  rewrite navigation_unfold. cbn [snd]. destruct click; [lia | |].
  - unfold click_prev. destruct (Z.eqb_spec (cal_month st) 1); cbn; lia.
  - unfold click_next. destruct (Z.eqb_spec (cal_month st) 12); cbn; lia.
Qed.

End FormatInt.

Section CalendarRun.
Context (ucd : PyStr.unicode_db).
Local Open Scope Z_scope.

(** [date] on the first day of a month: the C [int]s, then the ranges. *)
Lemma date_new_first_day (y m : Z) :
  Datetime.date_new y m 1
  = if negb (Datetime.fits_c_int y && Datetime.fits_c_int m) then Raise OverflowError
    else if (1 <=? y) && (y <=? 9999) && ((1 <=? m) && (m <=? 12))
         then Return (Datetime.Date y m 1)
         else Raise ValueError.
Proof.
  unfold Datetime.date_new, Datetime.MINYEAR, Datetime.MAXYEAR.
  change (Datetime.fits_c_int 1) with true. rewrite andb_true_r.
  destruct (negb _); [reflexivity |].
  destruct ((1 <=? y) && (y <=? 9999)); [| reflexivity]. cbn [negb andb].
  destruct (Z.leb_spec 1 m); destruct (Z.leb_spec m 12); cbn [negb andb]; try reflexivity.
  pose proof (days_in_month_bounds y m ltac:(lia)) as Hn.
  change (1 <=? 1) with true. by rewrite (proj2 (Z.leb_le 1 _)) by lia.
Qed.

Lemma date_new_year_out (y m : Z) :
  ¬ (1 <= y <= 9999) → 1 <= m <= 12 →
  Datetime.date_new y m 1
  = Raise (if Datetime.fits_c_int y then ValueError else OverflowError).
Proof.
  intros Hy Hm. rewrite date_new_first_day.
  rewrite (proj2 (fits_c_int_spec m)) by lia. rewrite andb_true_r.
  destruct (Datetime.fits_c_int y); cbn [negb]; [| reflexivity].
  destruct (Z.leb_spec 1 y); destruct (Z.leb_spec y 9999); cbn [andb]; try reflexivity.
  lia.
Qed.

(** A loop that raises over the elements in a row raises over the lists. *)
Lemma py_loop_concat_raise {S A B} (body : S → A → py (B * S)) (s : S)
    (ll : list (list A)) (e : exn) :
  py_loop body s (concat ll) = Raise e → py_loop (py_loop body) s ll = Raise e.
Proof.
  revert s. induction ll as [|l ll IH]; intros s; cbn [py_loop concat]; [discriminate |].
  rewrite py_loop_app.
  destruct (py_loop body s l) as [[row s1] |].
  2: { cbn [mbind py_bind]. by intros [= ->]. }
  cbn [mbind py_bind fst snd].
  destruct (py_loop body s1 (concat ll)) as [[? ?] |] eqn:E; [discriminate |].
  cbn [mbind py_bind]. intros [= <-]. by rewrite (IH s1 E).
Qed.

Lemma render_day_year_out (pressed : pystr → bool) (y m : Z) (dwe : gset Z)
    (sel : Datetime.date) :
  ¬ (1 <= y <= 9999) → 1 <= m <= 12 →
  render_day pressed y m dwe sel 1
  = Raise (if Datetime.fits_c_int y then ValueError else OverflowError).
Proof.
  intros Hy Hm. unfold render_day. change (1 =? 0) with false. cbn iota.
  by rewrite date_new_year_out.
Qed.

Lemma render_year_out (pressed : pystr → bool) (y m : Z) (dwe : gset Z)
    (sel : Datetime.date) (grid : list (list Z)) :
  ¬ (1 <= y <= 9999) → 1 <= m <= 12 → weeks y m = Return grid →
  render_weeks pressed y m dwe sel grid
  = Raise (if Datetime.fits_c_int y then ValueError else OverflowError).
Proof.
  intros Hy Hm Hgrid. unfold render_weeks. apply py_loop_concat_raise.
  destruct (weeks_content y m Hm) as (day1 & _ & _ & Hweeks).
  rewrite Hweeks in Hgrid. injection Hgrid as <-. rewrite concat_weeks_of.
  pose proof (days_in_month_bounds y m Hm) as Hn.
  rewrite py_loop_app.
  rewrite (py_loop_still _ (fun _ => None)); [| by apply Forall_forall;
    intros d Hd%list_elem_of_In%repeat_spec; subst d].
  cbn [mbind py_bind fst snd]. unfold Calendar.days_upto.
  destruct (Z.to_nat (Datetime.days_in_month y m)) as [|k] eqn:Ek; [lia |].
  cbn [seq map app py_loop]. change (Z.of_nat 0 + 1) with 1.
  by rewrite (render_day_year_out pressed y m dwe sel) by done.
Qed.

(** X14. A cursor whose year is not one of 1 to 9999, which the navigation
    buttons can reach, cannot be shown: the calendar part of the run
    raises, with or without a provider.  When the year read at the start
    of the run has more than 4300 decimal digits the heading is not
    formatted and [ValueError] is raised; otherwise [date] refuses the
    year of the cursor after the step, with [ValueError] when that year
    fits a C [int] and with [OverflowError] when it does not. *)
Theorem year_out_of_range_not_shown (svc : option service) (click : nav_click)
    (pressed : pystr → bool) (st : session_state) :
  ¬ (1 <= cal_year (snd (navigation click st)) <= 9999) →
  1 <= cal_month (snd (navigation click st)) <= 12 →
  calendar_section ucd svc click pressed st
  = Raise (if (PyStr.max_str_digits <? PyStr.decimal_digits (cal_year st))%nat
           then ValueError
           else if Datetime.fits_c_int (cal_year (snd (navigation click st)))
                then ValueError
                else OverflowError).
Proof.
  intros Hy Hm. destruct (cursor_before_step click st Hm) as [Hm0 _].
  revert Hy Hm. unfold calendar_section. rewrite navigation_unfold. cbn [snd].
  generalize (match click with
              | no_click => st
              | prev_click => click_prev st
              | next_click => click_next st
              end).
  intros st1 Hy Hm. unfold format_heading.
  rewrite (format_int_ok 32 (cal_month st)) by lia. unfold PyStr.format_int.
  destruct (_ <? PyStr.decimal_digits (cal_year st))%nat; [reflexivity |].
  cbn [mbind py_bind].
  destruct svc as [svc |].
  - unfold fetch_month_event_days, month_request.
    by rewrite (date_new_year_out (cal_year st1) (cal_month st1) Hy Hm).
  - cbn [mbind py_bind].
    destruct (weeks (cal_year st1) (cal_month st1)) as [grid |] eqn:Hgrid.
    + cbn [mbind py_bind]. by rewrite (render_year_out pressed _ _ ∅ _ _ Hy Hm Hgrid).
    + destruct (weeks_content (cal_year st1) (cal_month st1) Hm) as (? & _ & _ & Hweeks).
      rewrite Hweeks in Hgrid. discriminate.
Qed.


(** X16. For a cursor that the step leaves in the years 1 to 9999, the
    calendar part of the run returns when there is no provider, or when the
    month is not December 9999 and the provider answers the request: the
    heading is that of the month before the step, and the selected date is
    the one the pressed day buttons leave.  In December 9999 a run with a
    provider raises [ValueError], while a run without one shows the month. *)
Theorem calendar_run_returns (svc : option service) (click : nav_click)
    (pressed : pystr → bool) (st : session_state) :
  let st1 := snd (navigation click st) in
  1 <= cal_year st1 <= 9999 → 1 <= cal_month st1 <= 12 →
  (∀ s, svc = Some s →
        ∃ request result, month_request (cal_year st1) (cal_month st1) = Return request
                          ∧ s request = Return result) →
  ∃ grid rows,
    weeks (cal_year st1) (cal_month st1) = Return grid
    ∧ calendar_section ucd svc click pressed st
      = Return (month_heading (cal_year st) (cal_month st), rows,
                {| logged_in := logged_in st1;
                   cal_year := cal_year st1;
                   cal_month := cal_month st1;
                   selected_date :=
                     fold_left (fun s d => if negb (d =? 0)
                                              && pressed (day_key (cal_year st1)
                                                            (cal_month st1) d)
                                           then Datetime.Date (cal_year st1)
                                                  (cal_month st1) d
                                           else s)
                               (concat grid) (selected_date st1) |}).
Proof.
  cbv zeta. intros Hy Hm. destruct (cursor_before_step click st Hm) as [Hm0 Hy0].
  revert Hy Hm Hy0. unfold calendar_section. rewrite navigation_unfold. cbn [snd].
  generalize (match click with
              | no_click => st
              | prev_click => click_prev st
              | next_click => click_next st
              end).
  intros st1 Hy Hm Hy0 Hsvc. rewrite format_heading_ok by lia. cbn [mbind py_bind].
  destruct (weeks_content (cal_year st1) (cal_month st1) Hm) as (day1 & _ & _ & Hweeks).
  pose proof (grid_cells_range (cal_year st1) (cal_month st1) _ Hm Hweeks) as Hcells.
  revert Hcells Hweeks. generalize (Calendar.weeks_of
    (repeat 0 (Z.to_nat ((day1 - 6) mod 7))
     ++ Calendar.days_upto (Datetime.days_in_month (cal_year st1) (cal_month st1))
     ++ repeat 0 (Z.to_nat ((6 - day1 - Datetime.days_in_month (cal_year st1)
                                          (cal_month st1)) mod 7)))).
  intros grid Hcells Hweeks. exists grid.
  assert (Hdwe : ∃ dwe, match svc with
                        | Some _ => fetch_month_event_days ucd svc (cal_year st1)
                                      (cal_month st1)
                        | None => Return ∅
                        end = Return dwe).
  { destruct svc as [s |]; [| by eexists].
    destruct (Hsvc s eq_refl) as (request & result & Hreq & Hres).
    unfold fetch_month_event_days. rewrite Hreq. cbn [mbind py_bind]. rewrite Hres.
    by eexists. }
  destruct Hdwe as [dwe ->]. cbn [mbind py_bind]. rewrite Hweeks. cbn [mbind py_bind].
  destruct (render_grid_selected pressed (cal_year st1) (cal_month st1) dwe
              (selected_date st1) grid Hy Hm Hcells) as [rows ->].
  exists rows. split; [done |]. reflexivity.
Qed.

End CalendarRun.

Section CalendarRunExamples.
Local Open Scope Z_scope.

(** December 9999 and the next-month button; and a cursor on the year
    2^31, which is not a C [int]. *)
Lemma year_out_of_range_not_shown_december_9999 :
  calendar_section ascii_ucd None next_click (fun _ => false)
    {| logged_in := false; cal_year := 9999; cal_month := 12;
       selected_date := Datetime.Date 9999 12 31 |}
  = Raise ValueError
  ∧ calendar_section ascii_ucd None no_click (fun _ => false)
      {| logged_in := false; cal_year := 2147483648; cal_month := 1;
         selected_date := Datetime.Date 9999 12 31 |}
    = Raise OverflowError.
Proof.
  split.
  - apply (year_out_of_range_not_shown ascii_ucd None next_click (fun _ => false)
             {| logged_in := false; cal_year := 9999; cal_month := 12;
                selected_date := Datetime.Date 9999 12 31 |}); cbn; lia.
  - apply (year_out_of_range_not_shown ascii_ucd None no_click (fun _ => false)
             {| logged_in := false; cal_year := 2147483648; cal_month := 1;
                selected_date := Datetime.Date 9999 12 31 |}); cbn; lia.
Defined.


(** February 2024 with a provider that lists no event, and the button of
    the 29th pressed. *)
Lemma calendar_run_returns_leap_day :
  let st := {| logged_in := true; cal_year := 2024; cal_month := 2;
               selected_date := Datetime.Date 2024 1 1 |} in
  ∃ rows,
    calendar_section ascii_ucd (Some empty_calendar) no_click (press_day 2024 2 29) st
    = Return (month_heading 2024 2, rows,
              {| logged_in := true; cal_year := 2024; cal_month := 2;
                 selected_date := Datetime.Date 2024 2 29 |}).
Proof.
  cbv zeta.
  destruct (calendar_run_returns ascii_ucd (Some empty_calendar) no_click
              (press_day 2024 2 29)
              {| logged_in := true; cal_year := 2024; cal_month := 2;
                 selected_date := Datetime.Date 2024 1 1 |})
    as (grid & rows & Hgrid & Hrun).
  - cbn. lia.
  - cbn. lia.
  - intros s [= <-]. eexists. eexists. split; [vm_compute; reflexivity | reflexivity].
  - exists rows. rewrite Hrun. cbn [navigation snd cal_year cal_month logged_in selected_date].
    cbn [navigation snd cal_year cal_month logged_in selected_date] in Hgrid.
    assert (Hg : grid = february_2024).
    { assert (E : weeks 2024 2 = Return february_2024) by (vm_compute; reflexivity).
      rewrite E in Hgrid. by injection Hgrid. }
    rewrite Hg. vm_compute. reflexivity.
Defined.

End CalendarRunExamples.

(** ** The request and the markers at the edges *)

Section FetchEdges.
Context (ucd : PyStr.unicode_db).
Local Open Scope Z_scope.

(** The request for a month: built, refused by the ranges of [date], or
    refused by the C [int]s. *)
Lemma month_request_outcome (y m : Z) :
  (requestable y m ∧ ∃ request, month_request y m = Return request)
  ∨ (¬ requestable y m ∧ Datetime.fits_c_int y && Datetime.fits_c_int m = true
     ∧ month_request y m = Raise ValueError)
  ∨ (¬ requestable y m ∧ Datetime.fits_c_int y && Datetime.fits_c_int m = false
     ∧ month_request y m = Raise OverflowError).
Proof.
  unfold requestable, month_request. rewrite (date_new_first_day y m).
  destruct (Datetime.fits_c_int y && Datetime.fits_c_int m) eqn:Hfit; cbn [negb].
  2: { right. right. split; [| done].
       apply andb_false_iff in Hfit as [Hf | Hf];
         apply not_true_iff_false in Hf; rewrite fits_c_int_spec in Hf; lia. }
  destruct (Z.leb_spec 1 y); destruct (Z.leb_spec y 9999); cbn [andb];
    try (right; left; split; [lia | done]).
  destruct (Z.leb_spec 1 m); destruct (Z.leb_spec m 12); cbn [andb];
    try (right; left; split; [lia | done]).
  cbn [mbind py_bind]. destruct (Z.eqb_spec m 12) as [-> | H12].
  - destruct (decide (y = 9999)) as [-> | H9].
    + right. left. split; [lia | done].
    + left. split; [lia |]. rewrite first_day_ok by lia. by eexists.
  - left. split; [lia |]. rewrite first_day_ok by lia. by eexists.
Qed.

(** X17. Without a provider no day is marked, whatever the month.  With a
    provider, the request is made exactly for the months of the years 1 to
    9999 other than December 9999: for any other cursor an exception is
    raised before the provider is called, [OverflowError] when the year or
    the month does not fit a C [int] and [ValueError] when both do.  An
    exception of the provider is not caught, and an answer without [items]
    marks no day. *)
Theorem fetch_edges (y m : Z) :
  fetch_month_event_days ucd None y m = Return ∅
  ∧ (month_request y m = Raise ValueError
     ↔ ¬ requestable y m ∧ Datetime.fits_c_int y && Datetime.fits_c_int m = true)
  ∧ (month_request y m = Raise OverflowError
     ↔ Datetime.fits_c_int y && Datetime.fits_c_int m = false)
  ∧ (¬ requestable y m →
     ∀ svc, fetch_month_event_days ucd (Some svc) y m
            = Raise (if Datetime.fits_c_int y && Datetime.fits_c_int m
                     then ValueError else OverflowError))
  ∧ (requestable y m →
     ∃ request,
       month_request y m = Return request
       ∧ ∀ svc,
           (∀ e, svc request = Raise e →
                 fetch_month_event_days ucd (Some svc) y m = Raise e)
           ∧ (svc request = Return {| items := None |} →
              fetch_month_event_days ucd (Some svc) y m = Return ∅)
           ∧ (svc request = Return {| items := Some [] |} →
              fetch_month_event_days ucd (Some svc) y m = Return ∅)).
Proof.
  split; [reflexivity |].
  destruct (month_request_outcome y m)
    as [[Hok [request Hreq]] | [(Hbad & Hfit & Hreq) | (Hbad & Hfit & Hreq)]].
  - assert (Hfit : Datetime.fits_c_int y && Datetime.fits_c_int m = true).
    { unfold requestable in Hok. apply andb_true_iff.
      split; apply fits_c_int_spec; lia. }
    rewrite Hreq, Hfit. split; [| split; [| split]].
    + split; [discriminate | by intros [? _]].
    + split; discriminate.
    + done.
    + intros _. exists request. split; [done |]. intros svc.
      unfold fetch_month_event_days. rewrite Hreq. cbn [mbind py_bind].
      split; [| split]; intros; by match goal with H : svc request = _ |- _ => rewrite H end.
  - rewrite Hreq, Hfit. split; [| split; [| split]].
    + done.
    + split; discriminate.
    + intros _ svc. unfold fetch_month_event_days. by rewrite Hreq.
    + done.
  - rewrite Hreq, Hfit. split; [| split; [| split]].
    + split; [discriminate | by intros [_ ?]].
    + done.
    + intros _ svc. unfold fetch_month_event_days. by rewrite Hreq.
    + done.
Qed.

(** X18. The set of marked days does not depend on the order in which the
    provider lists the events, nor on an event being listed twice; the days
    of two lists of events together are the union of their days. *)
Theorem markers_of_events (evs evs' : list event) :
  (evs ≡ₚ evs' →
   fold_left (mark_event ucd) evs ∅ = fold_left (mark_event ucd) evs' ∅)
  ∧ fold_left (mark_event ucd) (evs ++ evs') ∅
    = fold_left (mark_event ucd) evs ∅ ∪ fold_left (mark_event ucd) evs' ∅
  ∧ fold_left (mark_event ucd) (evs ++ evs) ∅ = fold_left (mark_event ucd) evs ∅.
Proof.
  split; [| split].
  - intros Hperm. apply set_eq. intros d. rewrite !elem_of_marked.
    by setoid_rewrite Hperm.
  - rewrite !fold_mark_event, omap_app. set_solver.
  - rewrite !fold_mark_event, omap_app. set_solver.
Qed.

End FetchEdges.

(** ** The range of the marked days *)

Section IntBounds.
Context (ucd : PyStr.unicode_db).
Local Open Scope N_scope.

Lemma underscore_first (s : pystr) (X : py Z) :
  match s with
  | 95 :: _ => Raise ValueError
  | _ => X
  end = if starts_with 95 s then Raise ValueError else X.
Proof.
  destruct s as [|c s]; [reflexivity |].
  destruct c as [|p]; [reflexivity |].
  do 7 (try (destruct p as [p | p |]; try reflexivity)).
Qed.

(** [PyLong_FromString] by the first characters: a sign is dropped, a
    leading underscore is refused, and the digits are scanned. *)
Lemma long_from_string_unfold (t : pystr) :
  PyStr.long_from_string t
  = let s := PyStr.skip_spaces t in
    let sign := if starts_with 45 s then (-1)%Z else 1%Z in
    let s := if starts_with 43 s || starts_with 45 s then tail s else s in
    if starts_with 95 s then Raise ValueError
    else
      match PyStr.scan s 0 0 0%Z with
      | None => Raise ValueError
      | Some (prev, digits, value, rest) =>
        if prev =? 95 then Raise ValueError
        else if (digits =? 0)%nat then Raise ValueError
        else if (PyStr.max_str_digits <? digits)%nat then Raise ValueError
        else
          match PyStr.skip_spaces rest with
          | [] => Return (sign * value)%Z
          | _ => Raise ValueError
          end
      end.
Proof.
  unfold PyStr.long_from_string. cbv zeta.
  destruct (PyStr.skip_spaces t) as [|c s]; [reflexivity |].
  destruct c as [|p]; [reflexivity |].
  do 7 (try (destruct p as [p | p |]; try reflexivity; try apply underscore_first)).
Qed.

Lemma skip_spaces_sub (s : pystr) :
  (length (PyStr.skip_spaces s) ≤ length s)%nat
  ∧ ∀ c, c ∈ PyStr.skip_spaces s → c ∈ s.
Proof.
  induction s as [|ch s [IH1 IH2]]; [done |]. cbn [PyStr.skip_spaces].
  destruct (PyStr.Py_ISSPACE ch); [| done].
  split; [cbn [length]; lia |]. intros c Hc. right. by apply IH2.
Qed.

Lemma scan_bound (s : pystr) (prev : N) (digits : nat) (value : Z)
    (prev' : N) (digits' : nat) (value' : Z) (rest : pystr) :
  PyStr.scan s prev digits value = Some (prev', digits', value', rest) →
  (0 <= value < 10 ^ Z.of_nat digits)%Z →
  (0 <= value' < 10 ^ Z.of_nat digits')%Z ∧ (digits' ≤ digits + length s)%nat.
Proof.
  revert prev digits value. induction s as [|ch s IH]; intros prev digits value;
    cbn [PyStr.scan].
  - intros [= <- <- <- <-] Hv. split; [done | lia].
  - destruct (PyStr.is_digit ch) eqn:Hd.
    + intros Hs Hv. apply IH in Hs as [Hv' Hn]; [split; [done | cbn [length]; lia] |].
      rewrite Nat2Z.inj_succ, Z.pow_succ_r by lia.
      assert (0 <= Z.of_N (ch - 48) <= 9)%Z.
      { destruct (is_digit_cases ch Hd) as [-> | [-> | [-> | [-> | [-> |
          [-> | [-> | [-> | [-> | ->]]]]]]]]]; cbn; lia. }
      lia.
    + destruct (ch =? 95).
      * destruct (prev =? 95); [discriminate |].
        intros Hs Hv. apply IH in Hs as [Hv' Hn]; [| done].
        split; [done | cbn [length]; lia].
      * intros [= <- <- <- <-] Hv. split; [done | lia].
Qed.

(** A text without a minus sign that reads as a number is not empty and
    reads as a number from 0 on, below the power of ten of its length. *)
Lemma long_from_string_bound (t : pystr) (v : Z) :
  45 ∉ t → PyStr.long_from_string t = Return v →
  (0 <= v < 10 ^ Z.of_nat (length t))%Z ∧ t ≠ [].
Proof.
  intros Hdash. rewrite long_from_string_unfold. cbv zeta.
  destruct (skip_spaces_sub t) as [Hlen Hsub].
  destruct (PyStr.skip_spaces t) as [|c s] eqn:Hskip.
  { cbn. discriminate. }
  assert (H45 : starts_with 45 (c :: s) = false).
  { cbn [starts_with]. apply N.eqb_neq. intros ->. apply Hdash, Hsub. by left. }
  rewrite H45, orb_false_r.
  set (s1 := if starts_with 43 (c :: s) then tail (c :: s) else c :: s).
  assert (Hs1 : (length s1 ≤ length t)%nat).
  { subst s1. destruct (starts_with 43 (c :: s)); cbn [tail length] in *; lia. }
  destruct (starts_with 95 s1); [discriminate |].
  destruct (PyStr.scan s1 0 0 0%Z) as [[[[prev digits] value] rest] |] eqn:Hscan;
    [| discriminate].
  destruct (prev =? 95); [discriminate |].
  destruct (Nat.eqb_spec digits 0); [discriminate |].
  destruct (PyStr.max_str_digits <? digits)%nat; [discriminate |].
  destruct (PyStr.skip_spaces rest); [| discriminate]. intros [= <-].
  apply scan_bound in Hscan as [Hv Hn]; [| cbn; lia].
  assert (10 ^ Z.of_nat digits <= 10 ^ Z.of_nat (length t))%Z
    by (apply Z.pow_le_mono_r; lia).
  split; [lia |]. intros ->. cbn [length] in *. lia.
Qed.

Lemma transform_sub (s : pystr) :
  (length (PyStr.transform ucd s) ≤ length s)%nat
  ∧ (45 ∉ s → 45 ∉ PyStr.transform ucd s).
Proof.
  induction s as [|ch s [IH1 IH2]]; [done |]. cbn [PyStr.transform].
  destruct (ch <? 127).
  { split; [cbn [length]; lia |]. rewrite !not_elem_of_cons. naive_solver. }
  destruct (PyStr.uc_isspace ucd ch).
  { split; [cbn [length]; lia |]. rewrite !not_elem_of_cons. naive_solver. }
  destruct (PyStr.uc_todecimal ucd ch) as [d |].
  - split; [cbn [length]; lia |]. rewrite !not_elem_of_cons.
    intros [_ H]. split; [lia | by apply IH2].
  - split; [cbn [length]; lia |]. intros _. rewrite not_elem_of_cons.
    split; [done | apply not_elem_of_nil].
Qed.

Lemma int_bound (s : pystr) (v : Z) :
  45 ∉ s → PyStr.int ucd s = Return v →
  (0 <= v < 10 ^ Z.of_nat (length s))%Z ∧ s ≠ [].
Proof.
  unfold PyStr.int, PyStr.to_ascii. intros Hdash.
  destruct (forallb _ s); [by apply long_from_string_bound |].
  destruct (transform_sub s) as [Hlen Hsub]. intros Hv.
  apply long_from_string_bound in Hv as [Hv Hne]; [| by apply Hsub].
  assert (10 ^ Z.of_nat (length (PyStr.transform ucd s)) <= 10 ^ Z.of_nat (length s))%Z
    by (apply Z.pow_le_mono_r; lia).
  split; [lia |]. by intros ->.
Qed.

(** The pieces of a split hold no separator, and with the separators
    between them they are as long as the text. *)
Lemma split_pieces (sep : N) (s : pystr) :
  Forall (fun p => sep ∉ p) (PyStr.split sep s)
  ∧ (sum_list (length <$> PyStr.split sep s) + length (PyStr.split sep s)
     = S (length s))%nat.
Proof.
  induction s as [|c s [IH1 IH2]]; cbn [PyStr.split].
  - split; [| reflexivity]. repeat constructor. apply not_elem_of_nil.
  - destruct (N.eqb_spec c sep) as [-> | Hc].
    + split.
      * constructor; [apply not_elem_of_nil | done].
      * cbn [fmap list_fmap sum_list_with length id] in *. lia.
    + destruct (PyStr.split sep s) as [|p ps]; [cbn in IH2; lia |].
      apply Forall_cons in IH1 as [Hp Hps]. split.
      * constructor; [| done]. rewrite not_elem_of_cons. split; [congruence | done].
      * cbn [fmap list_fmap sum_list_with length id] in *. lia.
Qed.

Lemma py_map_cons_inv {A B} (f : A → py B) (x : A) (l : list A) (r : list B) :
  py_map f (x :: l) = Return r →
  ∃ y ys, r = y :: ys ∧ f x = Return y ∧ py_map f l = Return ys.
Proof.
  cbn [py_map]. destruct (f x) as [y |]; [| discriminate]. cbn [mbind py_bind].
  destruct (py_map f l) as [ys |]; [| discriminate]. cbn [mbind py_bind].
  intros [= <-]. by exists y, ys.
Qed.

(** The day read from at most ten characters has at most six digits. *)
Lemma parse_day_bound (s : pystr) (d : Z) :
  (length s ≤ 10)%nat → parse_day ucd s = Return d → (0 <= d <= 999999)%Z.
Proof.
  intros Hlen. unfold parse_day.
  destruct (py_map (PyStr.int ucd) (PyStr.split 45 s)) as [parts |] eqn:Hmap;
    [| discriminate].
  cbn [mbind py_bind].
  destruct parts as [|y [|m [|d' [|x parts]]]]; try discriminate. intros [= ->].
  destruct (split_pieces 45 s) as [Hno Hsum].
  destruct (PyStr.split 45 s) as [|p1 [|p2 [|p3 [|p4 ps]]]] eqn:Hsplit;
    try (apply py_map_length in Hmap; cbn [length] in Hmap; lia).
  apply py_map_cons_inv in Hmap as (y1 & r1 & [= <- <-] & Hy & Hmap).
  apply py_map_cons_inv in Hmap as (y2 & r2 & [= <- <-] & Hm & Hmap).
  apply py_map_cons_inv in Hmap as (y3 & r3 & [= <- <-] & Hd & _).
  apply Forall_cons in Hno as [H1 Hno]. apply Forall_cons in Hno as [H2 Hno].
  apply Forall_cons in Hno as [H3 _].
  apply int_bound in Hy as [_ Hy]; [| done].
  apply int_bound in Hm as [_ Hm]; [| done].
  apply int_bound in Hd as [Hd _]; [| done].
  cbn [fmap list_fmap sum_list_with length id] in Hsum.
  assert (length p1 ≠ 0%nat) by (by destruct p1).
  assert (length p2 ≠ 0%nat) by (by destruct p2).
  assert (10 ^ Z.of_nat (length p3) <= 10 ^ 6)%Z by (apply Z.pow_le_mono_r; lia).
  change (10 ^ 6)%Z with 1000000%Z in *. lia.
Qed.

(** X19. Every day that [fetch_month_event_days] returns is a number from
    0 to 999999, whatever the provider lists and for whatever month: the
    third of three numbers read from at most ten characters, without a
    sign.  The days are not confined to 1..31. *)
Theorem fetched_days_range (svc : service) (y m : Z) (days : gset Z) (d : Z) :
  fetch_month_event_days ucd (Some svc) y m = Return days → d ∈ days →
  (0 <= d <= 999999)%Z.
Proof.
  unfold fetch_month_event_days.
  destruct (month_request y m) as [request |]; [| discriminate]. cbn [mbind py_bind].
  destruct (svc request) as [result |]; [| discriminate]. cbn [mbind py_bind].
  intros [= <-]. rewrite elem_of_marked. intros (ev & _ & Hev).
  unfold event_day in Hev. destruct (start_timestamp ev) as [ts |]; [| discriminate].
  destruct (parse_day ucd (take 10 ts)) as [d' |] eqn:Hparse; [| discriminate].
  injection Hev as ->. apply parse_day_bound in Hparse; [done |].
  rewrite length_take. lia.
Qed.

End IntBounds.

(** A provider that lists the start dates [1-1-0] and [1-1-999999]: both
    ends of the range are returned. *)
Lemma fetched_days_range_ends :
  fetch_month_event_days ascii_ucd
    (Some (provider_of [date_event "1-1-0"; date_event "1-1-999999"])) 2024 3
  = Return {[ 0%Z; 999999%Z ]}
  ∧ (0 <= 0 <= 999999)%Z ∧ (0 <= 999999 <= 999999)%Z.
Proof.
  assert (E : fetch_month_event_days ascii_ucd
                (Some (provider_of [date_event "1-1-0"; date_event "1-1-999999"])) 2024 3
              = Return {[ 0%Z; 999999%Z ]}) by (vm_compute; reflexivity).
  split; [exact E |].
  split; apply (fetched_days_range ascii_ucd _ 2024 3 _ _ E); set_solver.
Defined.

(** ** The day markers, from the text of the start *)

Section StartTexts.
Context (ucd : PyStr.unicode_db).
Local Open Scope N_scope.

Lemma skip_spaces_chars (s : pystr) (c : N) :
  c ∈ s → PyStr.Py_ISSPACE c = true ∨ c ∈ PyStr.skip_spaces s.
Proof.
  induction s as [|ch s IH]; [by intros ?%elem_of_nil |].
  cbn [PyStr.skip_spaces]. destruct (PyStr.Py_ISSPACE ch) eqn:E; [| by right].
  intros [-> | Hc]%elem_of_cons; [by left | by apply IH].
Qed.

Lemma scan_chars (s : pystr) (prev : N) (digits : nat) (value : Z)
    (prev' : N) (digits' : nat) (value' : Z) (rest : pystr) (c : N) :
  PyStr.scan s prev digits value = Some (prev', digits', value', rest) → c ∈ s →
  PyStr.is_digit c = true ∨ c = 95 ∨ c ∈ rest.
Proof.
  revert prev digits value. induction s as [|ch s IH]; intros prev digits value;
    cbn [PyStr.scan].
  - by intros _ ?%elem_of_nil.
  - destruct (PyStr.is_digit ch) eqn:Hd.
    + intros Hs [-> | Hc]%elem_of_cons; [by left | by eapply IH].
    + destruct (N.eqb_spec ch 95) as [-> | Hne].
      * destruct (prev =? 95); [discriminate |].
        intros Hs [-> | Hc]%elem_of_cons; [right; by left | by eapply IH].
      * intros [= <- <- <- <-] Hc. right. by right.
Qed.

(** A text that reads as a number holds white space, a sign, digits and
    underscores only. *)
Lemma long_from_string_chars (t : pystr) (v : Z) (c : N) :
  PyStr.long_from_string t = Return v → c ∈ t → foreign_char c = false.
Proof.
  rewrite long_from_string_unfold. cbv zeta. intros H Hc.
  apply skip_spaces_chars in Hc as [Hsp | Hc].
  { unfold foreign_char. rewrite Hsp. cbn [negb]. apply andb_false_r. }
  revert H Hc. generalize (PyStr.skip_spaces t). intros s0 H Hc.
  assert (Hs1 : c = 43 ∨ c = 45
                ∨ c ∈ (if starts_with 43 s0 || starts_with 45 s0 then tail s0 else s0)).
  { destruct s0 as [|c0 s0']; [by apply elem_of_nil in Hc |]. cbn [starts_with tail].
    destruct (N.eqb_spec c0 43) as [-> |]; cbn [orb].
    - apply elem_of_cons in Hc as [-> | Hc]; auto.
    - destruct (N.eqb_spec c0 45) as [-> |]; [| auto].
      apply elem_of_cons in Hc as [-> | Hc]; auto. }
  destruct Hs1 as [-> | [-> | Hs1]]; [reflexivity | reflexivity |].
  revert H Hs1. generalize (if starts_with 43 s0 || starts_with 45 s0 then tail s0 else s0).
  intros s1 H Hs1.
  destruct (starts_with 95 s1); [discriminate |].
  destruct (PyStr.scan s1 0 0 0%Z) as [[[[prev digits] value] rest] |] eqn:Hscan;
    [| discriminate].
  destruct (prev =? 95); [discriminate |].
  destruct (digits =? 0)%nat; [discriminate |].
  destruct (PyStr.max_str_digits <? digits)%nat; [discriminate |].
  destruct (PyStr.skip_spaces rest) eqn:Hrest; [| discriminate].
  destruct (scan_chars _ _ _ _ _ _ _ _ c Hscan Hs1) as [Hd | [-> | Hr]].
  - unfold foreign_char. rewrite Hd. cbn [negb]. by rewrite andb_false_r.
  - reflexivity.
  - apply skip_spaces_chars in Hr as [Hsp | Hr].
    + unfold foreign_char. rewrite Hsp. cbn [negb]. apply andb_false_r.
    + rewrite Hrest in Hr. by apply elem_of_nil in Hr.
Qed.

Lemma transform_foreign (s : pystr) :
  Exists (fun ch => foreign_char ch = true) s →
  Exists (fun ch => foreign_char ch = true) (PyStr.transform ucd s).
Proof.
  induction s as [|ch s IH]; [by intros ?%Exists_nil |]. intros H.
  cbn [PyStr.transform]. destruct (ch <? 127) eqn:E.
  - apply Exists_cons in H as [H | H]; [by apply Exists_cons_hd |].
    by apply Exists_cons_tl, IH.
  - apply Exists_cons in H as [H | H].
    { unfold foreign_char in H. rewrite E in H. discriminate. }
    destruct (PyStr.uc_isspace ucd ch); [by apply Exists_cons_tl, IH |].
    destruct (PyStr.uc_todecimal ucd ch); [by apply Exists_cons_tl, IH |].
    by apply Exists_cons_hd.
Qed.

(** [int] refuses a text that is empty or holds a foreign character. *)
Lemma int_unreadable (s : pystr) : unreadable s → ∃ e, PyStr.int ucd s = Raise e.
Proof.
  intros Hs. unfold PyStr.int.
  destruct (PyStr.long_from_string (PyStr.to_ascii ucd s)) as [v | e] eqn:E;
    [| by eexists].
  exfalso. destruct Hs as [-> | Hs].
  - change (PyStr.to_ascii ucd []) with ([] : pystr) in E. vm_compute in E. discriminate.
  - assert (H : Exists (fun ch => foreign_char ch = true) (PyStr.to_ascii ucd s)).
    { unfold PyStr.to_ascii. destruct (forallb _ s); [done | by apply transform_foreign]. }
    apply Exists_exists in H as (c & Hc & Hf).
    rewrite (long_from_string_chars _ _ _ E Hc) in Hf. discriminate.
Qed.

Lemma dashes_app (a b : pystr) : dashes (a ++ b) = (dashes a + dashes b)%nat.
Proof. unfold dashes. by rewrite filter_app, length_app. Qed.

Lemma dashes_dash (s : pystr) : dashes (45 :: s) = S (dashes s).
Proof. unfold dashes. by rewrite filter_cons_True. Qed.

Lemma dashes_none (s : pystr) : dashes s = 0%nat → Forall (fun ch => ch ≠ 45) s.
Proof.
  unfold dashes. intros H. apply Forall_forall. intros ch Hin ->.
  assert (H45 : 45 ∈ filter (fun ch => ch = 45) s) by (by apply list_elem_of_filter).
  destruct (filter (fun ch => ch = 45) s); [by apply elem_of_nil in H45 | discriminate].
Qed.

(** Three runs of digits between two [-] are read as three numbers. *)
Lemma parse_day_numerals (a b c : pystr) :
  numeral a → numeral b → numeral c →
  (length (a ++ 45%N :: b ++ 45%N :: c) ≤ 10)%nat →
  parse_day ucd (a ++ 45 :: b ++ 45 :: c) = Return (decimal_value c).
Proof.
  intros [Ha1 Ha2] [Hb1 Hb2] [Hc1 Hc2] Hlen. unfold parse_day.
  rewrite !length_app in Hlen. cbn [length] in Hlen. rewrite !length_app in Hlen.
  cbn [length] in Hlen.
  rewrite split_app_sep, split_app_sep, split_no_sep by by apply digits_no_dash.
  cbn [py_map]. rewrite !(int_digits ucd) by (done || lia). reflexivity.
Qed.

(** Three pieces of which one is unreadable are not read. *)
Lemma parse_day_unreadable (a b c : pystr) :
  unreadable a ∨ unreadable b ∨ unreadable c →
  ∃ e, parse_day ucd (a ++ 45 :: b ++ 45 :: c) = Raise e.
Proof.
  intros Hbad.
  destruct (decide (dashes (a ++ 45 :: b ++ 45 :: c) = 2%nat)) as [Hd | Hd];
    [| by apply parse_day_dashes].
  rewrite dashes_app, dashes_dash, dashes_app, dashes_dash in Hd.
  assert (Ha : Forall (fun ch => ch ≠ 45) a) by (apply dashes_none; lia).
  assert (Hb : Forall (fun ch => ch ≠ 45) b) by (apply dashes_none; lia).
  assert (Hc : Forall (fun ch => ch ≠ 45) c) by (apply dashes_none; lia).
  unfold parse_day. rewrite split_app_sep, split_app_sep, split_no_sep by done.
  cbn [py_map].
  destruct (PyStr.int ucd a) as [va |] eqn:Ea; [| by eexists].
  destruct (PyStr.int ucd b) as [vb |] eqn:Eb; [| by eexists].
  destruct (PyStr.int ucd c) as [vc |] eqn:Ec; [| by eexists].
  destruct Hbad as [H | [H | H]]; apply int_unreadable in H as [e He]; congruence.
Qed.

(** C7 (amended). The loop reads the start of an event as its date-only
    value when that is there and not empty, else as its date-time value.
    When the first ten characters of the start are a date in the shape
    YYYY-MM-DD, or any three runs of digits between two [-], the number of
    the third run is added to the set, whether or not the three numbers
    name a day of the calendar or of the month on display.  An event with
    no start, or whose first ten characters do not hold exactly two [-],
    or hold a piece that is empty or has an ASCII character other than a
    digit, an underscore, a sign or white space, leaves the set as it is
    and the loop goes on: a day is in the result exactly when some event of
    the answer contributes it, and an event that is skipped changes nothing
    for the others; the function returns the set the loop has built.  For
    the events starting 2024-03-05, 2024-03-05T09:00:00Z and 2024-03-31 the
    result for March 2024 is {5, 31}, and an event with a date-time only is
    marked by the day of its date-time. *)
Theorem day_markers_from_starts :
  (∀ days ev ts d,
      start_timestamp ev = Some ts → iso_date_day ts = Some d →
      mark_event ucd days ev = {[ d ]} ∪ days)
  ∧ (∀ days ev ts a b c,
        start_timestamp ev = Some ts → take 10 ts = a ++ 45 :: b ++ 45 :: c →
        numeral a → numeral b → numeral c →
        mark_event ucd days ev = {[ decimal_value c ]} ∪ days)
  ∧ (∀ days ev, start_timestamp ev = None → mark_event ucd days ev = days)
  ∧ (∀ days ev ts,
        start_timestamp ev = Some ts → dashes (take 10 ts) ≠ 2%nat →
        mark_event ucd days ev = days)
  ∧ (∀ days ev ts a b c,
        start_timestamp ev = Some ts → take 10 ts = a ++ 45 :: b ++ 45 :: c →
        unreadable a ∨ unreadable b ∨ unreadable c →
        mark_event ucd days ev = days)
  ∧ (∀ evs d,
        d ∈ fold_left (mark_event ucd) evs ∅ ↔ ∃ ev, ev ∈ evs ∧ event_day ucd ev = Some d)
  ∧ (∀ evs1 ev evs2,
        event_day ucd ev = None →
        fold_left (mark_event ucd) (evs1 ++ ev :: evs2) ∅
        = fold_left (mark_event ucd) (evs1 ++ evs2) ∅)
  ∧ (∀ svc y m request evs,
        month_request y m = Return request →
        svc request = Return {| items := Some evs |} →
        fetch_month_event_days ucd (Some svc) y m
        = Return (fold_left (mark_event ucd) evs ∅))
  ∧ fetch_month_event_days ucd (Some (provider_of march_2024_events)) 2024 3
    = Return {[ 5%Z; 31%Z ]}
  ∧ fetch_month_event_days ucd
      (Some (provider_of [datetime_event "2024-03-07T09:00:00Z"])) 2024 3
    = Return {[ 7%Z ]}.
Proof.
  split; [| split; [| split; [| split; [| split; [| split; [| split; [| split;
    [| split]]]]]]]].
  - intros days ev ts d Hts Hiso. rewrite mark_event_spec. unfold event_day.
    by rewrite Hts, (iso_date_day_parse ucd ts d Hiso).
  - intros days ev ts a b c Hts Hp Ha Hb Hc. rewrite mark_event_spec. unfold event_day.
    rewrite Hts, Hp, parse_day_numerals; [done | done | done | done |].
    rewrite <- Hp, length_take. lia.
  - intros days ev Hts. rewrite mark_event_spec. unfold event_day. by rewrite Hts.
  - intros days ev ts Hts Hd. rewrite mark_event_spec. unfold event_day.
    destruct (parse_day_dashes ucd (take 10 ts) Hd) as [e He]. by rewrite Hts, He.
  - intros days ev ts a b c Hts Hp Hbad. rewrite mark_event_spec. unfold event_day.
    destruct (parse_day_unreadable a b c Hbad) as [e He]. by rewrite Hts, Hp, He.
  - apply elem_of_marked.
  - intros evs1 ev evs2 Hev. rewrite !fold_mark_event, !omap_app, omap_cons.
    by rewrite Hev.
  - intros svc y m request evs Hreq Hsvc. unfold fetch_month_event_days.
    rewrite Hreq. cbn [mbind py_bind]. rewrite Hsvc. reflexivity.
  - vm_compute. reflexivity.
  - vm_compute. reflexivity.
Qed.

End StartTexts.

(** The start dates 2024-03-45 and 2024-3-5 are no dates in ISO form, and
    are not skipped: 45 and 5 are marked. *)
Lemma malformed_date_marked :
  is_iso_date (ascii_str "2024-03-45") = false
  ∧ is_iso_date (ascii_str "2024-3-5") = false
  ∧ fetch_month_event_days ascii_ucd (Some (provider_of [date_event "2024-03-45"])) 2024 3
    = Return {[ 45%Z ]}
  ∧ fetch_month_event_days ascii_ucd (Some (provider_of [date_event "2024-3-5"])) 2024 3
    = Return {[ 5%Z ]}.
Proof. repeat split; vm_compute; reflexivity. Qed.

(** ** The OAuth callback *)

Section CallbackFacts.
Context {credentials : Type}.
Context (exchange : pystr → py credentials).
Context (secret_key : bytes).

Lemma verify_state_total (s : pystr) :
  verify_state secret_key s = Return true ∨ verify_state secret_key s = Return false.
Proof.
  rewrite verify_state_unfold. destruct (decode_text s) as [data |]; [| by right].
  destruct (negb _); [by right |]. destruct (Hmac.compare_digest _ _); auto.
Qed.

(** X20. The callback never raises and never logs out.  It leaves the
    page as it is when a parameter is missing or empty or the session is
    logged in; otherwise it clears the query parameters and logs in exactly
    when [verify_state] accepts the state and the exchange of the code
    returns credentials, which it stores; a rejected state is reported
    without the exchange being consulted.  The month shown and the selected
    date are never touched. *)
Theorem callback_outcome (code state_from_google : option pystr)
    (pg : page (credentials := credentials)) :
  ∃ pg',
    callback exchange secret_key code state_from_google pg = Return pg'
    ∧ cal_year (session pg') = cal_year (session pg)
    ∧ cal_month (session pg') = cal_month (session pg)
    ∧ selected_date (session pg') = selected_date (session pg)
    ∧ (logged_in (session pg) = true → pg' = pg)
    ∧ (code = None ∨ code = Some [] ∨ state_from_google = None
       ∨ state_from_google = Some [] → pg' = pg)
    ∧ (logged_in (session pg) = false →
       ∀ c s, code = Some c → c ≠ [] → state_from_google = Some s → s ≠ [] →
         query_params pg' = ∅
         ∧ (verify_state secret_key s = Return false →
            pg' = clear_params (show (error_box state_failed_text) pg))
         ∧ (verify_state secret_key s = Return true →
            match exchange c with
            | Return cr => pg' = clear_params (log_in cr pg)
            | Raise e =>
              pg' = clear_params
                      (show (written e) (show (error_box login_failed_text) pg))
            end)
         ∧ (logged_in (session pg') = true
            ↔ verify_state secret_key s = Return true
              ∧ ∃ cr, exchange c = Return cr ∧ creds pg' = Some cr)).
Proof.
  unfold callback.
  destruct code as [[|c code'] |];
    try (exists pg; repeat split; try done; naive_solver).
  destruct state_from_google as [[|s state'] |];
    try (exists pg; repeat split; try done; naive_solver).
  destruct (logged_in (session pg)) eqn:Hin; cbn [negb].
  { exists pg. repeat split; try done. }
  destruct (verify_state_total (s :: state')) as [Hv | Hv]; rewrite Hv;
    cbn [mbind py_bind negb];
    [destruct (exchange (c :: code')) as [cr | e] eqn:Hex |];
    (eexists; split; [reflexivity |]);
    (do 3 (split; [done |])); (split; [congruence |]);
    (split; [intros [? | [? | [? | ?]]]; discriminate |]);
    intros _ c0 s0 [= <-] _ [= <-] _; (split; [done |]);
    rewrite Hv, Hex || rewrite Hv;
    (split; [done |]); (split; [done |]); cbn [session clear_params show log_in logged_in].
  - split; [intros _; split; [done | by exists cr] | done].
  - rewrite Hin. split; [done | intros [_ (cr & [=] & _)]].
  - rewrite Hin. split; [done | intros [[=] _]].
Qed.

Lemma token_of_length (data : bytes) :
  length data = 48%nat → length (token_of data) = 64%nat.
Proof.
  intros Hdata. unfold token_of. by rewrite length_map, urlsafe_b64encode_length, Hdata.
Qed.

(** X21. A state made by [generate_state] under the same secret passes the
    callback, whatever the random bytes: with a code and a session not
    logged in, the code is exchanged, and the run logs in with the
    credentials returned or, when the exchange raises, reports the failure
    and stays logged out; in both cases the query parameters are cleared. *)
Theorem callback_of_generated_state (rng : entropy) (code : pystr)
    (pg : page (credentials := credentials)) :
  code ≠ [] → logged_in (session pg) = false →
  ∃ token,
    fst (generate_state secret_key rng) = Return token
    ∧ callback exchange secret_key (Some code) (Some token) pg
      = Return
          match exchange code with
          | Return cr => clear_params (log_in cr pg)
          | Raise e =>
            clear_params (show (written e) (show (error_box login_failed_text) pg))
          end.
Proof.
  intros Hcode Hin. rewrite generate_state_token. cbn [fst]. eexists. split; [reflexivity |].
  set (nonce := fst (urandom 16 rng)).
  assert (Hn : length nonce = 16%nat) by apply urandom_length.
  pose proof (verify_signed_nonce secret_key nonce Hn) as Hv.
  assert (Hlen : length (token_of (nonce ++ Hmac.hmac_sha256 secret_key nonce)) = 64%nat).
  { apply token_of_length. rewrite length_app, hmac_sha256_length. lia. }
  revert Hv Hlen. generalize (token_of (nonce ++ Hmac.hmac_sha256 secret_key nonce)).
  intros token Hv Hlen. unfold callback.
  destruct code as [|c code']; [done |]. destruct token as [|s token']; [done |].
  rewrite Hin, Hv. cbn [negb mbind py_bind].
  by destruct (exchange (c :: code')).
Qed.

(** X22. A state of fewer than 64 characters is turned away before the
    exchange: with a code and a session not logged in, the callback reports
    the failed check, clears the query parameters and leaves the session
    and the credentials as they were, whatever the exchange would do. *)
Theorem callback_rejects_short_state (code state_str : pystr)
    (pg : page (credentials := credentials)) :
  code ≠ [] → state_str ≠ [] → (length state_str < 64)%nat →
  logged_in (session pg) = false →
  callback exchange secret_key (Some code) (Some state_str) pg
  = Return (clear_params (show (error_box state_failed_text) pg)).
Proof.
  intros Hcode Hstate Hlen Hin. unfold callback.
  destruct code as [|c code']; [done |]. destruct state_str as [|s state']; [done |].
  rewrite Hin, short_state_rejected by done. reflexivity.
Qed.

(** X23. Read from [st.query_params], the state is the first character of
    the parameter, which [verify_state] never accepts: the callback never
    logs in and never consults the exchange.  A run stops only with
    [IndexError], on an empty [code] or [state] parameter; otherwise it
    leaves the page as it is, or, when both parameters are there and the
    session is not logged in, reports the failed check and clears the
    parameters.  The session, the credentials and the provider service stay
    as they were. *)
Theorem oauth_callback_never_logs_in (build : credentials → service)
    (pg : page (credentials := credentials)) :
  match oauth_callback exchange secret_key pg with
  | Stopped s =>
    s = IndexError
    ∧ (query_params pg !! ascii_str "code" = Some []
       ∨ query_params pg !! ascii_str "state" = Some [])
  | Done pg' =>
    session pg' = session pg ∧ creds pg' = creds pg
    ∧ page_service build pg' = page_service build pg
    ∧ pg' = if param_given (query_params pg) "code"
               && param_given (query_params pg) "state"
               && negb (logged_in (session pg))
            then clear_params (show (error_box state_failed_text) pg)
            else pg
  end.
Proof.
  unfold oauth_callback, first_of_param, param_given.
  destruct (query_params pg !! ascii_str "code") as [[|c v] |] eqn:Hc.
  - split; [done | by left].
  - destruct (query_params pg !! ascii_str "state") as [[|s w] |] eqn:Hs.
    + split; [done | by right].
    + destruct (logged_in (session pg)) eqn:Hin.
      * unfold callback. by rewrite Hin.
      * unfold callback. by rewrite Hin, short_state_rejected by (cbn; lia).
    + done.
  - cbn [callback]. destruct (query_params pg !! ascii_str "state") as [[|s w] |] eqn:Hs.
    + split; [done | by right].
    + done.
    + done.
Qed.

End CallbackFacts.

Lemma callback_of_generated_state_sample :
  ∃ token,
    fst (generate_state sample_key (fun _ => "000"%byte)) = Return token
    ∧ callback (fun _ => Return tt) sample_key (Some (ascii_str "4/0Ab")) (Some token)
        (fresh_page march_session (redirect_params "4/0Ab" ""))
      = Return (clear_params (log_in tt (fresh_page march_session (redirect_params "4/0Ab" "")))).
Proof.
  apply (callback_of_generated_state (fun _ => Return tt) sample_key (fun _ => "000"%byte)
           (ascii_str "4/0Ab") (fresh_page march_session (redirect_params "4/0Ab" "")));
    [discriminate | reflexivity].
Defined.

Lemma callback_rejects_short_state_sample :
  callback (fun _ => Return tt) sample_key (Some (ascii_str "4/0Ab")) (Some (ascii_str "A"))
    (fresh_page march_session ∅)
  = Return (clear_params (show (error_box state_failed_text) (fresh_page march_session ∅))).
Proof.
  apply callback_rejects_short_state; [discriminate | discriminate | cbn; lia | reflexivity].
Defined.
